(** * AdMob MCP server: a shallow embedding of the tool dispatcher and of the
      OAuth2 authorization flow, with the properties of the specification.

    Sources embedded here:
    - [src/tools.ts] in its two revisions, the three-tool dispatcher
      (module [Tools3]) and the five-tool dispatcher (module [Tools5]);
    - [src/auth.ts] ([authorize], [loadSavedCredentialsIfExist],
      [saveCredentials], [authenticate]), module [Auth].

    The JavaScript values the handlers inspect are modelled by [JValue]; the
    control flow of a function body (fall through, early [return], [throw])
    by the [Flow] monad; calls to the AdMob client by an explicit trace of
    the requests issued, the upstream being a function of the requests
    issued so far.  What belongs to the engine or to third-party libraries
    (number parsing outside plain digit strings, [JSON.stringify],
    [JSON.parse], the Google client factories, the WHATWG URL parser) is a
    field of the [Runtime] record. *)

From Stdlib Require Import String Ascii List ZArith Bool Lia DecimalString.
Import ListNotations.
Local Open Scope string_scope.

(* ================================================================== *)
(** ** JavaScript values *)

(** A number value: a finite double [m * 2^e] (the sign of zero is not
    observable by the program and is dropped), an infinity, or NaN. *)
Inductive JSNumber : Type :=
| NFinite (m e : Z)
| NInfinity (negative : bool)
| NNaN.

Definition NInt (z : Z) : JSNumber := NFinite z 0.

(** Strings are Rocq strings, one character per code unit.  The program
    only splits them at ["-"], searches an ASCII substring, compares them
    with ASCII literals and tests them for emptiness. *)
Local Unset Elimination Schemes.
Inductive JValue : Type :=
| JUndefined
| JNull
| JBool (b : bool)
| JNum (n : JSNumber)
| JStr (s : string)
| JArr (elems : list JValue)
| JObj (props : list (string * JValue))
| JArrayValues.  (* the built-in function [Array.prototype.values] *)
Local Set Elimination Schemes.

Record JSError : Type := mkError { ename : string; emessage : string }.

Definition Error (msg : string) : JSError := mkError "Error" msg.
Definition TypeError (msg : string) : JSError := mkError "TypeError" msg.

(** [String(e)] for an error object, i.e. [Error.prototype.toString]. *)
Definition String_of_error (e : JSError) : string :=
  if (ename e =? "") then emessage e
  else if (emessage e =? "") then ename e
  else ename e ++ ": " ++ emessage e.

(** [String(n)] for an integral number such as an HTTP status. *)
Definition String_of_int (z : Z) : string :=
  NilZero.string_of_int (Z.to_int z).

(** A field typed [T | null | undefined] by the client library. *)
Inductive Nullable (A : Type) : Type :=
| Undefined
| Null
| Val (a : A).
Arguments Undefined {A}.
Arguments Null {A}.
Arguments Val {A} a.

Definition JValue_of_nullable (x : Nullable string) : JValue :=
  match x with
  | Undefined => JUndefined
  | Null => JNull
  | Val s => JStr s
  end.

(** [x ?? undefined] followed by the truthiness test of a string. *)
Definition nullish_to_undefined {A} (x : Nullable A) : option A :=
  match x with
  | Val a => Some a
  | _ => None
  end.

Definition truthy_string (s : string) : bool := negb (s =? "").

Definition truthy_opt_string (s : option string) : bool :=
  match s with
  | Some s => truthy_string s
  | None => false
  end.

Definition number_nonzero (n : JSNumber) : bool :=
  match n with
  | NFinite m _ => negb (m =? 0)%Z
  | NInfinity _ => true
  | NNaN => false
  end.

Definition number_positive (n : JSNumber) : bool :=
  match n with
  | NFinite m _ => (0 <? m)%Z
  | NInfinity negative => negb negative
  | NNaN => false
  end.

(** [ToBoolean]. *)
Definition truthy (v : JValue) : bool :=
  match v with
  | JUndefined | JNull => false
  | JBool b => b
  | JNum n => number_nonzero n
  | JStr s => truthy_string s
  | JArr _ | JObj _ | JArrayValues => true
  end.

(* ================================================================== *)
(** ** Control flow of a function body *)

Inductive Flow (R A : Type) : Type :=
| Continue (a : A)        (* execution goes on with [a] *)
| Return (r : R)          (* the enclosing function returned [r] *)
| Throw (e : JSError).    (* an exception propagates *)
Arguments Continue {R A} a.
Arguments Return {R A} r.
Arguments Throw {R A} e.

Definition bind {R A B} (c : Flow R A) (k : A -> Flow R B) : Flow R B :=
  match c with
  | Continue a => k a
  | Return r => Return r
  | Throw e => Throw e
  end.

Notation "x <- c ;; k" := (bind c (fun x => k))
  (at level 61, c at next level, right associativity).

Fixpoint mapM {R A B} (f : A -> Flow R B) (l : list A) : Flow R (list B) :=
  match l with
  | [] => Continue []
  | x :: xs => y <- f x ;; ys <- mapM f xs ;; Continue (y :: ys)
  end.

(** What a call of the [async] tool handler amounts to: the promise is
    fulfilled with a result, rejected with the exception thrown, or the model
    has run out of fuel. *)
Inductive Outcome (A : Type) : Type :=
| Returns (a : A)
| Throws (e : JSError)
| OutOfFuel.
Arguments Returns {A} a.
Arguments Throws {A} e.
Arguments OutOfFuel {A}.

(* ================================================================== *)
(** ** Strings *)

(** [s.split(sep)] for a one-character separator. *)
Fixpoint split (sep : ascii) (s : string) : list string :=
  match s with
  | EmptyString => [EmptyString]
  | String c s' =>
      if Ascii.eqb c sep then EmptyString :: split sep s'
      else match split sep s' with
           | [] => [String c EmptyString]
           | p :: ps => String c p :: ps
           end
  end.

(** [hay.includes(needle)]. *)
Fixpoint includes (needle hay : string) : bool :=
  if String.prefix needle hay then true
  else match hay with
       | EmptyString => false
       | String _ hay' => includes needle hay'
       end.

Definition digit_value (c : ascii) : option Z :=
  let n := Z.of_nat (nat_of_ascii c) in
  if ((48 <=? n) && (n <=? 57))%Z then Some (n - 48)%Z else None.

(** The value of a string of decimal digits, [None] if another character
    occurs. *)
Fixpoint digits_value (acc : Z) (s : string) : option Z :=
  match s with
  | EmptyString => Some acc
  | String c s' =>
      match digit_value c with
      | Some d => digits_value (10 * acc + d) s'
      | None => None
      end
  end.

(* ================================================================== *)
(** ** The report specification and the AdMob client *)

(** [{ year, month, day }], each field the result of [Number] on a piece of
    the date string, or [undefined] where the piece is missing. *)
Record DateSpec : Type := mkDate {
  year : JValue;
  month : JValue;
  day : JValue
}.

Record DateRange : Type := mkDateRange {
  startDate : DateSpec;
  endDate : DateSpec
}.

(** [{ values: ... }] *)
Record StringList : Type := mkStringList { values : JValue }.

(** [{ dimension: ..., matchesAny: { values: ... } }] *)
Record DimensionFilter : Type := mkDimensionFilter {
  dimension : JValue;
  matchesAny : StringList
}.

Inductive SortCondition : Type :=
| DimensionSort (dimension order : JValue)  (* [{ dimension, order }] *)
| MetricSort (metric order : JValue).       (* [{ metric, order }] *)

(** [reportSpec]: the keys [dateRange] and [metrics] are always set; a key
    that the handler never assigns is [None]. *)
Record ReportSpec : Type := mkReportSpec {
  dateRange : DateRange;
  metrics : JValue;
  dimensions : option JValue;
  dimensionFilters : option (list DimensionFilter);
  sortConditions : option (list SortCondition)
}.

(** The calls of the AdMob client the handlers make, with their parameters. *)
Inductive ApiRequest : Type :=
| AccountsGet (name : string)
| AdUnitsList (parent : string) (pageToken : option string)
| AppsList (parent : string) (pageToken : option string)
| NetworkReportGenerate (parent : string) (reportSpec : ReportSpec)
| MediationReportGenerate (parent : string) (reportSpec : ReportSpec).

Definition Trace : Type := list ApiRequest.

(** The promise a client call returns: rejected, or resolved with a response
    [{ ok, status, data }]. *)
Inductive Response (T : Type) : Type :=
| Rejected (e : JSError)
| Resolved (ok : bool) (status : Z) (data : T).
Arguments Rejected {T} e.
Arguments Resolved {T} ok status data.

(** [Schema$PublisherAccount], the four fields the handler reads. *)
Record PublisherAccount : Type := mkAccount {
  acc_name : Nullable string;
  publisherId : Nullable string;
  reportingTimeZone : Nullable string;
  currencyCode : Nullable string
}.

(** [Schema$ListAdUnitsResponse] *)
Record ListAdUnitsResponse : Type := mkAdUnitsPage {
  adUnits : option (list JValue);
  adUnits_nextPageToken : Nullable string
}.

(** [Schema$ListAppsResponse] *)
Record ListAppsResponse : Type := mkAppsPage {
  apps : option (list JValue);
  apps_nextPageToken : Nullable string
}.

(** The client [google.admob({ version: "v1", auth })].  Each method answers
    from the requests this call has issued so far (oldest first) and from its
    own parameters, so that any deterministic upstream is an instance. *)
Record Admob : Type := mkAdmob {
  accounts_get : Trace -> string -> Response PublisherAccount;
  accounts_adUnits_list :
    Trace -> string -> option string -> Response ListAdUnitsResponse;
  accounts_apps_list :
    Trace -> string -> option string -> Response ListAppsResponse;
  accounts_networkReport_generate :
    Trace -> string -> ReportSpec -> Response JValue;
  accounts_mediationReport_generate :
    Trace -> string -> ReportSpec -> Response JValue
}.

(** [OAuth2Client]: the client identity and the credentials set on it. *)
Record OAuth2Client : Type := mkClient {
  clientId : JValue;
  clientSecret : JValue;
  redirectUri : option string;
  credentials : JValue
}.

(** What the engine and the libraries provide. *)
Record Runtime : Type := mkRuntime {
  (* [StringToNumber] on strings that are not plain digit strings *)
  StringToNumber : string -> JSNumber;
  (* [x > 0] for an array, an object or a function [x]: the result of
     [ToPrimitive] then [ToNumber], or the TypeError it throws *)
  object_gt_zero : JValue -> JSError + bool;
  (* [JSON.stringify(v)] and [JSON.stringify(v, null, 2)] *)
  JSON_stringify : JValue -> string;
  JSON_stringify_pretty : JValue -> string;
  (* [JSON.parse(text)], or the error it throws *)
  JSON_parse : string -> JSError + JValue;
  (* [google.auth.fromJSON(credentials)], [None] when it throws *)
  google_auth_fromJSON : JValue -> option OAuth2Client;
  (* [google.admob({ version: "v1", auth })] *)
  google_admob : OAuth2Client -> Admob;
  (* [oAuth2Client.generateAuthUrl({ access_type, scope })] *)
  generateAuthUrl : OAuth2Client -> string -> string -> string;
  (* [new url.URL(input, base).searchParams], or the error the constructor
     throws *)
  URL_searchParams : string -> string -> JSError + list (string * string);
  (* [oAuth2Client.getToken(code)]: rejected, or resolved with [tokens] *)
  getToken : OAuth2Client -> string -> JSError + JValue
}.

(* ================================================================== *)
(** ** Operations of the language on [JValue] *)

Definition nonempty {A} (l : list A) : bool :=
  match l with
  | [] => false
  | _ :: _ => true
  end.

(** [Number(s)] for a string [s]: zero for the empty string, the exact value
    for a string of decimal digits up to [2^53], the engine's answer
    otherwise. *)
Definition Number (rt : Runtime) (s : string) : JSNumber :=
  if s =? "" then NInt 0
  else match digits_value 0 s with
       | Some z => if (z <=? 2 ^ 53)%Z then NInt z else StringToNumber rt s
       | None => StringToNumber rt s
       end.

(** Own property of an object, [undefined] when there is none. *)
Definition lookup (k : string) (props : list (string * JValue)) : JValue :=
  match find (fun kv => fst kv =? k) props with
  | Some kv => snd kv
  | None => JUndefined
  end.

(** [v.k] (or [v[k]]), for the property names the program reads:
    [dateRangeStart], [dateRangeEnd], [metrics], [dimensions],
    [dimensionFilters], [dimensionSortCondition], [metricSortCondition],
    [dimension], [values], [order], [metric], [length], [installed], [web],
    [client_id], [client_secret], [refresh_token].  None of them is inherited
    by a plain object; an array inherits [values] and has [length]. *)
Definition get_prop {R} (v : JValue) (k : string) : Flow R JValue :=
  match v with
  | JUndefined =>
      Throw (TypeError
               ("Cannot read properties of undefined (reading '" ++ k ++ "')"))
  | JNull =>
      Throw (TypeError
               ("Cannot read properties of null (reading '" ++ k ++ "')"))
  | JObj props => Continue (lookup k props)
  | JArr elems =>
      if k =? "length" then Continue (JNum (NInt (Z.of_nat (List.length elems))))
      else if k =? "values" then Continue JArrayValues
      else Continue JUndefined
  | JStr s =>
      if k =? "length" then Continue (JNum (NInt (Z.of_nat (String.length s))))
      else Continue JUndefined
  | JArrayValues =>
      if k =? "length" then Continue (JNum (NInt 0)) else Continue JUndefined
  | JBool _ | JNum _ => Continue JUndefined
  end.

(** [v > 0] *)
Definition gt_zero {R} (rt : Runtime) (v : JValue) : Flow R bool :=
  match v with
  | JUndefined | JNull => Continue false
  | JBool b => Continue b
  | JNum n => Continue (number_positive n)
  | JStr s => Continue (number_positive (Number rt s))
  | JArr _ | JObj _ | JArrayValues =>
      match object_gt_zero rt v with
      | inl e => Throw e
      | inr b => Continue b
      end
  end.

(** [v.length > 0] *)
Definition length_gt_zero {R} (rt : Runtime) (v : JValue) : Flow R bool :=
  len <- get_prop v "length" ;; gt_zero rt len.

(** [Object.keys(v).length > 0] *)
Definition Object_keys_nonempty {R} (v : JValue) : Flow R bool :=
  match v with
  | JUndefined | JNull =>
      Throw (TypeError "Cannot convert undefined or null to object")
  | JStr s => Continue (truthy_string s)
  | JArr elems => Continue (nonempty elems)
  | JObj props => Continue (nonempty props)
  | JBool _ | JNum _ | JArrayValues => Continue false
  end.

(** [a && b] in a condition, [b] evaluated only when [a] is truthy. *)
Definition and_then {R} (a : bool) (b : Flow R bool) : Flow R bool :=
  if a then b else Continue false.

(** [v.split("-").map(Number)], [what] naming the variable in the message. *)
Definition split_map_Number {R} (rt : Runtime) (what : string) (v : JValue)
  : Flow R (list JValue) :=
  match v with
  | JStr s => Continue (map (fun piece => JNum (Number rt piece)) (split "-" s))
  | JUndefined =>
      Throw (TypeError "Cannot read properties of undefined (reading 'split')")
  | JNull =>
      Throw (TypeError "Cannot read properties of null (reading 'split')")
  | JBool _ | JNum _ | JArr _ | JObj _ | JArrayValues =>
      Throw (TypeError (what ++ ".split is not a function"))
  end.

(** [const [a, b, c] = pieces] *)
Definition destructure3 (pieces : list JValue) : DateSpec :=
  mkDate (nth 0 pieces JUndefined) (nth 1 pieces JUndefined)
         (nth 2 pieces JUndefined).

(* ================================================================== *)
(** ** MCP requests and results, the process environment *)

Record ContentBlock : Type := mkContent { type : string; text : string }.

(** A tool result; [isError] is [None] where the object literal has no such
    key. *)
Record CallToolResult : Type := mkResult {
  content : list ContentBlock;
  isError : option bool
}.

(** [request.params]: the tool name and the optional arguments object. *)
Record CallToolRequest : Type := mkRequest {
  name : string;
  arguments : option (list (string * JValue))
}.

(** The two credential files as [fs.readFileSync] finds them: the content,
    or the error thrown. *)
Record Files : Type := mkFiles {
  token_json : JSError + string;
  client_secret_json : JSError + string
}.

(** [process.env] *)
Record Env : Type := mkEnv { PUBLISHER_CODE : option string }.

(** A thrown value, or a result. *)
Definition attempt {R A} (x : JSError + A) : Flow R A :=
  match x with
  | inl e => Throw e
  | inr a => Continue a
  end.

(* ================================================================== *)
(** ** [src/auth.ts] *)

Module Auth.

Definition SCOPES : list string :=
  [ "https://www.googleapis.com/auth/admob.readonly";
    "https://www.googleapis.com/auth/admob.report" ].

Inductive Listener : Type :=
| NotCreated
| Listening
| Closed.

(** How [fs.writeFileSync] fails on the token file.  The call opens the file,
    which creates or truncates it, then writes the text: a failure to open
    leaves the file as it was, a failure while writing leaves it holding the
    characters written so far. *)
Inductive WriteFailure : Type :=
| FailsAtOpen (e : JSError)
| FailsAtWrite (e : JSError) (written : nat).

(** The state the flow acts on.  [listen_error] and [write_error] say whether
    binding port 3000 and writing the token file fail, and how. *)
Record World : Type := mkWorld {
  files : Files;
  listener : Listener;
  browser : list string;          (* URLs passed to [open], latest last *)
  replies : list string;          (* bodies passed to [res.end] *)
  token_requests : list string;   (* codes passed to [getToken] *)
  listen_error : option JSError;
  write_error : option WriteFailure
}.

Definition set_files (w : World) (f : Files) : World :=
  mkWorld f (listener w) (browser w) (replies w) (token_requests w)
          (listen_error w) (write_error w).

Definition set_listener (w : World) (l : Listener) : World :=
  mkWorld (files w) l (browser w) (replies w) (token_requests w)
          (listen_error w) (write_error w).

Definition open_browser (w : World) (u : string) : World :=
  mkWorld (files w) (listener w) (browser w ++ [u]) (replies w)
          (token_requests w) (listen_error w) (write_error w).

Definition res_end (w : World) (body : string) : World :=
  mkWorld (files w) (listener w) (browser w) (replies w ++ [body])
          (token_requests w) (listen_error w) (write_error w).

Definition request_token (w : World) (code : string) : World :=
  mkWorld (files w) (listener w) (browser w) (replies w)
          (token_requests w ++ [code]) (listen_error w) (write_error w).

(** How the flow stands: the promise is pending, fulfilled or rejected, or an
    ['error'] event nobody listens to has terminated the process. *)
Inductive Settlement (A : Type) : Type :=
| Pending
| Fulfilled (a : A)
| RejectedWith (e : JSError)
| Crashed (e : JSError).
Arguments Pending {A}.
Arguments Fulfilled {A} a.
Arguments RejectedWith {A} e.
Arguments Crashed {A} e.

(** [loadSavedCredentialsIfExist], lines 80-88: any exception gives [null]. *)
Definition loadSavedCredentialsIfExist (rt : Runtime) (f : Files)
  : option OAuth2Client :=
  match token_json f with
  | inl _ => None
  | inr content =>
      match JSON_parse rt content with
      | inl _ => None
      | inr credentials => google_auth_fromJSON rt credentials
      end
  end.

(** [keys.installed || keys.web], after reading and parsing the client
    secret; shared by [saveCredentials] (lines 91-93) and [authenticate]
    (lines 108-110), which both spell it out. *)
Definition read_key (rt : Runtime) (f : Files) : Flow unit JValue :=
  content <- attempt (client_secret_json f) ;;
  keys <- attempt (JSON_parse rt content) ;;
  installed <- get_prop keys "installed" ;;
  if truthy installed then Continue installed else get_prop keys "web".

(** [saveCredentials], lines 90-104 *)
Definition saveCredentials (rt : Runtime) (client : OAuth2Client) (w : World)
  : (JSError + unit) * World :=
  let payload : Flow unit string :=
    key <- read_key rt (files w) ;;
    if negb (truthy key)
    then Throw (Error "No client secrets found in client_secret.json")
    else
      client_id <- get_prop key "client_id" ;;
      client_secret <- get_prop key "client_secret" ;;
      refresh_token <- get_prop (credentials client) "refresh_token" ;;
      Continue (JSON_stringify rt
                  (JObj [ ("type", JStr "authorized_user");
                          ("client_id", client_id);
                          ("client_secret", client_secret);
                          ("refresh_token", refresh_token) ]))
  in
  match payload with
  | Throw e => (inl e, w)
  | Return _ => (inr tt, w)
  | Continue payload =>
      match write_error w with
      | Some (FailsAtOpen e) => (inl e, w)
      | Some (FailsAtWrite e written) =>
          (inl e,
           set_files w (mkFiles (inr (substring 0 written payload))
                                (client_secret_json (files w))))
      | None =>
          (inr tt,
           set_files w (mkFiles (inr payload) (client_secret_json (files w))))
      end
  end.

(** [qs.get("code")] *)
Definition searchParams_get (k : string) (qs : list (string * string))
  : option string :=
  match find (fun kv => fst kv =? k) qs with
  | Some kv => Some (snd kv)
  | None => None
  end.

(** [resolve] and [reject] act on a pending promise only. *)
Definition settle_with {A} (p new : Settlement A) : Settlement A :=
  match p with
  | Pending => new
  | _ => p
  end.

(** The request listener of [authenticate], lines 127-145, on one request
    with URL [req_url] ([None] for [undefined]).  Requests are taken one at a
    time: the listener is run to its end, the [await] of [getToken] included,
    before the next request is looked at.  The source has no guard of its
    own against a second callback arriving during that [await]; such
    interleavings are outside this model. *)
Definition on_request (rt : Runtime) (oAuth2Client : OAuth2Client)
    (req_url : option string) (st : Settlement OAuth2Client * World)
  : Settlement OAuth2Client * World :=
  let (p, w) := st in
  match req_url with
  | None => (p, w)
  | Some u =>
      if truthy_string u && includes "/oauth2callback" u then
        match URL_searchParams rt u "http://localhost:3000" with
        | inl e => (settle_with p (RejectedWith e), w)
        | inr qs =>
            let w := res_end w
              "Authentication successful! Please return to the console." in
            let w := set_listener w Closed in
            let code := searchParams_get "code" qs in
            match code with
            | Some c =>
                if truthy_string c then
                  let w := request_token w c in
                  match getToken rt oAuth2Client c with
                  | inl e => (settle_with p (RejectedWith e), w)
                  | inr tokens =>
                      (settle_with p
                         (Fulfilled
                            (mkClient (clientId oAuth2Client)
                               (clientSecret oAuth2Client)
                               (redirectUri oAuth2Client) tokens)), w)
                  end
                else
                  (settle_with p
                     (RejectedWith (Error "No code found in callback URL")), w)
            | None =>
                (settle_with p
                   (RejectedWith (Error "No code found in callback URL")), w)
            end
        end
      else (p, w)
  end.

(** The requests reaching the listener, in order, until the promise is
    settled: [authorize] then resumes, and [index.ts] ends the process on
    either outcome. *)
Fixpoint serve (rt : Runtime) (oAuth2Client : OAuth2Client)
    (requests : list (option string)) (st : Settlement OAuth2Client * World)
  : Settlement OAuth2Client * World :=
  match requests with
  | [] => st
  | r :: rest =>
      match fst st with
      | Pending => serve rt oAuth2Client rest (on_request rt oAuth2Client r st)
      | _ => st
      end
  end.

(** [authenticate], lines 106-150.  An exception of the executor rejects the
    promise; a failure to bind the port is an ['error'] event without a
    listener.  [open] is recorded by the URL it is given; its own failure is
    not modelled. *)
Definition authenticate (rt : Runtime) (scopes : list string) (w : World)
    (requests : list (option string)) : Settlement OAuth2Client * World :=
  match read_key rt (files w) with
  | Throw e => (RejectedWith e, w)
  | Return _ => (Pending, w)
  | Continue key =>
      if negb (truthy key)
      then (RejectedWith (Error "No client secrets found in client_secret.json"), w)
      else
        match (client_id <- get_prop key "client_id" ;;
               client_secret <- get_prop key "client_secret" ;;
               Continue (mkClient client_id client_secret
                           (Some "http://localhost:3000/oauth2callback")
                           (JObj [])) : Flow unit OAuth2Client) with
        | Throw e => (RejectedWith e, w)
        | Return _ => (Pending, w)
        | Continue oAuth2Client =>
            let authorizeUrl :=
              generateAuthUrl rt oAuth2Client "offline"
                              (String.concat " " scopes) in
            match listen_error w with
            | Some e => (Crashed e, w)
            | None =>
                let w := set_listener w Listening in
                let w := open_browser w authorizeUrl in
                serve rt oAuth2Client requests (Pending, w)
            end
        end
  end.

(** [authorize], lines 64-78.  A client object is truthy, so the final
    [throw] of the source is never reached. *)
Definition authorize (rt : Runtime) (w : World)
    (requests : list (option string)) : Settlement OAuth2Client * World :=
  match loadSavedCredentialsIfExist rt (files w) with
  | Some client => (Fulfilled client, w)
  | None =>
      match authenticate rt SCOPES w requests with
      | (Fulfilled client, w') =>
          match saveCredentials rt client w' with
          | (inl e, w'') => (RejectedWith e, w'')
          | (inr _, w'') => (Fulfilled client, w'')
          end
      | other => other
      end
  end.

End Auth.

(* ================================================================== *)
(** ** [src/tools.ts], the three-tool dispatcher *)

Module Tools3.

Definition GET_ACCOUNT : string := "get_account".
Definition LIST_AD_UNITS : string := "list_ad_units".
Definition LIST_APPS : string := "list_apps".

(** The [do ... while (pageToken)] loop of the [list_ad_units] branch inside
    its [try] block, lines 128-168.  [fuel] bounds the number of iterations;
    [trace] holds the requests issued so far. *)
Fixpoint list_ad_units_loop (rt : Runtime) (admob : Admob)
    (publisherCode : string) (fuel : nat) (allAdUnits : list JValue)
    (pageToken : option string) (trace : Trace)
  : Outcome CallToolResult * Trace :=
  match fuel with
  | O => (OutOfFuel, trace)
  | S fuel' =>
      let parent := "accounts/" ++ publisherCode in
      let trace' := (trace ++ [AdUnitsList parent pageToken])%list in
      match accounts_adUnits_list admob trace parent pageToken with
      | Rejected error =>
          (Returns
             {| content :=
                  [ {| type := "text";
                       text := "An error occurred: " ++ String_of_error error |} ];
                isError := Some true |},
           trace')
      | Resolved ok status data =>
          if negb ok then
            (Returns
               {| content :=
                    [ {| type := "text";
                         text := "API request failed with status: "
                                 ++ String_of_int status |} ];
                  isError := Some true |},
             trace')
          else
            let allAdUnits' :=
              match adUnits data with
              | Some (u :: us) => (allAdUnits ++ u :: us)%list
              | _ => allAdUnits
              end in
            let pageToken' := nullish_to_undefined (adUnits_nextPageToken data) in
            if truthy_opt_string pageToken'
            then list_ad_units_loop rt admob publisherCode fuel' allAdUnits'
                                    pageToken' trace'
            else
              (Returns
                 {| content :=
                      [ {| type := "text";
                           text := JSON_stringify_pretty rt (JArr allAdUnits') |} ];
                    isError := None |},
               trace')
      end
  end.

(** The loop of the [list_apps] branch, lines 187-227. *)
Fixpoint list_apps_loop (rt : Runtime) (admob : Admob)
    (publisherCode : string) (fuel : nat) (allApps : list JValue)
    (pageToken : option string) (trace : Trace)
  : Outcome CallToolResult * Trace :=
  match fuel with
  | O => (OutOfFuel, trace)
  | S fuel' =>
      let parent := "accounts/" ++ publisherCode in
      let trace' := (trace ++ [AppsList parent pageToken])%list in
      match accounts_apps_list admob trace parent pageToken with
      | Rejected error =>
          (Returns
             {| content :=
                  [ {| type := "text";
                       text := "An error occurred: " ++ String_of_error error |} ];
                isError := Some true |},
           trace')
      | Resolved ok status data =>
          if negb ok then
            (Returns
               {| content :=
                    [ {| type := "text";
                         text := "API request failed with status: "
                                 ++ String_of_int status |} ];
                  isError := Some true |},
             trace')
          else
            let allApps' :=
              match apps data with
              | Some (a :: as') => (allApps ++ a :: as')%list
              | _ => allApps
              end in
            let pageToken' := nullish_to_undefined (apps_nextPageToken data) in
            if truthy_opt_string pageToken'
            then list_apps_loop rt admob publisherCode fuel' allApps'
                                pageToken' trace'
            else
              (Returns
                 {| content :=
                      [ {| type := "text";
                           text := JSON_stringify_pretty rt (JArr allApps') |} ];
                    isError := None |},
               trace')
      end
  end.

(** The [get_account] branch, lines 90-122; the call is not inside a [try]. *)
Definition get_account (rt : Runtime) (admob : Admob) (publisherCode : string)
  : Outcome CallToolResult * Trace :=
  let name := "accounts/" ++ publisherCode in
  let trace := [AccountsGet name] in
  match accounts_get admob [] name with
  | Rejected error => (Throws error, trace)
  | Resolved ok status data =>
      if negb ok then
        (Returns
           {| content :=
                [ {| type := "text";
                     text := "API request failed: " ++ String_of_int status |} ];
              isError := Some true |},
         trace)
      else
        (Returns
           {| content :=
                [ {| type := "text";
                     text :=
                       JSON_stringify_pretty rt
                         (JObj
                            [ ("name", JValue_of_nullable (acc_name data));
                              ("publisherId",
                               JValue_of_nullable (publisherId data));
                              ("reportingTimeZone",
                               JValue_of_nullable (reportingTimeZone data));
                              ("currencyCode",
                               JValue_of_nullable (currencyCode data)) ]) |} ];
              isError := None |},
         trace)
  end.

(** The [CallToolRequestSchema] handler that [configureTools] registers,
    lines 60-243.  It returns the outcome of the call and the upstream
    requests issued, in order. *)
Definition callTool (rt : Runtime) (f : Files) (env : Env) (fuel : nat)
    (request : CallToolRequest) : Outcome CallToolResult * Trace :=
  match Auth.loadSavedCredentialsIfExist rt f with
  | None =>
      (Returns
         {| content :=
              [ {| type := "text";
                   text := "Not Authenticated. Try running `npm run auth` to authenticate." |} ];
            isError := Some true |},
       [])
  | Some auth =>
      let publisherCode := PUBLISHER_CODE env in
      if negb (truthy_opt_string publisherCode) then
        (Returns
           {| content :=
                [ {| type := "text";
                     text := "PUBLISHER_CODE environment variable not set." |} ];
              isError := Some true |},
         [])
      else
        (* a string from here on, by the test above *)
        let publisherCode := match publisherCode with Some c => c | None => "" end in
        let name := name request in
        let admob := google_admob rt auth in
        if name =? GET_ACCOUNT then get_account rt admob publisherCode
        else if name =? LIST_AD_UNITS then
          list_ad_units_loop rt admob publisherCode fuel [] None []
        else if name =? LIST_APPS then
          list_apps_loop rt admob publisherCode fuel [] None []
        else (Throws (Error ("Unknown tool: " ++ name)), [])
  end.

End Tools3.

(* ================================================================== *)
(** ** [src/tools.ts], the five-tool dispatcher *)

Module Tools5.

Definition GENERATE_NETWORK_REPORT : string := "generate_network_report".
Definition GENERATE_MEDIATION_REPORT : string := "generate_mediation_report".
Definition GET_ACCOUNT : string := "get_account".
Definition LIST_AD_UNITS : string := "list_ad_units".
Definition LIST_APPS : string := "list_apps".

Definition missing_required : CallToolResult :=
  {| content := [ {| type := "text"; text := "Missing required parameters." |} ];
     isError := Some true |}.

(** One sort condition, lines 451-460 and 462-471: pushed when the condition
    object is truthy and both of its fields have a positive [length]. *)
Definition sort_entry (rt : Runtime) (condition : JValue) (field : string)
    (make : JValue -> JValue -> SortCondition)
  : Flow CallToolResult (list SortCondition) :=
  if truthy condition then
    subject <- get_prop condition field ;;
    has_subject <- length_gt_zero rt subject ;;
    if has_subject then
      order <- get_prop condition "order" ;;
      has_order <- length_gt_zero rt order ;;
      if has_order then Continue [make subject order] else Continue []
    else Continue []
  else Continue [].

(** [reportSpec.dimensionFilters], lines 431-440: [None] when the key is not
    assigned. *)
Definition build_dimensionFilters (dimensionFilters : JValue)
  : Flow CallToolResult (option (list DimensionFilter)) :=
  has_filters <- and_then (truthy dimensionFilters)
                          (Object_keys_nonempty dimensionFilters) ;;
  if has_filters then
    match dimensionFilters with
    | JArr elems =>
        mapped <- mapM (fun filter =>
                          d <- get_prop filter "dimension" ;;
                          v <- get_prop filter "values" ;;
                          Continue {| dimension := d;
                                      matchesAny := {| values := v |} |})
                       elems ;;
        Continue (Some mapped)
    | _ => Throw (TypeError "dimensionFilters.map is not a function")
    end
  else Continue None.

(** [reportSpec.sortConditions], lines 442-476: [None] when the key is not
    assigned. *)
Definition build_sortConditions (rt : Runtime)
    (dimensionSortCondition metricSortCondition : JValue)
  : Flow CallToolResult (option (list SortCondition)) :=
  by_dimension <- and_then (truthy dimensionSortCondition)
                           (Object_keys_nonempty dimensionSortCondition) ;;
  by_any <- (if by_dimension then Continue true
             else and_then (truthy metricSortCondition)
                           (Object_keys_nonempty metricSortCondition)) ;;
  if by_any then
    first <- sort_entry rt dimensionSortCondition "dimension" DimensionSort ;;
    second <- sort_entry rt metricSortCondition "metric" MetricSort ;;
    let sortConditions := (first ++ second)%list in
    Continue (if nonempty sortConditions then Some sortConditions else None)
  else Continue None.

(** From the arguments object to [reportSpec], lines 376-476.  The
    [console.error] line that logs the specification is left out. *)
Definition build_reportSpec (rt : Runtime) (args : JValue)
  : Flow CallToolResult ReportSpec :=
  (* Required parameters *)
  dateRangeStart <- get_prop args "dateRangeStart" ;;
  dateRangeEnd <- get_prop args "dateRangeEnd" ;;
  metrics <- get_prop args "metrics" ;;
  (* Optional parameters *)
  dimensions <- get_prop args "dimensions" ;;
  dimensionFilters <- get_prop args "dimensionFilters" ;;
  dimensionSortCondition <- get_prop args "dimensionSortCondition" ;;
  metricSortCondition <- get_prop args "metricSortCondition" ;;
  start_pieces <- split_map_Number rt "dateRangeStart" dateRangeStart ;;
  end_pieces <- split_map_Number rt "dateRangeEnd" dateRangeEnd ;;
  if negb (truthy dateRangeStart) || negb (truthy dateRangeEnd)
     || negb (truthy metrics)
  then Return missing_required
  else
    has_dimensions <- and_then (truthy dimensions)
                               (length_gt_zero rt dimensions) ;;
    filters <- build_dimensionFilters dimensionFilters ;;
    sorts <- build_sortConditions rt dimensionSortCondition
                                  metricSortCondition ;;
    Continue
      {| dateRange :=
           {| startDate := destructure3 start_pieces;
              endDate := destructure3 end_pieces |};
         metrics := metrics;
         dimensions := if has_dimensions then Some dimensions else None;
         dimensionFilters := filters;
         sortConditions := sorts |}.

(** The report branch, lines 362-514; nothing in it is inside a [try]. *)
Definition generate_report (rt : Runtime) (admob : Admob)
    (publisherCode name : string) (args : option (list (string * JValue)))
  : Outcome CallToolResult * Trace :=
  match args with
  | None =>
      (Returns
         {| content := [ {| type := "text"; text := "No arguments provided." |} ];
            isError := Some true |},
       [])
  | Some props =>
      match build_reportSpec rt (JObj props) with
      | Return r => (Returns r, [])
      | Throw e => (Throws e, [])
      | Continue reportSpec =>
          let parent := "accounts/" ++ publisherCode in
          let call :=
            if name =? GENERATE_NETWORK_REPORT
            then (accounts_networkReport_generate admob [] parent reportSpec,
                  NetworkReportGenerate parent reportSpec)
            else (accounts_mediationReport_generate admob [] parent reportSpec,
                  MediationReportGenerate parent reportSpec) in
          match fst call with
          | Rejected error => (Throws error, [snd call])
          | Resolved ok status data =>
              if negb ok then
                (Returns
                   {| content :=
                        [ {| type := "text";
                             text := "API request failed with status: "
                                     ++ String_of_int status |} ];
                      isError := Some true |},
                 [snd call])
              else
                (Returns
                   {| content :=
                        [ {| type := "text";
                             text := JSON_stringify_pretty rt data |} ];
                      isError := None |},
                 [snd call])
          end
      end
  end.

(** The [do ... while (pageToken)] loop of the [list_ad_units] branch inside
    its [try] block, lines 554-594.  [fuel] bounds the number of iterations;
    [trace] holds the requests issued so far. *)
Fixpoint list_ad_units_loop (rt : Runtime) (admob : Admob)
    (publisherCode : string) (fuel : nat) (allAdUnits : list JValue)
    (pageToken : option string) (trace : Trace)
  : Outcome CallToolResult * Trace :=
  match fuel with
  | O => (OutOfFuel, trace)
  | S fuel' =>
      let parent := "accounts/" ++ publisherCode in
      let trace' := (trace ++ [AdUnitsList parent pageToken])%list in
      match accounts_adUnits_list admob trace parent pageToken with
      | Rejected error =>
          (Returns
             {| content :=
                  [ {| type := "text";
                       text := "An error occurred: " ++ String_of_error error |} ];
                isError := Some true |},
           trace')
      | Resolved ok status data =>
          if negb ok then
            (Returns
               {| content :=
                    [ {| type := "text";
                         text := "API request failed with status: "
                                 ++ String_of_int status |} ];
                  isError := Some true |},
             trace')
          else
            let allAdUnits' :=
              match adUnits data with
              | Some (u :: us) => (allAdUnits ++ u :: us)%list
              | _ => allAdUnits
              end in
            let pageToken' := nullish_to_undefined (adUnits_nextPageToken data) in
            if truthy_opt_string pageToken'
            then list_ad_units_loop rt admob publisherCode fuel' allAdUnits'
                                    pageToken' trace'
            else
              (Returns
                 {| content :=
                      [ {| type := "text";
                           text := JSON_stringify_pretty rt (JArr allAdUnits') |} ];
                    isError := None |},
               trace')
      end
  end.

(** The loop of the [list_apps] branch, lines 613-653. *)
Fixpoint list_apps_loop (rt : Runtime) (admob : Admob)
    (publisherCode : string) (fuel : nat) (allApps : list JValue)
    (pageToken : option string) (trace : Trace)
  : Outcome CallToolResult * Trace :=
  match fuel with
  | O => (OutOfFuel, trace)
  | S fuel' =>
      let parent := "accounts/" ++ publisherCode in
      let trace' := (trace ++ [AppsList parent pageToken])%list in
      match accounts_apps_list admob trace parent pageToken with
      | Rejected error =>
          (Returns
             {| content :=
                  [ {| type := "text";
                       text := "An error occurred: " ++ String_of_error error |} ];
                isError := Some true |},
           trace')
      | Resolved ok status data =>
          if negb ok then
            (Returns
               {| content :=
                    [ {| type := "text";
                         text := "API request failed with status: "
                                 ++ String_of_int status |} ];
                  isError := Some true |},
             trace')
          else
            let allApps' :=
              match apps data with
              | Some (a :: as') => (allApps ++ a :: as')%list
              | _ => allApps
              end in
            let pageToken' := nullish_to_undefined (apps_nextPageToken data) in
            if truthy_opt_string pageToken'
            then list_apps_loop rt admob publisherCode fuel' allApps'
                                pageToken' trace'
            else
              (Returns
                 {| content :=
                      [ {| type := "text";
                           text := JSON_stringify_pretty rt (JArr allApps') |} ];
                    isError := None |},
               trace')
      end
  end.

(** The [get_account] branch, lines 516-548; the call is not inside a [try]. *)
Definition get_account (rt : Runtime) (admob : Admob) (publisherCode : string)
  : Outcome CallToolResult * Trace :=
  let name := "accounts/" ++ publisherCode in
  let trace := [AccountsGet name] in
  match accounts_get admob [] name with
  | Rejected error => (Throws error, trace)
  | Resolved ok status data =>
      if negb ok then
        (Returns
           {| content :=
                [ {| type := "text";
                     text := "API request failed: " ++ String_of_int status |} ];
              isError := Some true |},
         trace)
      else
        (Returns
           {| content :=
                [ {| type := "text";
                     text :=
                       JSON_stringify_pretty rt
                         (JObj
                            [ ("name", JValue_of_nullable (acc_name data));
                              ("publisherId",
                               JValue_of_nullable (publisherId data));
                              ("reportingTimeZone",
                               JValue_of_nullable (reportingTimeZone data));
                              ("currencyCode",
                               JValue_of_nullable (currencyCode data)) ]) |} ];
              isError := None |},
         trace)
  end.

(** The [CallToolRequestSchema] handler that [configureTools] registers,
    lines 332-669.  It returns the outcome of the call and the upstream
    requests issued, in order. *)
Definition callTool (rt : Runtime) (f : Files) (env : Env) (fuel : nat)
    (request : CallToolRequest) : Outcome CallToolResult * Trace :=
  match Auth.loadSavedCredentialsIfExist rt f with
  | None =>
      (Returns
         {| content :=
              [ {| type := "text";
                   text := "Not Authenticated. Try running `npm run auth` to authenticate." |} ];
            isError := Some true |},
       [])
  | Some auth =>
      let publisherCode := PUBLISHER_CODE env in
      if negb (truthy_opt_string publisherCode) then
        (Returns
           {| content :=
                [ {| type := "text";
                     text := "PUBLISHER_CODE environment variable not set." |} ];
              isError := Some true |},
         [])
      else
        (* a string from here on, by the test above *)
        let publisherCode := match publisherCode with Some c => c | None => "" end in
        let name := name request in
        let admob := google_admob rt auth in
        if (name =? GENERATE_NETWORK_REPORT) || (name =? GENERATE_MEDIATION_REPORT)
        then generate_report rt admob publisherCode name (arguments request)
        else if name =? GET_ACCOUNT then get_account rt admob publisherCode
        else if name =? LIST_AD_UNITS then
          list_ad_units_loop rt admob publisherCode fuel [] None []
        else if name =? LIST_APPS then
          list_apps_loop rt admob publisherCode fuel [] None []
        else (Throws (Error ("Unknown tool: " ++ name)), [])
  end.

End Tools5.

(* ================================================================== *)
(** ** A concrete runtime, for examples *)

Module Demo.

Definition page1 : ListAdUnitsResponse :=
  mkAdUnitsPage (Some [JStr "u1"; JStr "u2"]) (Val "t1").
Definition page2 : ListAdUnitsResponse := mkAdUnitsPage None (Val "t2").
Definition page3 : ListAdUnitsResponse :=
  mkAdUnitsPage (Some [JStr "u3"]) Null.

Definition apps1 : ListAppsResponse := mkAppsPage (Some [JStr "a1"]) (Val "n").
Definition apps2 : ListAppsResponse :=
  mkAppsPage (Some [JStr "a2"; JStr "a3"]) (Val "").

(** An upstream that serves three pages of ad units and two pages of apps,
    one per request, and accepts every report. *)
Definition admob : Admob :=
  {| accounts_get := fun _ _ =>
       Resolved true 200 (mkAccount (Val "accounts/pub-1") (Val "pub-1")
                                    Null Undefined);
     accounts_adUnits_list := fun history _ _ =>
       Resolved true 200 (nth (List.length history) [page1; page2] page3);
     accounts_apps_list := fun history _ _ =>
       Resolved true 200 (nth (List.length history) [apps1] apps2);
     accounts_networkReport_generate := fun _ _ _ =>
       Resolved true 200 (JArr []);
     accounts_mediationReport_generate := fun _ _ _ =>
       Resolved true 200 (JArr []) |}.

(** An upstream that refuses every request. *)
Definition refusing : Admob :=
  {| accounts_get := fun _ _ => Rejected (Error "Bad Request");
     accounts_adUnits_list := fun _ _ _ => Rejected (Error "Bad Request");
     accounts_apps_list := fun _ _ _ => Rejected (Error "Bad Request");
     accounts_networkReport_generate := fun _ _ _ =>
       Rejected (Error "Bad Request");
     accounts_mediationReport_generate := fun _ _ _ =>
       Rejected (Error "Bad Request") |}.

Definition client : OAuth2Client :=
  mkClient (JStr "id") (JStr "secret") None
           (JObj [("refresh_token", JStr "r")]).

Definition secret_key : JValue :=
  JObj [("client_id", JStr "id"); ("client_secret", JStr "secret")].

(** [JSON.parse] knows two texts, the token file and the client secret;
    the URL parser knows two callback URLs. *)
Definition runtime_with (upstream : Admob) : Runtime :=
  {| StringToNumber := fun _ => NNaN;
     object_gt_zero := fun _ => inr false;
     JSON_stringify := fun _ => "<json>";
     JSON_stringify_pretty := fun _ => "<json>";
     JSON_parse := fun s =>
       if s =? "token" then inr (JObj [("type", JStr "authorized_user")])
       else if s =? "secret" then inr (JObj [("installed", secret_key)])
       else inl (mkError "SyntaxError" "Unexpected token");
     google_auth_fromJSON := fun _ => Some client;
     google_admob := fun _ => upstream;
     generateAuthUrl := fun _ _ scope =>
       "https://accounts.google.com/o/oauth2/v2/auth?scope=" ++ scope;
     URL_searchParams := fun u _ =>
       if u =? "/oauth2callback?error=access_denied"
       then inr [("error", "access_denied")]
       else if u =? "/oauth2callback?code=4/abc"
       then inr [("code", "4/abc")]
       else inl (TypeError "Invalid URL");
     getToken := fun _ _ => inr (JObj [("refresh_token", JStr "r")]) |}.

Definition runtime : Runtime := runtime_with admob.

Definition no_entry : JSError := Error "ENOENT: no such file or directory".

Definition authenticated : Files := mkFiles (inr "token") (inr "secret").
Definition unauthenticated : Files := mkFiles (inl no_entry) (inr "secret").

Definition env : Env := mkEnv (Some "pub-1").

Definition fresh : Auth.World :=
  Auth.mkWorld unauthenticated Auth.NotCreated [] [] [] None None.

Definition returning : Auth.World :=
  Auth.mkWorld authenticated Auth.NotCreated [] [] [] None None.

End Demo.

(* ================================================================== *)
(** ** Vocabulary of the properties *)

(** Arguments as the tool schema describes them. *)
Definition present_string (v : JValue) : bool :=
  match v with
  | JStr s => truthy_string s
  | _ => false
  end.

Definition is_string (v : JValue) : bool :=
  match v with
  | JStr _ => true
  | _ => false
  end.

Definition is_object (v : JValue) : bool :=
  match v with
  | JObj _ => true
  | _ => false
  end.

Definition plain_dimensions (v : JValue) : bool :=
  match v with
  | JUndefined | JArr _ => true
  | _ => false
  end.

Definition plain_filters (v : JValue) : bool :=
  match v with
  | JUndefined => true
  | JArr elems => forallb is_object elems
  | _ => false
  end.

Definition plain_sort (field : string) (v : JValue) : bool :=
  match v with
  | JUndefined => true
  | JObj props => is_string (lookup field props) && is_string (lookup "order" props)
  | _ => false
  end.

(** Both dates are non-empty strings, [metrics] is present, and each optional
    argument is absent or has the shape of the schema. *)
Definition conforming (args : list (string * JValue)) : bool :=
  present_string (lookup "dateRangeStart" args)
  && present_string (lookup "dateRangeEnd" args)
  && truthy (lookup "metrics" args)
  && plain_dimensions (lookup "dimensions" args)
  && plain_filters (lookup "dimensionFilters" args)
  && plain_sort "dimension" (lookup "dimensionSortCondition" args)
  && plain_sort "metric" (lookup "metricSortCondition" args).

Definition own (k : string) (v : JValue) : JValue :=
  match v with
  | JObj props => lookup k props
  | _ => JUndefined
  end.

(** [{dimension: D, values: V}] becomes [{dimension: D, matchesAny: {values: V}}]. *)
Definition filter_image (filter : JValue) : DimensionFilter :=
  {| dimension := own "dimension" filter;
     matchesAny := {| values := own "values" filter |} |}.

(** The entry a sort condition contributes: itself when both of its fields
    are non-empty strings, nothing otherwise. *)
Definition kept (make : JValue -> JValue -> SortCondition) (field : string)
    (condition : JValue) : list SortCondition :=
  match own field condition, own "order" condition with
  | JStr subject, JStr order =>
      if truthy_string subject && truthy_string order
      then [make (JStr subject) (JStr order)]
      else []
  | _, _ => []
  end.

Definition key_unless_empty {A} (l : list A) : option (list A) :=
  if nonempty l then Some l else None.

Definition date_of (rt : Runtime) (v : JValue) : DateSpec :=
  match v with
  | JStr s =>
      destructure3 (map (fun piece => JNum (Number rt piece)) (split "-" s))
  | _ => mkDate JUndefined JUndefined JUndefined
  end.

(** The report specification for conforming arguments. *)
Definition expected_reportSpec (rt : Runtime) (args : list (string * JValue))
  : ReportSpec :=
  {| dateRange :=
       {| startDate := date_of rt (lookup "dateRangeStart" args);
          endDate := date_of rt (lookup "dateRangeEnd" args) |};
     metrics := lookup "metrics" args;
     dimensions :=
       match lookup "dimensions" args with
       | JArr (d :: ds) => Some (JArr (d :: ds))
       | _ => None
       end;
     dimensionFilters :=
       match lookup "dimensionFilters" args with
       | JArr (f :: fs) => Some (map filter_image (f :: fs))
       | _ => None
       end;
     sortConditions :=
       key_unless_empty
         (kept DimensionSort "dimension" (lookup "dimensionSortCondition" args)
          ++ kept MetricSort "metric" (lookup "metricSortCondition" args))%list |}.

Definition is_report (n : string) : bool :=
  (n =? Tools5.GENERATE_NETWORK_REPORT) || (n =? Tools5.GENERATE_MEDIATION_REPORT).

Definition report_request (n parent : string) (reportSpec : ReportSpec)
  : ApiRequest :=
  if n =? Tools5.GENERATE_NETWORK_REPORT
  then NetworkReportGenerate parent reportSpec
  else MediationReportGenerate parent reportSpec.

(** The server can serve: the stored token loads and the publisher code is
    set. *)
Definition ready (rt : Runtime) (f : Files) (env : Env) (auth : OAuth2Client)
    (publisherCode : string) : Prop :=
  Auth.loadSavedCredentialsIfExist rt f = Some auth
  /\ PUBLISHER_CODE env = Some publisherCode
  /\ publisherCode <> "".

Definition soft_error (r : CallToolResult) : Prop := isError r = Some true.

(** Pages of ad units: the items of a page, its token after
    [?? undefined], the requests a sequence of pages gives rise to, and what
    it means for the upstream to answer them with these pages. *)
Definition ad_unit_items (p : ListAdUnitsResponse) : list JValue :=
  match adUnits p with
  | Some l => l
  | None => []
  end.

Definition ad_units_next (p : ListAdUnitsResponse) : option string :=
  nullish_to_undefined (adUnits_nextPageToken p).

Fixpoint ad_unit_requests (parent : string) (pageToken : option string)
    (pages : list ListAdUnitsResponse) : Trace :=
  match pages with
  | [] => []
  | p :: ps =>
      AdUnitsList parent pageToken :: ad_unit_requests parent (ad_units_next p) ps
  end.

Fixpoint answers_ad_units (admob : Admob) (parent : string) (history : Trace)
    (pageToken : option string) (pages : list ListAdUnitsResponse) : Prop :=
  match pages with
  | [] => True
  | p :: ps =>
      (exists status,
          accounts_adUnits_list admob history parent pageToken
          = Resolved true status p)
      /\ answers_ad_units admob parent
           (history ++ [AdUnitsList parent pageToken])%list (ad_units_next p) ps
  end.

(** The same for pages of apps. *)
Definition app_items (p : ListAppsResponse) : list JValue :=
  match apps p with
  | Some l => l
  | None => []
  end.

Definition apps_next (p : ListAppsResponse) : option string :=
  nullish_to_undefined (apps_nextPageToken p).

Fixpoint app_requests (parent : string) (pageToken : option string)
    (pages : list ListAppsResponse) : Trace :=
  match pages with
  | [] => []
  | p :: ps => AppsList parent pageToken :: app_requests parent (apps_next p) ps
  end.

Fixpoint answers_apps (admob : Admob) (parent : string) (history : Trace)
    (pageToken : option string) (pages : list ListAppsResponse) : Prop :=
  match pages with
  | [] => True
  | p :: ps =>
      (exists status,
          accounts_apps_list admob history parent pageToken
          = Resolved true status p)
      /\ answers_apps admob parent
           (history ++ [AppsList parent pageToken])%list (apps_next p) ps
  end.

(** A successful result carrying [JSON.stringify(items, null, 2)]. *)
Definition listing (rt : Runtime) (items : list JValue) : CallToolResult :=
  {| content :=
       [ {| type := "text"; text := JSON_stringify_pretty rt (JArr items) |} ];
     isError := None |}.

(** The authorization flow: which requests the listener acts on, and when
    the flow gets as far as waiting for the redirect. *)
Definition is_callback (u : string) : bool :=
  truthy_string u && includes "/oauth2callback" u.

Definition passed_over (req_url : option string) : bool :=
  match req_url with
  | None => true
  | Some u => negb (is_callback u)
  end.

Definition awaits_redirect (rt : Runtime) (w : Auth.World) : Prop :=
  Auth.loadSavedCredentialsIfExist rt (Auth.files w) = None
  /\ (exists key, Auth.read_key rt (Auth.files w) = Continue key
                  /\ truthy key = true)
  /\ Auth.listen_error w = None.

Definition missing_code : JSError := Error "No code found in callback URL".

(** The arguments of the scenario of the specification, and the report
    specification it expects. *)
Definition scenario_args : list (string * JValue) :=
  [ ("dateRangeStart", JStr "2024-01-01");
    ("dateRangeEnd", JStr "2024-01-07");
    ("metrics", JArr [JStr "CLICKS"]) ].

Definition scenario_reportSpec : ReportSpec :=
  {| dateRange :=
       {| startDate := mkDate (JNum (NInt 2024)) (JNum (NInt 1)) (JNum (NInt 1));
          endDate := mkDate (JNum (NInt 2024)) (JNum (NInt 1)) (JNum (NInt 7)) |};
     metrics := JArr [JStr "CLICKS"];
     dimensions := None;
     dimensionFilters := None;
     sortConditions := None |}.

(** Arguments with an empty list of metrics, with an empty list of filters,
    and without a start date. *)
Definition no_metric_args : list (string * JValue) :=
  [ ("dateRangeStart", JStr "2024-01-01");
    ("dateRangeEnd", JStr "2024-01-07");
    ("metrics", JArr []) ].

Definition no_filter_args : list (string * JValue) :=
  [ ("dateRangeStart", JStr "2024-01-01");
    ("dateRangeEnd", JStr "2024-01-07");
    ("metrics", JArr [JStr "CLICKS"]);
    ("dimensionFilters", JArr []) ].

Definition no_start_args : list (string * JValue) :=
  [ ("dateRangeEnd", JStr "2024-01-07");
    ("metrics", JArr [JStr "CLICKS"]) ].

(** Arguments with two filters and both sort conditions. *)
Definition full_args : list (string * JValue) :=
  [ ("dateRangeStart", JStr "2024-01-01");
    ("dateRangeEnd", JStr "2024-01-07");
    ("metrics", JArr [JStr "CLICKS"; JStr "IMPRESSIONS"]);
    ("dimensions", JArr [JStr "DATE"; JStr "APP"]);
    ("dimensionFilters",
     JArr [ JObj [("dimension", JStr "COUNTRY");
                  ("values", JArr [JStr "US"; JStr "KR"])];
            JObj [("dimension", JStr "PLATFORM");
                  ("values", JArr [JStr "Android"])] ]);
    ("dimensionSortCondition",
     JObj [("dimension", JStr "DATE"); ("order", JStr "ASCENDING")]);
    ("metricSortCondition",
     JObj [("metric", JStr "CLICKS"); ("order", JStr "DESCENDING")]) ].

(* ================================================================== *)
(** ** The tool tables: the [ListToolsRequestSchema] handlers *)

(** An entry of the [tools] array. *)
Record Tool : Type := mkTool {
  tool_name : string;
  tool_description : string;
  inputSchema : JValue
}.

(** The keys of [properties] and the strings of [required] of an input
    schema. *)
Definition schema_properties (schema : JValue) : list string :=
  match own "properties" schema with
  | JObj props => map fst props
  | _ => []
  end.

Definition schema_required (schema : JValue) : list string :=
  match own "required" schema with
  | JArr elems =>
      flat_map (fun v => match v with JStr s => [s] | _ => [] end) elems
  | _ => []
  end.

(** The three-tool revision, lines 29-58. *)
Module ListTools3.

Definition GET_ACCOUNT : string := Tools3.GET_ACCOUNT.
Definition LIST_AD_UNITS : string := Tools3.LIST_AD_UNITS.
Definition LIST_APPS : string := Tools3.LIST_APPS.

Definition tools : list Tool :=
  [
    {| tool_name := GET_ACCOUNT;
       tool_description := "Gets information about the AdMob publisher account.";
       inputSchema := JObj [ ("type", JStr "object"); ("properties", JObj []) ] |};
    {| tool_name := LIST_AD_UNITS;
       tool_description := "List the ad units under the AdMob publisher account.";
       inputSchema := JObj [ ("type", JStr "object"); ("properties", JObj []) ] |};
    {| tool_name := LIST_APPS;
       tool_description := "List the apps under the AdMob publisher account.";
       inputSchema := JObj [ ("type", JStr "object"); ("properties", JObj []) ] |} ].

End ListTools3.

(** The five-tool revision: the enumerations and tables of lines 30-108 (each
    enumeration member is the string of its own name) and the handler, lines
    111-330. *)
Module ListTools5.

Definition GENERATE_NETWORK_REPORT : string := Tools5.GENERATE_NETWORK_REPORT.
Definition GENERATE_MEDIATION_REPORT : string := Tools5.GENERATE_MEDIATION_REPORT.
Definition GET_ACCOUNT : string := Tools5.GET_ACCOUNT.
Definition LIST_AD_UNITS : string := Tools5.LIST_AD_UNITS.
Definition LIST_APPS : string := Tools5.LIST_APPS.

Definition ASCENDING : string := "ASCENDING".
Definition DESCENDING : string := "DESCENDING".

Definition COMMON_REPORT_DIMENSIONS : list string :=
  [ "DATE"; "MONTH"; "WEEK"; "AD_UNIT"; "APP"; "AD_TYPE"; "COUNTRY"; "FORMAT";
    "PLATFORM"; "MOBILE_OS_VERSION"; "GMA_SDK_VERSION"; "APP_VERSION_NAME";
    "SERVING_RESTRICTION" ].

Definition COMMON_REPORT_METRICS : list string :=
  [ "AD_REQUESTS"; "CLICKS"; "ESTIMATED_EARNINGS"; "IMPRESSIONS";
    "IMPRESSION_CTR"; "MATCHED_REQUESTS"; "MATCH_RATE" ].

Definition NETWORK_REPORT_DIMENSIONS : list string :=
  COMMON_REPORT_DIMENSIONS ++ ["AD_TYPE"].

Definition NETWORK_REPORT_METRICS : list string :=
  COMMON_REPORT_METRICS ++ ["IMPRESSION_RPM"; "SHOW_RATE"].

Definition MEDIATION_REPORT_DIMENSIONS : list string :=
  COMMON_REPORT_DIMENSIONS ++ ["AD_SOURCE"; "AD_SOURCE_INSTANCE"; "MEDIATION_GROUP"].

Definition MEDIATION_REPORT_METRICS : list string :=
  COMMON_REPORT_METRICS ++ ["OBSERVED_ECPM"].

(** [inputSchema] of [generate_network_report], lines 118-207. *)
Definition network_report_schema : JValue :=
  JObj
    [ ("type", JStr "object");
      ("properties",
       JObj
         [ ("dateRangeStart",
            JObj [ ("type", JStr "string");
                   ("description",
                    JStr "The start date of the report. Format: YYYY-MM-DD");
                   ("format", JStr "date") ]);
           ("dateRangeEnd",
            JObj [ ("type", JStr "string");
                   ("description",
                    JStr "The end date of the report. Format: YYYY-MM-DD");
                   ("format", JStr "date") ]);
           ("dimensions",
            JObj [ ("type", JStr "array");
                   ("description",
                    JStr "List of dimensions of the report. The value combination of these dimensions determines the row of the report. If no dimensions are specified, the report returns a single row of requested metrics for the entire account.");
                   ("items",
                    JObj [ ("type", JStr "string");
                           ("enum", JArr (map JStr NETWORK_REPORT_DIMENSIONS)) ]) ]);
           ("dimensionFilters",
            JObj [ ("type", JStr "array");
                   ("description",
                    JStr "Describes which report rows to match based on their dimension values.");
                   ("items",
                    JObj
                      [ ("type", JStr "object");
                        ("properties",
                         JObj
                           [ ("dimension",
                              JObj [ ("type", JStr "string");
                                     ("description",
                                      JStr "Applies the filter criterion to the specified dimension.");
                                     ("enum", JArr (map JStr NETWORK_REPORT_DIMENSIONS)) ]);
                             ("values",
                              JObj [ ("type", JStr "array");
                                     ("description",
                                      JStr "Matches a row if its value for the specified dimension is in one of the values specified in this condition.");
                                     ("items",
                                      JObj [ ("type", JStr "string") ]) ]) ]);
                        ("required",
                         JArr [JStr "dimension"; JStr "values"]) ]) ]);
           ("dimensionSortCondition",
            JObj [ ("type", JStr "object");
                   ("description",
                    JStr "Specifies the sorting condition for dimensions.");
                   ("properties",
                    JObj
                      [ ("dimension",
                         JObj [ ("type", JStr "string");
                                ("description", JStr "The dimension to sort by.");
                                ("enum", JArr (map JStr NETWORK_REPORT_DIMENSIONS)) ]);
                        ("order",
                         JObj [ ("type", JStr "string");
                                ("enum",
                                 JArr [JStr ASCENDING; JStr DESCENDING]) ]) ]);
                   ("required", JArr [JStr "dimension"; JStr "order"]) ]);
           ("metrics",
            JObj [ ("type", JStr "array");
                   ("description",
                    JStr "List of metrics of the report. A report must specify at least one metric.");
                   ("items",
                    JObj [ ("type", JStr "string");
                           ("enum", JArr (map JStr NETWORK_REPORT_METRICS)) ]) ]);
           ("metricSortCondition",
            JObj [ ("type", JStr "object");
                   ("description",
                    JStr "Specifies the sorting condition for metrics.");
                   ("properties",
                    JObj
                      [ ("metric",
                         JObj [ ("type", JStr "string");
                                ("description", JStr "The metric to sort by.");
                                ("enum", JArr (map JStr NETWORK_REPORT_METRICS)) ]);
                        ("order",
                         JObj [ ("type", JStr "string");
                                ("enum",
                                 JArr [JStr ASCENDING; JStr DESCENDING]) ]) ]);
                   ("required", JArr [JStr "metric"; JStr "order"]) ]) ]);
      ("required",
       JArr [JStr "dateRangeStart"; JStr "dateRangeEnd"; JStr "metrics"]) ].

(** [inputSchema] of [generate_mediation_report], lines 213-302. *)
Definition mediation_report_schema : JValue :=
  JObj
    [ ("type", JStr "object");
      ("properties",
       JObj
         [ ("dateRangeStart",
            JObj [ ("type", JStr "string");
                   ("description",
                    JStr "The start date of the report. Format: YYYY-MM-DD");
                   ("format", JStr "date") ]);
           ("dateRangeEnd",
            JObj [ ("type", JStr "string");
                   ("description",
                    JStr "The end date of the report. Format: YYYY-MM-DD");
                   ("format", JStr "date") ]);
           ("dimensions",
            JObj [ ("type", JStr "array");
                   ("description",
                    JStr "List of dimensions of the report. The value combination of these dimensions determines the row of the report. If no dimensions are specified, the report returns a single row of requested metrics for the entire account.");
                   ("items",
                    JObj [ ("type", JStr "string");
                           ("enum", JArr (map JStr MEDIATION_REPORT_DIMENSIONS)) ]) ]);
           ("dimensionFilters",
            JObj [ ("type", JStr "array");
                   ("description",
                    JStr "Describes which report rows to match based on their dimension values.");
                   ("items",
                    JObj
                      [ ("type", JStr "object");
                        ("properties",
                         JObj
                           [ ("dimension",
                              JObj [ ("type", JStr "string");
                                     ("description",
                                      JStr "Applies the filter criterion to the specified dimension.");
                                     ("enum", JArr (map JStr MEDIATION_REPORT_DIMENSIONS)) ]);
                             ("values",
                              JObj [ ("type", JStr "array");
                                     ("description",
                                      JStr "Matches a row if its value for the specified dimension is in one of the values specified in this condition.");
                                     ("items",
                                      JObj [ ("type", JStr "string") ]) ]) ]);
                        ("required",
                         JArr [JStr "dimension"; JStr "values"]) ]) ]);
           ("dimensionSortCondition",
            JObj [ ("type", JStr "object");
                   ("description",
                    JStr "Specifies the sorting condition for dimensions.");
                   ("properties",
                    JObj
                      [ ("dimension",
                         JObj [ ("type", JStr "string");
                                ("description", JStr "The dimension to sort by.");
                                ("enum", JArr (map JStr MEDIATION_REPORT_DIMENSIONS)) ]);
                        ("order",
                         JObj [ ("type", JStr "string");
                                ("enum",
                                 JArr [JStr ASCENDING; JStr DESCENDING]) ]) ]);
                   ("required", JArr [JStr "dimension"; JStr "order"]) ]);
           ("metrics",
            JObj [ ("type", JStr "array");
                   ("description",
                    JStr "List of metrics of the report. A report must specify at least one metric.");
                   ("items",
                    JObj [ ("type", JStr "string");
                           ("enum", JArr (map JStr MEDIATION_REPORT_METRICS)) ]) ]);
           ("metricSortCondition",
            JObj [ ("type", JStr "object");
                   ("description",
                    JStr "Specifies the sorting condition for metrics.");
                   ("properties",
                    JObj
                      [ ("metric",
                         JObj [ ("type", JStr "string");
                                ("description", JStr "The metric to sort by.");
                                ("enum", JArr (map JStr MEDIATION_REPORT_METRICS)) ]);
                        ("order",
                         JObj [ ("type", JStr "string");
                                ("enum",
                                 JArr [JStr ASCENDING; JStr DESCENDING]) ]) ]);
                   ("required", JArr [JStr "metric"; JStr "order"]) ]) ]);
      ("required",
       JArr [JStr "dateRangeStart"; JStr "dateRangeEnd"; JStr "metrics"]) ].

Definition tools : list Tool :=
  [ {| tool_name := GENERATE_NETWORK_REPORT;
       tool_description :=
         "Generates an AdMob Network report based on the provided report specification.";
       inputSchema := network_report_schema |};
    {| tool_name := GENERATE_MEDIATION_REPORT;
       tool_description :=
         "Generates an AdMob Mediation report based on the provided report specification.";
       inputSchema := mediation_report_schema |};
    {| tool_name := GET_ACCOUNT;
       tool_description := "Gets information about the AdMob publisher account.";
       inputSchema := JObj [ ("type", JStr "object"); ("properties", JObj []) ] |};
    {| tool_name := LIST_AD_UNITS;
       tool_description := "List the ad units under the AdMob publisher account.";
       inputSchema := JObj [ ("type", JStr "object"); ("properties", JObj []) ] |};
    {| tool_name := LIST_APPS;
       tool_description := "List the apps under the AdMob publisher account.";
       inputSchema := JObj [ ("type", JStr "object"); ("properties", JObj []) ] |} ].

End ListTools5.

(* ================================================================== *)
(** ** [src/prompts.ts] *)

Module Prompts.

Definition TOP_PERFORMING_APPS_LAST7D : string := "top_performing_apps_last7d".
Definition TOP_PERFORMING_AD_UNITS_LAST7D : string :=
  "top_performing_ad_units_last7d".

Record PromptArgument : Type := mkArgument {
  argument_name : string;
  argument_description : string;
  required : bool
}.

(** An entry of the [prompts] array; [prompt_arguments] is [None] where the
    object literal has no [arguments] key. *)
Record Prompt : Type := mkPrompt {
  prompt_name : string;
  title : string;
  prompt_description : string;
  prompt_arguments : option (list PromptArgument)
}.

(** The [ListPromptsRequestSchema] handler, lines 13-35. *)
Definition prompts : list Prompt :=
  [ {| prompt_name := TOP_PERFORMING_APPS_LAST7D;
       title := "Top performing apps with earnings (Last 7 days)";
       prompt_description :=
         "List top performing apps in the last 7 days, sorted by estimated earnings.";
       prompt_arguments := None |};
    {| prompt_name := TOP_PERFORMING_AD_UNITS_LAST7D;
       title := "Top performing ad units with earnings (Last 7 days)";
       prompt_description :=
         "List top performing ad units in the last 7 days within a specific app.";
       prompt_arguments :=
         Some [ {| argument_name := "admob_app_id";
                   argument_description :=
                     "AdMob app ID (e.g., ca-app-pub-3940256099942544~3347511713)";
                   required := true |} ] |} ].

Record PromptMessage : Type := mkMessage {
  role : string;
  message_content : ContentBlock
}.

Record GetPromptResult : Type := mkPromptResult {
  messages : list PromptMessage
}.

(** [request.params] of a [prompts/get] request: the protocol types the
    values of [arguments] as strings. *)
Record GetPromptRequest : Type := mkPromptRequest {
  requested : string;
  prompt_args : option (list (string * string))
}.

(** [args.admob_app_id], [None] for [undefined]. *)
Definition argument (k : string) (args : list (string * string))
  : option string :=
  match find (fun kv => fst kv =? k) args with
  | Some kv => Some (snd kv)
  | None => None
  end.

(** The [GetPromptRequestSchema] handler, lines 37-79. *)
Definition getPrompt (request : GetPromptRequest) : Outcome GetPromptResult :=
  let name := requested request in
  if name =? TOP_PERFORMING_APPS_LAST7D then
    Returns
      {| messages :=
           [ {| role := "user";
                message_content :=
                  {| type := "text";
                     text := "List top performing apps with estimated earnings for all mediated networks over the last 7 days, sorted by estimated earnings." |} |} ] |}
  else if name =? TOP_PERFORMING_AD_UNITS_LAST7D then
    match prompt_args request with
    | None => Throws (Error ("No arguments provided for prompt: " ++ name))
    | Some args =>
        let appId := argument "admob_app_id" args in
        if negb (truthy_opt_string appId)
        then Throws (Error "AdMob app ID is missing.")
        else
          let appId := match appId with Some s => s | None => "" end in
          Returns
            {| messages :=
                 [ {| role := "user";
                      message_content :=
                        {| type := "text";
                           text := "List top performing ad units with estimated earnings for all mediated networks within the AdMob app ID "
                                   ++ appId
                                   ++ " over the last 7 days, sorted by estimated earnings." |} |} ] |}
    end
  else Throws (Error ("Unknown prompt: " ++ name)).

End Prompts.

(* ================================================================== *)
(** ** Further vocabulary *)

(** The tool whose branch issues a request, and the account the request
    names. *)
Definition request_tool (r : ApiRequest) : string :=
  match r with
  | AccountsGet _ => Tools5.GET_ACCOUNT
  | AdUnitsList _ _ => Tools5.LIST_AD_UNITS
  | AppsList _ _ => Tools5.LIST_APPS
  | NetworkReportGenerate _ _ => Tools5.GENERATE_NETWORK_REPORT
  | MediationReportGenerate _ _ => Tools5.GENERATE_MEDIATION_REPORT
  end.

Definition request_account (r : ApiRequest) : string :=
  match r with
  | AccountsGet name => name
  | AdUnitsList parent _ | AppsList parent _
  | NetworkReportGenerate parent _ | MediationReportGenerate parent _ => parent
  end.

(** The token the loop holds after the pages [pages], started with
    [pageToken]. *)
Fixpoint token_after_ad_units (pageToken : option string)
    (pages : list ListAdUnitsResponse) : option string :=
  match pages with
  | [] => pageToken
  | p :: ps => token_after_ad_units (ad_units_next p) ps
  end.

Fixpoint token_after_apps (pageToken : option string)
    (pages : list ListAppsResponse) : option string :=
  match pages with
  | [] => pageToken
  | p :: ps => token_after_apps (apps_next p) ps
  end.

Definition failed_with_status (status : Z) : CallToolResult :=
  {| content :=
       [ {| type := "text";
            text := "API request failed with status: " ++ String_of_int status |} ];
     isError := Some true |}.

Definition error_occurred (e : JSError) : CallToolResult :=
  {| content :=
       [ {| type := "text";
            text := "An error occurred: " ++ String_of_error e |} ];
     isError := Some true |}.

Definition publisher_code_not_set : CallToolResult :=
  {| content :=
       [ {| type := "text";
            text := "PUBLISHER_CODE environment variable not set." |} ];
     isError := Some true |}.

(** What a list branch returns for a response that is not a successful
    page: nothing for a successful one. *)
Definition failure_of {T} (response : Response T) : option CallToolResult :=
  match response with
  | Rejected e => Some (error_occurred e)
  | Resolved false status _ => Some (failed_with_status status)
  | Resolved true _ _ => None
  end.

(** The response of the upstream to the one request of a report call. *)
Definition report_response (admob : Admob) (n parent : string)
    (reportSpec : ReportSpec) : Response JValue :=
  if n =? Tools5.GENERATE_NETWORK_REPORT
  then accounts_networkReport_generate admob [] parent reportSpec
  else accounts_mediationReport_generate admob [] parent reportSpec.

(** A computation throws nothing but [TypeError]s; the comparison of an
    object with zero, which the runtime provides, does so. *)
Definition throws_only_TypeError {R A} (c : Flow R A) : Prop :=
  forall e, c = Throw e -> ename e = "TypeError".

Definition comparison_throws_TypeError (rt : Runtime) : Prop :=
  forall v e, object_gt_zero rt v = inl e -> ename e = "TypeError".

(** The arguments a listed prompt declares, and whether a request supplies
    an argument with a non-empty value. *)
Definition declared (p : Prompts.Prompt) : list Prompts.PromptArgument :=
  match Prompts.prompt_arguments p with
  | Some l => l
  | None => []
  end.

Definition supplied (a : Prompts.PromptArgument)
    (args : option (list (string * string))) : bool :=
  match args with
  | Some kv => truthy_opt_string (Prompts.argument (Prompts.argument_name a) kv)
  | None => false
  end.

(** A result made of one user message with the given text. *)
Definition user_message (s : string) : Prompts.GetPromptResult :=
  {| Prompts.messages :=
       [ {| Prompts.role := "user";
            Prompts.message_content := {| type := "text"; text := s |} |} ] |}.

(** The separator does not occur in [s]. *)
Fixpoint free_of (sep : ascii) (s : string) : bool :=
  match s with
  | EmptyString => true
  | String c s' => negb (Ascii.eqb c sep) && free_of sep s'
  end.

(** How a date string is read: the first three pieces between dashes go
    through [Number]; pieces that are missing are [undefined], further pieces
    are ignored. *)
Definition read_as (rt : Runtime) (s : string) (date : DateSpec) : Prop :=
  (forall y m d rest,
      s = y ++ "-" ++ m ++ "-" ++ d ++ rest ->
      free_of "-" y = true -> free_of "-" m = true -> free_of "-" d = true ->
      rest = "" \/ (exists r, rest = "-" ++ r) ->
      date = mkDate (JNum (Number rt y)) (JNum (Number rt m))
                    (JNum (Number rt d)))
  /\ (forall y m,
         s = y ++ "-" ++ m ->
         free_of "-" y = true -> free_of "-" m = true ->
         date = mkDate (JNum (Number rt y)) (JNum (Number rt m)) JUndefined)
  /\ (free_of "-" s = true ->
      date = mkDate (JNum (Number rt s)) JUndefined JUndefined).

(** The redirect to the listener carries a usable code. *)
Definition carries_code (rt : Runtime) (u code : string) : Prop :=
  is_callback u = true
  /\ exists qs,
      URL_searchParams rt u "http://localhost:3000" = inr qs
      /\ Auth.searchParams_get "code" qs = Some code
      /\ code <> "".

(** The client [authenticate] builds from the key of the client secret. *)
Definition client_of_key (key : JValue) : OAuth2Client :=
  mkClient (own "client_id" key) (own "client_secret" key)
           (Some "http://localhost:3000/oauth2callback") (JObj []).

(** The URL passed to the browser. *)
Definition authorize_url (rt : Runtime) (key : JValue) : string :=
  generateAuthUrl rt (client_of_key key) "offline"
    "https://www.googleapis.com/auth/admob.readonly https://www.googleapis.com/auth/admob.report".

(** The object [saveCredentials] serializes. *)
Definition token_object (key tokens : JValue) : JValue :=
  JObj [ ("type", JStr "authorized_user");
         ("client_id", own "client_id" key);
         ("client_secret", own "client_secret" key);
         ("refresh_token", own "refresh_token" tokens) ].

(** The flow gets as far as waiting for the redirect, with [key] the key of
    the client secret. *)
Definition awaits_with (rt : Runtime) (w : Auth.World) (key : JValue) : Prop :=
  Auth.loadSavedCredentialsIfExist rt (Auth.files w) = None
  /\ Auth.read_key rt (Auth.files w) = Continue key
  /\ truthy key = true
  /\ Auth.listen_error w = None.

(** The world once the listener is bound and the browser opened. *)
Definition listening (rt : Runtime) (w : Auth.World) (key : JValue) : Auth.World :=
  Auth.open_browser (Auth.set_listener w Auth.Listening) (authorize_url rt key).

(** The world once a callback has been answered and the listener closed. *)
Definition answered (rt : Runtime) (w : Auth.World) (key : JValue) : Auth.World :=
  Auth.set_listener
    (Auth.res_end (listening rt w key)
       "Authentication successful! Please return to the console.")
    Auth.Closed.

(** The text [saveCredentials] writes for the object [v] is read back by
    [loadSavedCredentialsIfExist]: [JSON.parse] accepts it and
    [google.auth.fromJSON] accepts the result. *)
Definition loads_back (rt : Runtime) (v : JValue) : Prop :=
  exists v' client,
    JSON_parse rt (JSON_stringify rt v) = inr v'
    /\ google_auth_fromJSON rt v' = Some client.

(** A runtime whose token endpoint refuses the code. *)
Module Demo2.

Definition invalid_grant : JSError := Error "invalid_grant".

Definition refused : Runtime :=
  {| StringToNumber := StringToNumber Demo.runtime;
     object_gt_zero := object_gt_zero Demo.runtime;
     JSON_stringify := JSON_stringify Demo.runtime;
     JSON_stringify_pretty := JSON_stringify_pretty Demo.runtime;
     JSON_parse := JSON_parse Demo.runtime;
     google_auth_fromJSON := google_auth_fromJSON Demo.runtime;
     google_admob := google_admob Demo.runtime;
     generateAuthUrl := generateAuthUrl Demo.runtime;
     URL_searchParams := URL_searchParams Demo.runtime;
     getToken := fun _ _ => inl invalid_grant |}.

(** An upstream that always has a next page, and one whose third page of ad
    units (second page of apps) fails with status 503. *)
Definition endless : Admob :=
  {| accounts_get := accounts_get Demo.admob;
     accounts_adUnits_list := fun _ _ _ => Resolved true 200 Demo.page1;
     accounts_apps_list := fun _ _ _ => Resolved true 200 Demo.apps1;
     accounts_networkReport_generate :=
       accounts_networkReport_generate Demo.admob;
     accounts_mediationReport_generate :=
       accounts_mediationReport_generate Demo.admob |}.

Definition failing : Admob :=
  {| accounts_get := accounts_get Demo.admob;
     accounts_adUnits_list := fun history _ _ =>
       if Nat.ltb (List.length history) 2
       then Resolved true 200 (nth (List.length history) [Demo.page1] Demo.page2)
       else Resolved false 503 Demo.page3;
     accounts_apps_list := fun history _ _ =>
       if Nat.ltb (List.length history) 1
       then Resolved true 200 Demo.apps1
       else Resolved false 503 Demo.apps2;
     accounts_networkReport_generate :=
       accounts_networkReport_generate Demo.admob;
     accounts_mediationReport_generate :=
       accounts_mediationReport_generate Demo.admob |}.

Definition no_code : Env := mkEnv (Some "").

Definition read_only : Auth.World :=
  Auth.mkWorld Demo.unauthenticated Auth.NotCreated [] [] [] None
               (Some (Auth.FailsAtOpen (Error "EACCES: permission denied"))).

Definition disk_full : Auth.World :=
  Auth.mkWorld (mkFiles (inr "stale") (inr "secret")) Auth.NotCreated [] [] []
               None
               (Some (Auth.FailsAtWrite (Error "ENOSPC: no space left on device") 3)).

Definition port_taken : Auth.World :=
  Auth.mkWorld Demo.unauthenticated Auth.NotCreated [] [] []
               (Some (Error "listen EADDRINUSE: address already in use :::3000"))
               None.

Definition no_secret : Auth.World :=
  Auth.mkWorld (mkFiles (inl Demo.no_entry) (inl Demo.no_entry))
               Auth.NotCreated [] [] [] None None.

End Demo2.

(** A runtime that serializes a token object as its three fields between
    bars and parses such a text back, and whose [fromJSON] demands the type
    [authorized_user] and three non-empty string fields. *)
Module Demo3.

Definition stringify (v : JValue) : string :=
  match own "client_id" v, own "client_secret" v, own "refresh_token" v with
  | JStr id, JStr secret, JStr refresh => id ++ "|" ++ secret ++ "|" ++ refresh
  | _, _, _ => "<json>"
  end.

Definition parse (s : string) : JSError + JValue :=
  match split "|" s with
  | [id; secret; refresh] =>
      inr (JObj [ ("type", JStr "authorized_user");
                  ("client_id", JStr id);
                  ("client_secret", JStr secret);
                  ("refresh_token", JStr refresh) ])
  | _ => JSON_parse Demo.runtime s
  end.

Definition fromJSON (v : JValue) : option OAuth2Client :=
  match own "type" v, own "client_id" v, own "client_secret" v,
        own "refresh_token" v with
  | JStr type, JStr id, JStr secret, JStr refresh =>
      if (type =? "authorized_user") && truthy_string id
         && truthy_string secret && truthy_string refresh
      then Some (mkClient (JStr id) (JStr secret) None
                          (JObj [("refresh_token", JStr refresh)]))
      else None
  | _, _, _, _ => None
  end.

Definition runtime : Runtime :=
  {| StringToNumber := StringToNumber Demo.runtime;
     object_gt_zero := object_gt_zero Demo.runtime;
     JSON_stringify := stringify;
     JSON_stringify_pretty := JSON_stringify_pretty Demo.runtime;
     JSON_parse := parse;
     google_auth_fromJSON := fromJSON;
     google_admob := google_admob Demo.runtime;
     generateAuthUrl := generateAuthUrl Demo.runtime;
     URL_searchParams := URL_searchParams Demo.runtime;
     getToken := getToken Demo.runtime |}.

End Demo3.


Ltac demo_is_ready := repeat split; discriminate.

(* ================================================================== *)
(** ** Properties of the report branch *)

Section Report.

Variable rt : Runtime.

Lemma positive_length (s : string) :
  (0 <? Z.of_nat (String.length s))%Z = truthy_string s.
Proof.
  destruct s as [|c s]; [reflexivity|].
  unfold truthy_string. cbn [String.length String.eqb negb].
  apply Z.ltb_lt. lia.
Qed.

Lemma positive_size {A} (l : list A) :
  (0 <? Z.of_nat (List.length l))%Z = nonempty l.
Proof.
  destruct l as [|x l]; [reflexivity|].
  cbn [List.length nonempty]. apply Z.ltb_lt. lia.
Qed.

Lemma length_gt_zero_string (s : string) :
  @length_gt_zero CallToolResult rt (JStr s) = Continue (truthy_string s).
Proof.
  unfold length_gt_zero. cbn. now rewrite positive_length.
Qed.

Lemma length_gt_zero_array (l : list JValue) :
  @length_gt_zero CallToolResult rt (JArr l) = Continue (nonempty l).
Proof.
  unfold length_gt_zero. cbn. now rewrite positive_size.
Qed.

Lemma mapM_filters (elems : list JValue) :
  forallb is_object elems = true ->
  mapM (R := CallToolResult)
       (fun filter =>
          d <- get_prop filter "dimension" ;;
          v <- get_prop filter "values" ;;
          Continue {| dimension := d; matchesAny := {| values := v |} |})
       elems
  = Continue (map filter_image elems).
Proof.
  induction elems as [|f fs IH]; [reflexivity|].
  cbn [forallb]. intros H. apply andb_prop in H as [Hf Hfs].
  destruct f; try discriminate.
  cbn [mapM]. cbn [get_prop bind]. rewrite (IH Hfs). reflexivity.
Qed.

Lemma build_dimensionFilters_plain (v : JValue) :
  plain_filters v = true ->
  Tools5.build_dimensionFilters v
  = Continue match v with
             | JArr (f :: fs) => Some (map filter_image (f :: fs))
             | _ => None
             end.
Proof.
  destruct v as [ | | | | |elems| | ]; try discriminate; [reflexivity|].
  intros H. destruct elems as [|f fs]; [reflexivity|].
  unfold Tools5.build_dimensionFilters.
  cbn [truthy and_then Object_keys_nonempty nonempty bind].
  now rewrite (mapM_filters _ H).
Qed.

Lemma sort_entry_plain make field condition :
  plain_sort field condition = true ->
  Tools5.sort_entry rt condition field make = Continue (kept make field condition).
Proof.
  destruct condition as [ | | | | | |props| ]; try discriminate; [reflexivity|].
  cbn [plain_sort]. intros H. apply andb_prop in H as [Hs Ho].
  unfold Tools5.sort_entry, kept. cbn [truthy get_prop bind own].
  destruct (lookup field props) as [ | | | |subject| | | ]; try discriminate.
  destruct (lookup "order" props) as [ | | | |order| | | ]; try discriminate.
  rewrite length_gt_zero_string. cbn [bind].
  destruct (truthy_string subject); [|reflexivity].
  rewrite length_gt_zero_string. cbn [bind andb].
  now destruct (truthy_string order).
Qed.

Lemma plain_sort_object field props :
  plain_sort field (JObj props) = true -> nonempty props = true.
Proof.
  destruct props; [discriminate|reflexivity].
Qed.

Lemma build_sortConditions_plain (dsc msc : JValue) :
  plain_sort "dimension" dsc = true ->
  plain_sort "metric" msc = true ->
  Tools5.build_sortConditions rt dsc msc
  = Continue (key_unless_empty (kept DimensionSort "dimension" dsc
                                ++ kept MetricSort "metric" msc)%list).
Proof.
  intros Hd Hm. unfold Tools5.build_sortConditions.
  rewrite (sort_entry_plain DimensionSort _ _ Hd).
  rewrite (sort_entry_plain MetricSort _ _ Hm).
  destruct dsc as [ | | | | | |dp| ]; try discriminate;
    destruct msc as [ | | | | | |mp| ]; try discriminate;
    cbn [truthy and_then Object_keys_nonempty bind];
    try rewrite (plain_sort_object _ _ Hd);
    try rewrite (plain_sort_object _ _ Hm);
    reflexivity.
Qed.

(** On conforming arguments the handler builds [expected_reportSpec]. *)
Lemma build_reportSpec_conforming (args : list (string * JValue)) :
  conforming args = true ->
  Tools5.build_reportSpec rt (JObj args) = Continue (expected_reportSpec rt args).
Proof.
  unfold conforming. intros H.
  repeat (apply andb_prop in H as [H ?]).
  unfold Tools5.build_reportSpec, expected_reportSpec.
  cbn [get_prop bind].
  destruct (lookup "dateRangeStart" args) as [ | | | |s| | | ] eqn:Es;
    try discriminate.
  destruct (lookup "dateRangeEnd" args) as [ | | | |e| | | ] eqn:Ee;
    try discriminate.
  cbn [split_map_Number bind date_of].
  cbn [present_string] in *. cbn [truthy].
  replace (truthy_string s) with true by congruence.
  replace (truthy_string e) with true by congruence.
  replace (truthy (lookup "metrics" args)) with true by congruence.
  cbn [negb orb].
  rewrite build_dimensionFilters_plain by assumption.
  rewrite build_sortConditions_plain by assumption.
  cbn [bind].
  destruct (lookup "dimensions" args) as [ | | | | |ds| | ];
    try discriminate; cbn [truthy and_then bind]; [reflexivity|].
  rewrite length_gt_zero_array. cbn [bind].
  now destruct ds.
Qed.

End Report.

(** Once authenticated and configured, a report tool call is the report
    branch. *)
Lemma callTool_report rt f env fuel auth publisherCode n a :
  ready rt f env auth publisherCode ->
  is_report n = true ->
  Tools5.callTool rt f env fuel (mkRequest n a)
  = Tools5.generate_report rt (google_admob rt auth) publisherCode n a.
Proof.
  intros (Hload & Hcode & Hne) Hn.
  unfold Tools5.callTool. rewrite Hload, Hcode.
  cbn [truthy_opt_string name arguments]. unfold truthy_string.
  destruct (publisherCode =? "") eqn:E.
  - apply String.eqb_eq in E. contradiction.
  - cbn [negb]. unfold is_report in Hn. now rewrite Hn.
Qed.

(** The report branch sends exactly one request, carrying the specification
    built from conforming arguments. *)
Lemma generate_report_conforming rt admob publisherCode n args :
  conforming args = true ->
  exists outcome,
    Tools5.generate_report rt admob publisherCode n (Some args)
    = (outcome,
       [report_request n ("accounts/" ++ publisherCode)
                       (expected_reportSpec rt args)]).
Proof.
  intros H. unfold Tools5.generate_report, report_request.
  rewrite (build_reportSpec_conforming rt args H).
  destruct (n =? Tools5.GENERATE_NETWORK_REPORT); cbn [fst snd].
  - destruct (accounts_networkReport_generate _ _ _ _) as [e|[|] st d];
      eexists; reflexivity.
  - destruct (accounts_mediationReport_generate _ _ _ _) as [e|[|] st d];
      eexists; reflexivity.
Qed.


(** C5.  For the arguments [{dateRangeStart: "2024-01-01", dateRangeEnd:
    "2024-01-07", metrics: ["CLICKS"]}] the handler builds the report
    specification [{dateRange: {startDate: {year: 2024, month: 1, day: 1},
    endDate: {year: 2024, month: 1, day: 7}}, metrics: ["CLICKS"]}], which has
    no [dimensions], [dimensionFilters] or [sortConditions] key, and this is
    the specification the report branch sends upstream, whatever the runtime,
    the upstream and the publisher code. *)
Theorem scenario_report_specification :
  forall rt : Runtime,
    Tools5.build_reportSpec rt (JObj scenario_args) = Continue scenario_reportSpec
    /\ dimensions scenario_reportSpec = None
    /\ dimensionFilters scenario_reportSpec = None
    /\ sortConditions scenario_reportSpec = None
    /\ forall admob publisherCode n,
        snd (Tools5.generate_report rt admob publisherCode n (Some scenario_args))
        = [report_request n ("accounts/" ++ publisherCode) scenario_reportSpec].
Proof.
  intros rt.
  assert (E : Tools5.build_reportSpec rt (JObj scenario_args)
              = Continue scenario_reportSpec) by reflexivity.
  repeat split; try reflexivity.
  intros admob publisherCode n.
  unfold Tools5.generate_report, report_request. rewrite E.
  destruct (n =? Tools5.GENERATE_NETWORK_REPORT); cbn [fst snd].
  - now destruct (accounts_networkReport_generate _ _ _ _) as [e|[|] st d].
  - now destruct (accounts_mediationReport_generate _ _ _ _) as [e|[|] st d].
Qed.

(** C3, as the code has it.  For a report call with conforming arguments whose
    [dimensionFilters] is a list of objects: when the list is not empty, the
    specification sent upstream has the key [dimensionFilters], holding for
    each input [{dimension: D, values: V}] the filter [{dimension: D,
    matchesAny: {values: V}}], one for one and in the order of the input;
    when the list is empty, the specification has no [dimensionFilters]
    key. *)
Theorem dimension_filters_mapped :
  forall rt f env fuel auth publisherCode n args filters,
    ready rt f env auth publisherCode ->
    is_report n = true ->
    conforming args = true ->
    lookup "dimensionFilters" args = JArr filters ->
    exists reportSpec,
      snd (Tools5.callTool rt f env fuel (mkRequest n (Some args)))
      = [report_request n ("accounts/" ++ publisherCode) reportSpec]
      /\ (filters <> [] ->
          dimensionFilters reportSpec = Some (map filter_image filters))
      /\ (filters = [] -> dimensionFilters reportSpec = None)
      /\ (forall D V,
             filter_image (JObj [("dimension", D); ("values", V)])
             = {| dimension := D; matchesAny := {| values := V |} |}).
Proof.
  intros rt f env fuel auth pc n args filters Hready Hn Hargs Hf.
  exists (expected_reportSpec rt args).
  rewrite (callTool_report _ _ _ fuel _ _ _ (Some args) Hready Hn).
  destruct (generate_report_conforming rt (google_admob rt auth) pc n args Hargs)
    as [outcome ->].
  split; [reflexivity|].
  cbn [expected_reportSpec dimensionFilters]. rewrite Hf.
  repeat split.
  - intros Hne. destruct filters; [contradiction|reflexivity].
  - now intros ->.
Qed.

Lemma dimension_filters_mapped_witness :
  exists reportSpec,
    snd (Tools5.callTool Demo.runtime Demo.authenticated Demo.env 1
           (mkRequest "generate_network_report" (Some full_args)))
    = [report_request "generate_network_report" ("accounts/" ++ "pub-1") reportSpec]
    /\ dimensionFilters reportSpec
       = Some [ {| dimension := JStr "COUNTRY";
                   matchesAny := {| values := JArr [JStr "US"; JStr "KR"] |} |};
                {| dimension := JStr "PLATFORM";
                   matchesAny := {| values := JArr [JStr "Android"] |} |} ].
Proof.
  destruct (dimension_filters_mapped Demo.runtime Demo.authenticated Demo.env 1
              Demo.client "pub-1" "generate_network_report" full_args
              [ JObj [("dimension", JStr "COUNTRY");
                      ("values", JArr [JStr "US"; JStr "KR"])];
                JObj [("dimension", JStr "PLATFORM");
                      ("values", JArr [JStr "Android"])] ])
    as (reportSpec & Hsent & Hsome & _).
  - demo_is_ready.
  - reflexivity.
  - reflexivity.
  - reflexivity.
  - exists reportSpec. split; [exact Hsent|].
    rewrite Hsome by discriminate. reflexivity.
Defined.

(** C3 as stated fails on an empty list of filters: the specification sent
    upstream then has no [dimensionFilters] key, where the claim has it hold
    the (empty) image of the input. *)
Lemma empty_filters_no_key :
  snd (Tools5.callTool Demo.runtime Demo.authenticated Demo.env 1
         (mkRequest "generate_network_report" (Some no_filter_args)))
  = [NetworkReportGenerate "accounts/pub-1" scenario_reportSpec]
  /\ lookup "dimensionFilters" no_filter_args = JArr []
  /\ dimensionFilters scenario_reportSpec <> Some (map filter_image []).
Proof.
  repeat split. discriminate.
Qed.

Section SortStage.

Variable rt : Runtime.



End SortStage.




(** C2, as the code has it.  A report call is answered by a soft error
    ([isError: true]), without an upstream request and without an exception,
    when the arguments object is absent, or when both dates are strings and
    one of them is empty or [metrics] is absent or otherwise falsy.  A
    [metrics] list, even an empty one, is not missing: with conforming
    arguments otherwise, the request goes upstream. *)
Theorem missing_arguments_soft_error :
  forall rt f env fuel auth publisherCode n a,
    ready rt f env auth publisherCode ->
    is_report n = true ->
    (a = None
     \/ exists args s e,
         a = Some args
         /\ lookup "dateRangeStart" args = JStr s
         /\ lookup "dateRangeEnd" args = JStr e
         /\ (s = "" \/ e = "" \/ truthy (lookup "metrics" args) = false)) ->
    (exists r,
        Tools5.callTool rt f env fuel (mkRequest n a) = (Returns r, [])
        /\ soft_error r)
    /\ (forall args l,
           conforming args = true ->
           lookup "metrics" args = JArr l ->
           snd (Tools5.callTool rt f env fuel (mkRequest n (Some args)))
           = [report_request n ("accounts/" ++ publisherCode)
                             (expected_reportSpec rt args)]).
Proof.
  intros rt f env fuel auth pc n a Hready Hn Hmissing. split.
  - rewrite (callTool_report _ _ _ fuel _ _ _ a Hready Hn).
    destruct Hmissing as [->|(args & s & e & -> & Hs & He & Hm)].
    + eexists. split; reflexivity.
    + exists Tools5.missing_required. split; [|reflexivity].
      unfold Tools5.generate_report, Tools5.build_reportSpec.
      cbn [get_prop bind]. rewrite Hs, He.
      cbn [split_map_Number bind truthy].
      destruct Hm as [ -> | [ -> | -> ] ]; cbn [truthy_string String.eqb negb orb];
        rewrite ?orb_true_r; reflexivity.
  - intros args l Hargs _.
    rewrite (callTool_report _ _ _ fuel _ _ _ (Some args) Hready Hn).
    now destruct (generate_report_conforming rt (google_admob rt auth) pc n
                    args Hargs) as [outcome ->].
Qed.

Lemma missing_arguments_soft_error_witness :
  exists r,
    Tools5.callTool Demo.runtime Demo.authenticated Demo.env 1
      (mkRequest "generate_network_report"
         (Some [ ("dateRangeStart", JStr "2024-01-01");
                 ("dateRangeEnd", JStr "2024-01-07") ]))
    = (Returns r, [])
    /\ soft_error r.
Proof.
  apply (missing_arguments_soft_error Demo.runtime Demo.authenticated Demo.env 1
           Demo.client "pub-1" "generate_network_report").
  - demo_is_ready.
  - reflexivity.
  - right. exists [ ("dateRangeStart", JStr "2024-01-01");
                    ("dateRangeEnd", JStr "2024-01-07") ],
                  "2024-01-01", "2024-01-07".
    repeat split. right. right. reflexivity.
Defined.

(** C2 as stated fails on an empty list of metrics: the request goes
    upstream, and the call succeeds when the upstream accepts it and throws
    when the upstream refuses it; in neither case is a soft error returned. *)
Lemma empty_metrics_not_rejected :
  ~ (exists r,
        fst (Tools5.callTool Demo.runtime Demo.authenticated Demo.env 1
               (mkRequest "generate_network_report" (Some no_metric_args)))
        = Returns r
        /\ soft_error r)
  /\ fst (Tools5.callTool (Demo.runtime_with Demo.refusing) Demo.authenticated
            Demo.env 1
            (mkRequest "generate_network_report" (Some no_metric_args)))
     = Throws (Error "Bad Request").
Proof.
  split; [|reflexivity].
  intros (r & Hr & Hsoft). cbn in Hr. injection Hr as <-. discriminate.
Qed.

(** C9, the code at a failing input.  A report call whose arguments lack
    [dateRangeStart] makes the handler throw a [TypeError]: the date is split
    before the check of the required parameters, and the report branch has no
    [try]. *)
Theorem report_without_start_date_throws :
  forall rt f env fuel auth publisherCode n,
    ready rt f env auth publisherCode ->
    is_report n = true ->
    Tools5.callTool rt f env fuel (mkRequest n (Some no_start_args))
    = (Throws
         (TypeError "Cannot read properties of undefined (reading 'split')"),
       []).
Proof.
  intros rt f env fuel auth pc n Hready Hn.
  now rewrite (callTool_report _ _ _ fuel _ _ _ _ Hready Hn).
Qed.

Lemma report_without_start_date_throws_witness :
  Tools5.callTool Demo.runtime Demo.authenticated Demo.env 1
    (mkRequest "generate_network_report" (Some no_start_args))
  = (Throws (TypeError "Cannot read properties of undefined (reading 'split')"),
     []).
Proof.
  apply (report_without_start_date_throws Demo.runtime Demo.authenticated
           Demo.env 1 Demo.client "pub-1").
  - demo_is_ready.
  - reflexivity.
Defined.

(** C6.  When the credential store yields no client, every tool call, of
    either dispatcher and whatever its name and arguments, returns the error
    block [{isError: true, content: [{type: "text", text: "Not Authenticated.
    ..."}]}] and issues no upstream request. *)
Theorem not_authenticated :
  forall rt f env fuel request,
    Auth.loadSavedCredentialsIfExist rt f = None ->
    let answer :=
      {| content :=
           [ {| type := "text";
                text := "Not Authenticated. Try running `npm run auth` to authenticate." |} ];
         isError := Some true |} in
    Tools5.callTool rt f env fuel request = (Returns answer, [])
    /\ Tools3.callTool rt f env fuel request = (Returns answer, [])
    /\ (forall block, In block (content answer) ->
           type block = "text"
           /\ String.prefix "Not Authenticated" (text block) = true).
Proof.
  intros rt f env fuel request H answer.
  unfold Tools5.callTool, Tools3.callTool. rewrite H.
  split; [reflexivity|]. split; [reflexivity|].
  intros block [ <- | [] ]. split; reflexivity.
Qed.

Lemma not_authenticated_witness :
  Tools5.callTool Demo.runtime Demo.unauthenticated Demo.env 1
    (mkRequest "list_apps" None)
  = (Returns
       {| content :=
            [ {| type := "text";
                 text := "Not Authenticated. Try running `npm run auth` to authenticate." |} ];
          isError := Some true |},
     []).
Proof.
  apply (not_authenticated Demo.runtime Demo.unauthenticated Demo.env 1
           (mkRequest "list_apps" None)).
  reflexivity.
Defined.

(* ================================================================== *)
(** ** Properties of the pagination loops *)

Section Pagination.

Local Open Scope list_scope.

Variables (rt : Runtime) (admob : Admob) (publisherCode : string).

Local Abbreviation parent := ("accounts/" ++ publisherCode)%string.

Lemma pushed_ad_units (all : list JValue) (p : ListAdUnitsResponse) :
  match adUnits p with
  | Some (u :: us) => all ++ u :: us
  | _ => all
  end = all ++ ad_unit_items p.
Proof.
  unfold ad_unit_items.
  destruct (adUnits p) as [[|u us]|]; now rewrite ?app_nil_r.
Qed.

Lemma pushed_apps (all : list JValue) (p : ListAppsResponse) :
  match apps p with
  | Some (a :: as') => all ++ a :: as'
  | _ => all
  end = all ++ app_items p.
Proof.
  unfold app_items.
  destruct (apps p) as [[|a as']|]; now rewrite ?app_nil_r.
Qed.

(** The loop, started anywhere, on pages whose tokens are truthy except for
    the last one: it pushes the items of every page in order and issues one
    request per page. *)
Lemma list_ad_units_loop_pages (init : list ListAdUnitsResponse)
    (last : ListAdUnitsResponse) :
  forall fuel all pageToken trace,
    Forall (fun p => truthy_opt_string (ad_units_next p) = true) init ->
    truthy_opt_string (ad_units_next last) = false ->
    List.length init < fuel ->
    answers_ad_units admob parent trace pageToken (init ++ [last]) ->
    Tools5.list_ad_units_loop rt admob publisherCode fuel all pageToken trace
    = (Returns (listing rt (all ++ concat (map ad_unit_items (init ++ [last])))),
       trace ++ ad_unit_requests parent pageToken (init ++ [last])).
Proof.
  induction init as [|p ps IH]; intros fuel all pageToken trace Hinit Hlast Hfuel Hans;
    (destruct fuel as [|fuel]; [cbn in Hfuel; lia|]);
    cbn [app answers_ad_units] in Hans; destruct Hans as [[status E] Hrest];
    cbn [Tools5.list_ad_units_loop]; rewrite E; cbn [negb];
    rewrite pushed_ad_units.
  - fold (ad_units_next last). rewrite Hlast.
    cbn [app map concat ad_unit_requests]. now rewrite app_nil_r.
  - fold (ad_units_next p).
    inversion Hinit as [|? ? Hp Hps]; subst. rewrite Hp.
    rewrite (IH fuel _ _ _ Hps Hlast) by (cbn in Hfuel; lia || exact Hrest).
    cbn [app map concat ad_unit_requests].
    now rewrite <- !app_assoc.
Qed.

Lemma list_apps_loop_pages (init : list ListAppsResponse)
    (last : ListAppsResponse) :
  forall fuel all pageToken trace,
    Forall (fun p => truthy_opt_string (apps_next p) = true) init ->
    truthy_opt_string (apps_next last) = false ->
    List.length init < fuel ->
    answers_apps admob parent trace pageToken (init ++ [last]) ->
    Tools5.list_apps_loop rt admob publisherCode fuel all pageToken trace
    = (Returns (listing rt (all ++ concat (map app_items (init ++ [last])))),
       trace ++ app_requests parent pageToken (init ++ [last])).
Proof.
  induction init as [|p ps IH]; intros fuel all pageToken trace Hinit Hlast Hfuel Hans;
    (destruct fuel as [|fuel]; [cbn in Hfuel; lia|]);
    cbn [app answers_apps] in Hans; destruct Hans as [[status E] Hrest];
    cbn [Tools5.list_apps_loop]; rewrite E; cbn [negb];
    rewrite pushed_apps.
  - fold (apps_next last). rewrite Hlast.
    cbn [app map concat app_requests]. now rewrite app_nil_r.
  - fold (apps_next p).
    inversion Hinit as [|? ? Hp Hps]; subst. rewrite Hp.
    rewrite (IH fuel _ _ _ Hps Hlast) by (cbn in Hfuel; lia || exact Hrest).
    cbn [app map concat app_requests].
    now rewrite <- !app_assoc.
Qed.

Lemma ad_unit_requests_length pageToken pages :
  List.length (ad_unit_requests parent pageToken pages) = List.length pages.
Proof.
  revert pageToken. induction pages as [|p ps IH]; intros pageToken;
    [reflexivity|]. cbn. now rewrite IH.
Qed.

Lemma app_requests_length pageToken pages :
  List.length (app_requests parent pageToken pages) = List.length pages.
Proof.
  revert pageToken. induction pages as [|p ps IH]; intros pageToken;
    [reflexivity|]. cbn. now rewrite IH.
Qed.

End Pagination.

Lemma callTool_list_ad_units rt f env fuel auth publisherCode a :
  ready rt f env auth publisherCode ->
  Tools5.callTool rt f env fuel (mkRequest "list_ad_units" a)
  = Tools5.list_ad_units_loop rt (google_admob rt auth) publisherCode fuel
                              [] None [].
Proof.
  intros (Hload & Hcode & Hne).
  unfold Tools5.callTool. rewrite Hload, Hcode.
  cbn [truthy_opt_string name arguments]. unfold truthy_string.
  destruct (publisherCode =? "") eqn:E; [|reflexivity].
  apply String.eqb_eq in E. contradiction.
Qed.

Lemma callTool_list_apps rt f env fuel auth publisherCode a :
  ready rt f env auth publisherCode ->
  Tools5.callTool rt f env fuel (mkRequest "list_apps" a)
  = Tools5.list_apps_loop rt (google_admob rt auth) publisherCode fuel
                          [] None [].
Proof.
  intros (Hload & Hcode & Hne).
  unfold Tools5.callTool. rewrite Hload, Hcode.
  cbn [truthy_opt_string name arguments]. unfold truthy_string.
  destruct (publisherCode =? "") eqn:E; [|reflexivity].
  apply String.eqb_eq in E. contradiction.
Qed.

(** C1.  Let the upstream answer the requests of a [list_ad_units] (or
    [list_apps]) call with the successful pages [init ++ [last]], where every
    page of [init] carries a non-empty next-page token and [last] carries
    none (absent, [null] or empty).  Then, given fuel for one iteration per
    page, the call returns the concatenation of the items of the pages, in
    page order, nothing dropped and nothing repeated, and it issues exactly
    one request per page: the first without a token, each later one with the
    token of the page before, none after [last]. *)
Theorem pagination_concatenates_pages :
  forall rt f env fuel auth publisherCode a,
    ready rt f env auth publisherCode ->
    let admob := google_admob rt auth in
    let parent := "accounts/" ++ publisherCode in
    (forall init last,
        Forall (fun p => truthy_opt_string (ad_units_next p) = true) init ->
        truthy_opt_string (ad_units_next last) = false ->
        answers_ad_units admob parent [] None (init ++ [last]) ->
        List.length init < fuel ->
        Tools5.callTool rt f env fuel (mkRequest "list_ad_units" a)
        = (Returns (listing rt (concat (map ad_unit_items (init ++ [last])))),
           ad_unit_requests parent None (init ++ [last]))
        /\ List.length (ad_unit_requests parent None (init ++ [last]))
           = S (List.length init))
    /\ (forall init last,
        Forall (fun p => truthy_opt_string (apps_next p) = true) init ->
        truthy_opt_string (apps_next last) = false ->
        answers_apps admob parent [] None (init ++ [last]) ->
        List.length init < fuel ->
        Tools5.callTool rt f env fuel (mkRequest "list_apps" a)
        = (Returns (listing rt (concat (map app_items (init ++ [last])))),
           app_requests parent None (init ++ [last]))
        /\ List.length (app_requests parent None (init ++ [last]))
           = S (List.length init)).
Proof.
  intros rt f env fuel auth pc a Hready admob parent.
  split; intros init last Hinit Hlast Hans Hfuel; split.
  - rewrite (callTool_list_ad_units _ _ _ fuel _ _ a Hready).
    exact (list_ad_units_loop_pages rt admob pc init last fuel [] None []
             Hinit Hlast Hfuel Hans).
  - unfold parent. rewrite ad_unit_requests_length, length_app. cbn. lia.
  - rewrite (callTool_list_apps _ _ _ fuel _ _ a Hready).
    exact (list_apps_loop_pages rt admob pc init last fuel [] None []
             Hinit Hlast Hfuel Hans).
  - unfold parent. rewrite app_requests_length, length_app. cbn. lia.
Qed.

Lemma pagination_concatenates_pages_witness :
  Tools5.callTool Demo.runtime Demo.authenticated Demo.env 3
    (mkRequest "list_ad_units" None)
  = (Returns (listing Demo.runtime [JStr "u1"; JStr "u2"; JStr "u3"]),
     [ AdUnitsList "accounts/pub-1" None;
       AdUnitsList "accounts/pub-1" (Some "t1");
       AdUnitsList "accounts/pub-1" (Some "t2") ])
  /\ Tools5.callTool Demo.runtime Demo.authenticated Demo.env 3
       (mkRequest "list_apps" None)
     = (Returns (listing Demo.runtime [JStr "a1"; JStr "a2"; JStr "a3"]),
        [ AppsList "accounts/pub-1" None;
          AppsList "accounts/pub-1" (Some "n") ]).
Proof.
  destruct (pagination_concatenates_pages Demo.runtime Demo.authenticated
              Demo.env 3 Demo.client "pub-1" None) as [Hunits Happs].
  - demo_is_ready.
  - split.
    + apply (Hunits [Demo.page1; Demo.page2] Demo.page3).
      * repeat constructor.
      * reflexivity.
      * cbn. repeat split; exists 200%Z; reflexivity.
      * cbn. lia.
    + apply (Happs [Demo.apps1] Demo.apps2).
      * repeat constructor.
      * reflexivity.
      * cbn. repeat split; exists 200%Z; reflexivity.
      * cbn. lia.
Defined.

(* ================================================================== *)
(** ** The two dispatchers *)

Lemma list_ad_units_loops_agree rt admob publisherCode :
  forall fuel all pageToken trace,
    Tools3.list_ad_units_loop rt admob publisherCode fuel all pageToken trace
    = Tools5.list_ad_units_loop rt admob publisherCode fuel all pageToken trace.
Proof.
  induction fuel as [|fuel IH]; intros all pageToken trace; [reflexivity|].
  cbn [Tools3.list_ad_units_loop Tools5.list_ad_units_loop].
  destruct (accounts_adUnits_list _ _ _ _) as [e|ok status data];
    [reflexivity|].
  destruct ok; cbn [negb]; [|reflexivity].
  now rewrite IH.
Qed.

Lemma list_apps_loops_agree rt admob publisherCode :
  forall fuel all pageToken trace,
    Tools3.list_apps_loop rt admob publisherCode fuel all pageToken trace
    = Tools5.list_apps_loop rt admob publisherCode fuel all pageToken trace.
Proof.
  induction fuel as [|fuel IH]; intros all pageToken trace; [reflexivity|].
  cbn [Tools3.list_apps_loop Tools5.list_apps_loop].
  destruct (accounts_apps_list _ _ _ _) as [e|ok status data];
    [reflexivity|].
  destruct ok; cbn [negb]; [|reflexivity].
  now rewrite IH.
Qed.

(** C10.  On a call naming [get_account], [list_ad_units] or [list_apps], the
    three-tool dispatcher and the five-tool dispatcher give the same outcome
    and issue the same upstream requests, for every runtime (credential
    parsing, upstream), credential files, environment, fuel and arguments. *)
Theorem dispatchers_agree :
  forall rt f env fuel request,
    name request = "get_account" \/ name request = "list_ad_units"
    \/ name request = "list_apps" ->
    Tools3.callTool rt f env fuel request = Tools5.callTool rt f env fuel request.
Proof.
  intros rt f env fuel [n a] Hn. cbn [name] in Hn.
  unfold Tools3.callTool, Tools5.callTool.
  destruct (Auth.loadSavedCredentialsIfExist rt f) as [auth|]; [|reflexivity].
  destruct (negb (truthy_opt_string (PUBLISHER_CODE env))); [reflexivity|].
  cbn [name arguments].
  destruct Hn as [ -> | [ -> | -> ] ]; cbn [String.eqb Ascii.eqb Bool.eqb orb].
  - reflexivity.
  - apply list_ad_units_loops_agree.
  - apply list_apps_loops_agree.
Qed.

Lemma dispatchers_agree_witness :
  Tools3.callTool Demo.runtime Demo.authenticated Demo.env 3
    (mkRequest "list_ad_units" None)
  = Tools5.callTool Demo.runtime Demo.authenticated Demo.env 3
      (mkRequest "list_ad_units" None).
Proof.
  apply dispatchers_agree. right. left. reflexivity.
Defined.

(* ================================================================== *)
(** ** Properties of the authorization flow *)

Section Authorization.

Variable rt : Runtime.

Lemma get_prop_truthy (v : JValue) (k : string) :
  truthy v = true -> exists x, @get_prop unit v k = Continue x.
Proof.
  destruct v; try discriminate; intros _; cbn [get_prop];
    repeat match goal with
           | |- context [if ?b then _ else _] => destruct b
           end; eexists; reflexivity.
Qed.

Lemma on_request_passed_over oAuth2Client req_url st :
  passed_over req_url = true ->
  Auth.on_request rt oAuth2Client req_url st = st.
Proof.
  destruct st as [p w]. destruct req_url as [u|]; [|reflexivity].
  cbn [passed_over Auth.on_request]. unfold is_callback.
  now destruct (truthy_string u && includes "/oauth2callback" u).
Qed.

Lemma serve_passed_over oAuth2Client before rest w :
  forallb passed_over before = true ->
  Auth.serve rt oAuth2Client (before ++ rest) (Auth.Pending, w)
  = Auth.serve rt oAuth2Client rest (Auth.Pending, w).
Proof.
  induction before as [|r before IH]; [reflexivity|].
  cbn [forallb]. intros H. apply andb_prop in H as [Hr Hbefore].
  cbn [app Auth.serve fst]. rewrite (on_request_passed_over _ _ _ Hr).
  exact (IH Hbefore).
Qed.

Lemma serve_settled oAuth2Client requests e w :
  Auth.serve rt oAuth2Client requests (Auth.RejectedWith e, w)
  = (Auth.RejectedWith e, w).
Proof. now destruct requests. Qed.

(** The callback without a usable code, met while the promise is pending. *)
Lemma serve_callback_without_code oAuth2Client u qs rest w :
  is_callback u = true ->
  URL_searchParams rt u "http://localhost:3000" = inr qs ->
  truthy_opt_string (Auth.searchParams_get "code" qs) = false ->
  Auth.serve rt oAuth2Client (Some u :: rest) (Auth.Pending, w)
  = (Auth.RejectedWith missing_code,
     Auth.set_listener
       (Auth.res_end w "Authentication successful! Please return to the console.")
       Auth.Closed).
Proof.
  intros Hu Hqs Hcode. cbn [Auth.serve fst Auth.on_request].
  unfold is_callback in Hu. rewrite Hu, Hqs.
  destruct (Auth.searchParams_get "code" qs) as [c|].
  - cbn [truthy_opt_string] in Hcode. rewrite Hcode. apply serve_settled.
  - apply serve_settled.
Qed.

End Authorization.

(** C7, as the code has it.  Let the flow get as far as waiting for the
    redirect (no stored token loads, the client secret yields a key, port 3000
    binds), let the listener first receive requests it passes over, then a
    callback request whose URL the URL parser accepts and whose query has no
    [code] parameter (or an empty one).  Then the flow ends rejected with
    "No code found in callback URL", the listener is closed, no code is
    exchanged and the credential files are as they were: no token file is
    written. *)
Theorem callback_without_code_fails :
  forall rt w before u qs rest,
    awaits_redirect rt w ->
    forallb passed_over before = true ->
    is_callback u = true ->
    URL_searchParams rt u "http://localhost:3000" = inr qs ->
    truthy_opt_string (Auth.searchParams_get "code" qs) = false ->
    let result := Auth.authorize rt w (before ++ Some u :: rest) in
    fst result = Auth.RejectedWith missing_code
    /\ Auth.listener (snd result) = Auth.Closed
    /\ Auth.files (snd result) = Auth.files w
    /\ Auth.token_requests (snd result) = Auth.token_requests w.
Proof.
  intros rt w before u qs rest (Hload & (key & Hkey & Htruthy) & Hlisten)
         Hbefore Hu Hqs Hcode result.
  subst result. unfold Auth.authorize, Auth.authenticate.
  rewrite Hload, Hkey, Htruthy. cbn [negb].
  destruct (get_prop_truthy key "client_id" Htruthy) as [client_id ->].
  destruct (get_prop_truthy key "client_secret" Htruthy) as [client_secret ->].
  cbn [bind]. rewrite Hlisten.
  rewrite (serve_passed_over rt _ before _ _ Hbefore).
  rewrite (serve_callback_without_code rt _ u qs rest _ Hu Hqs Hcode).
  repeat split.
Qed.

Lemma callback_without_code_fails_witness :
  let result :=
    Auth.authorize Demo.runtime Demo.fresh
      ([Some "/favicon.ico"]
       ++ Some "/oauth2callback?error=access_denied"
          :: [Some "/oauth2callback?code=4/abc"]) in
  fst result = Auth.RejectedWith missing_code
  /\ Auth.listener (snd result) = Auth.Closed
  /\ Auth.files (snd result) = Auth.files Demo.fresh
  /\ Auth.token_requests (snd result) = Auth.token_requests Demo.fresh.
Proof.
  apply (callback_without_code_fails Demo.runtime Demo.fresh
           [Some "/favicon.ico"] "/oauth2callback?error=access_denied"
           [("error", "access_denied")]).
  - split; [reflexivity|]. split; [|reflexivity].
    exists Demo.secret_key. split; reflexivity.
  - reflexivity.
  - reflexivity.
  - reflexivity.
  - reflexivity.
Defined.

(** C7 as stated fails on a callback request whose URL the parser refuses:
    [new url.URL("//[/oauth2callback", "http://localhost:3000")] throws (the
    bracket opens an address literal that is never closed), the exception is
    caught before [res.end] and [httpServer.close], and the flow is rejected
    with the parser's error while the listener is still bound. *)
Lemma refused_callback_url_keeps_listener :
  let result := Auth.authorize Demo.runtime Demo.fresh [Some "//[/oauth2callback"] in
  is_callback "//[/oauth2callback" = true
  /\ fst result = Auth.RejectedWith (TypeError "Invalid URL")
  /\ fst result <> Auth.RejectedWith missing_code
  /\ Auth.listener (snd result) = Auth.Listening
  /\ Auth.listener (snd result) <> Auth.Closed.
Proof. repeat split; discriminate. Qed.

(** C8.  When the stored token loads, [authorize] returns the client built
    from it and leaves the world as it was: the listener is not touched, no
    browser is opened, no code is exchanged, no file is rewritten. *)
Theorem stored_token_short_circuits :
  forall rt w requests client,
    Auth.loadSavedCredentialsIfExist rt (Auth.files w) = Some client ->
    let result := Auth.authorize rt w requests in
    result = (Auth.Fulfilled client, w)
    /\ Auth.listener (snd result) = Auth.listener w
    /\ Auth.browser (snd result) = Auth.browser w
    /\ Auth.token_requests (snd result) = Auth.token_requests w
    /\ Auth.files (snd result) = Auth.files w.
Proof.
  intros rt w requests client H result. subst result.
  unfold Auth.authorize. rewrite H. repeat split.
Qed.

Lemma stored_token_short_circuits_witness :
  let result :=
    Auth.authorize Demo.runtime Demo.returning
      [Some "/oauth2callback?code=4/abc"] in
  result = (Auth.Fulfilled Demo.client, Demo.returning)
  /\ Auth.listener (snd result) = Auth.NotCreated
  /\ Auth.browser (snd result) = []
  /\ Auth.token_requests (snd result) = []
  /\ Auth.files (snd result) = Demo.authenticated.
Proof.
  apply (stored_token_short_circuits Demo.runtime Demo.returning
           [Some "/oauth2callback?code=4/abc"] Demo.client).
  reflexivity.
Defined.

(* ================================================================== *)
(** ** Further properties of the dispatchers *)

Lemma callTool_ready rt f env fuel auth publisherCode request :
  ready rt f env auth publisherCode ->
  Tools5.callTool rt f env fuel request
  = let n := name request in
    let admob := google_admob rt auth in
    if (n =? Tools5.GENERATE_NETWORK_REPORT) || (n =? Tools5.GENERATE_MEDIATION_REPORT)
    then Tools5.generate_report rt admob publisherCode n (arguments request)
    else if n =? Tools5.GET_ACCOUNT then Tools5.get_account rt admob publisherCode
    else if n =? Tools5.LIST_AD_UNITS then
      Tools5.list_ad_units_loop rt admob publisherCode fuel [] None []
    else if n =? Tools5.LIST_APPS then
      Tools5.list_apps_loop rt admob publisherCode fuel [] None []
    else (Throws (Error ("Unknown tool: " ++ n)), []).
Proof.
  intros (Hload & Hcode & Hne).
  unfold Tools5.callTool. rewrite Hload, Hcode.
  cbn [truthy_opt_string]. unfold truthy_string.
  destruct (publisherCode =? "") eqn:E; [|reflexivity].
  apply String.eqb_eq in E. contradiction.
Qed.

(** X1.  Without a publisher code (the variable unset or empty) every tool call of
    an authenticated server, whatever its name and arguments, is answered by
    the soft error "PUBLISHER_CODE environment variable not set." and issues
    no upstream request, in both dispatchers. *)
Theorem publisher_code_required :
  forall rt f env fuel request auth,
    Auth.loadSavedCredentialsIfExist rt f = Some auth ->
    PUBLISHER_CODE env = None \/ PUBLISHER_CODE env = Some "" ->
    Tools5.callTool rt f env fuel request = (Returns publisher_code_not_set, [])
    /\ Tools3.callTool rt f env fuel request = (Returns publisher_code_not_set, [])
    /\ soft_error publisher_code_not_set.
Proof.
  intros rt f env fuel request auth Hload Hcode.
  unfold Tools5.callTool, Tools3.callTool. rewrite Hload.
  destruct Hcode as [ -> | -> ]; repeat split.
Qed.

Lemma publisher_code_required_witness :
  Tools5.callTool Demo.runtime Demo.authenticated Demo2.no_code 3
    (mkRequest "list_apps" None)
  = (Returns publisher_code_not_set, []).
Proof.
  apply (publisher_code_required Demo.runtime Demo.authenticated Demo2.no_code 3
           (mkRequest "list_apps" None) Demo.client).
  - reflexivity.
  - right. reflexivity.
Defined.

Section Loops.

Local Open Scope list_scope.

Variables (rt : Runtime) (admob : Admob) (publisherCode : string).

Local Abbreviation parent := ("accounts/" ++ publisherCode)%string.

(** The list loops never let an exception out. *)
Lemma list_ad_units_loop_never_throws fuel :
  forall all pageToken trace e,
    fst (Tools5.list_ad_units_loop rt admob publisherCode fuel all pageToken trace)
    <> Throws e.
Proof.
  induction fuel as [|fuel IH]; intros all pageToken trace e; [discriminate|].
  cbn [Tools5.list_ad_units_loop].
  destruct (accounts_adUnits_list _ _ _ _) as [err|[|] status data];
    cbn [negb fst]; try discriminate.
  destruct (truthy_opt_string _); [apply IH|discriminate].
Qed.

Lemma list_apps_loop_never_throws fuel :
  forall all pageToken trace e,
    fst (Tools5.list_apps_loop rt admob publisherCode fuel all pageToken trace)
    <> Throws e.
Proof.
  induction fuel as [|fuel IH]; intros all pageToken trace e; [discriminate|].
  cbn [Tools5.list_apps_loop].
  destruct (accounts_apps_list _ _ _ _) as [err|[|] status data];
    cbn [negb fst]; try discriminate.
  destruct (truthy_opt_string _); [apply IH|discriminate].
Qed.

(** Every request the loops add is a list request for the account. *)
Lemma list_ad_units_loop_requests (P : ApiRequest -> Prop) fuel :
  (forall pageToken, P (AdUnitsList parent pageToken)) ->
  forall all pageToken trace,
    Forall P trace ->
    Forall P (snd (Tools5.list_ad_units_loop rt admob publisherCode fuel all
                     pageToken trace)).
Proof.
  intros HP. induction fuel as [|fuel IH]; intros all pageToken trace Htrace;
    [exact Htrace|].
  assert (Htrace' : Forall P (trace ++ [AdUnitsList parent pageToken])).
  { apply Forall_app. split; [exact Htrace|]. constructor; [apply HP|constructor]. }
  cbn [Tools5.list_ad_units_loop].
  destruct (accounts_adUnits_list _ _ _ _) as [err|[|] status data];
    cbn [negb snd]; try exact Htrace'.
  destruct (truthy_opt_string _); [now apply IH|exact Htrace'].
Qed.

Lemma list_apps_loop_requests (P : ApiRequest -> Prop) fuel :
  (forall pageToken, P (AppsList parent pageToken)) ->
  forall all pageToken trace,
    Forall P trace ->
    Forall P (snd (Tools5.list_apps_loop rt admob publisherCode fuel all
                     pageToken trace)).
Proof.
  intros HP. induction fuel as [|fuel IH]; intros all pageToken trace Htrace;
    [exact Htrace|].
  assert (Htrace' : Forall P (trace ++ [AppsList parent pageToken])).
  { apply Forall_app. split; [exact Htrace|]. constructor; [apply HP|constructor]. }
  cbn [Tools5.list_apps_loop].
  destruct (accounts_apps_list _ _ _ _) as [err|[|] status data];
    cbn [negb snd]; try exact Htrace'.
  destruct (truthy_opt_string _); [now apply IH|exact Htrace'].
Qed.

End Loops.

Section Settling.

Local Open Scope list_scope.

Variables (rt : Runtime) (admob : Admob) (publisherCode : string).

(** With a bound of [fuel] iterations the loop has either returned, and
    returns the same under every larger bound, or is still paginating after
    [fuel] requests. *)
Lemma list_ad_units_loop_settles fuel :
  forall all pageToken trace,
    (exists r trace',
        forall fuel', fuel <= fuel' ->
          Tools5.list_ad_units_loop rt admob publisherCode fuel' all pageToken
            trace
          = (Returns r, trace'))
    \/ (exists trace',
           Tools5.list_ad_units_loop rt admob publisherCode fuel all pageToken
             trace
           = (OutOfFuel, trace')
           /\ List.length trace' = List.length trace + fuel).
Proof.
  induction fuel as [|fuel IH]; intros all pageToken trace.
  - right. exists trace. split; [reflexivity|lia].
  - cbn [Tools5.list_ad_units_loop].
    destruct (accounts_adUnits_list _ _ _ _) as [err|[|] status data] eqn:E;
      cbn [negb].
    + left. eexists _, _. intros [|fuel'] Hle; [lia|].
      cbn [Tools5.list_ad_units_loop]. now rewrite E.
    + destruct (truthy_opt_string _) eqn:Htok.
      * match goal with
        | |- context [Tools5.list_ad_units_loop _ _ _ fuel ?a ?p ?t] =>
            destruct (IH a p t) as [(r & trace' & Hr)|(trace' & Ho & Hlen)]
        end.
        -- left. exists r, trace'. intros [|fuel'] Hle; [lia|].
           cbn [Tools5.list_ad_units_loop]. rewrite E. cbn [negb].
           rewrite Htok. apply Hr. lia.
        -- right. exists trace'. split; [exact Ho|].
           rewrite Hlen, length_app. cbn. lia.
      * left. eexists _, _. intros [|fuel'] Hle; [lia|].
        cbn [Tools5.list_ad_units_loop]. rewrite E. cbn [negb].
        now rewrite Htok.
    + left. eexists _, _. intros [|fuel'] Hle; [lia|].
      cbn [Tools5.list_ad_units_loop]. now rewrite E.
Qed.

Lemma list_apps_loop_settles fuel :
  forall all pageToken trace,
    (exists r trace',
        forall fuel', fuel <= fuel' ->
          Tools5.list_apps_loop rt admob publisherCode fuel' all pageToken trace
          = (Returns r, trace'))
    \/ (exists trace',
           Tools5.list_apps_loop rt admob publisherCode fuel all pageToken trace
           = (OutOfFuel, trace')
           /\ List.length trace' = List.length trace + fuel).
Proof.
  induction fuel as [|fuel IH]; intros all pageToken trace.
  - right. exists trace. split; [reflexivity|lia].
  - cbn [Tools5.list_apps_loop].
    destruct (accounts_apps_list _ _ _ _) as [err|[|] status data] eqn:E;
      cbn [negb].
    + left. eexists _, _. intros [|fuel'] Hle; [lia|].
      cbn [Tools5.list_apps_loop]. now rewrite E.
    + destruct (truthy_opt_string _) eqn:Htok.
      * match goal with
        | |- context [Tools5.list_apps_loop _ _ _ fuel ?a ?p ?t] =>
            destruct (IH a p t) as [(r & trace' & Hr)|(trace' & Ho & Hlen)]
        end.
        -- left. exists r, trace'. intros [|fuel'] Hle; [lia|].
           cbn [Tools5.list_apps_loop]. rewrite E. cbn [negb].
           rewrite Htok. apply Hr. lia.
        -- right. exists trace'. split; [exact Ho|].
           rewrite Hlen, length_app. cbn. lia.
      * left. eexists _, _. intros [|fuel'] Hle; [lia|].
        cbn [Tools5.list_apps_loop]. rewrite E. cbn [negb].
        now rewrite Htok.
    + left. eexists _, _. intros [|fuel'] Hle; [lia|].
      cbn [Tools5.list_apps_loop]. now rewrite E.
Qed.

End Settling.

(** X4.  A [list_ad_units] or [list_apps] call never throws.  Under every
    bound on the number of loop iterations, either the call has returned a
    result, and it returns that same result under every larger bound, or it
    is still paginating, having issued one request per iteration allowed;
    whatever the credential files, the environment and the upstream do, a
    rejected request included, the handler's promise is not rejected. *)
Theorem list_tools_return_or_paginate :
  forall rt f env fuel request,
    name request = "list_ad_units" \/ name request = "list_apps" ->
    ((exists r,
         forall fuel', fuel <= fuel' ->
           fst (Tools5.callTool rt f env fuel' request) = Returns r)
     \/ (fst (Tools5.callTool rt f env fuel request) = OutOfFuel
         /\ List.length (snd (Tools5.callTool rt f env fuel request)) = fuel))
    /\ forall e, fst (Tools5.callTool rt f env fuel request) <> Throws e.
Proof.
  intros rt f env fuel [n a] Hn. cbn [name] in Hn.
  assert (Hcases :
           (exists r,
               forall fuel', fuel <= fuel' ->
                 fst (Tools5.callTool rt f env fuel' (mkRequest n a)) = Returns r)
           \/ (fst (Tools5.callTool rt f env fuel (mkRequest n a)) = OutOfFuel
               /\ List.length (snd (Tools5.callTool rt f env fuel (mkRequest n a)))
                  = fuel)).
  { unfold Tools5.callTool.
    destruct (Auth.loadSavedCredentialsIfExist rt f) as [auth|];
      [|left; eexists; reflexivity].
    destruct (negb (truthy_opt_string (PUBLISHER_CODE env)));
      [left; eexists; reflexivity|].
    cbn [name arguments].
    destruct Hn as [ -> | -> ]; cbn [String.eqb Ascii.eqb Bool.eqb orb].
    - match goal with
      | |- context [Tools5.list_ad_units_loop _ ?ad ?pc fuel _ _ _] =>
          destruct (list_ad_units_loop_settles rt ad pc fuel [] None [])
            as [(r & trace' & Hr)|(trace' & Ho & Hlen)]
      end.
      + left. exists r. intros fuel' Hle. now rewrite (Hr fuel' Hle).
      + right. rewrite Ho. split; [reflexivity|exact Hlen].
    - match goal with
      | |- context [Tools5.list_apps_loop _ ?ad ?pc fuel _ _ _] =>
          destruct (list_apps_loop_settles rt ad pc fuel [] None [])
            as [(r & trace' & Hr)|(trace' & Ho & Hlen)]
      end.
      + left. exists r. intros fuel' Hle. now rewrite (Hr fuel' Hle).
      + right. rewrite Ho. split; [reflexivity|exact Hlen]. }
  split; [exact Hcases|].
  intros e. destruct Hcases as [[r Hr]|[Ho _]].
  - rewrite (Hr fuel (Nat.le_refl fuel)). discriminate.
  - rewrite Ho. discriminate.
Qed.

Lemma list_tools_return_or_paginate_witness :
  exists r,
    forall fuel', 1 <= fuel' ->
      fst (Tools5.callTool (Demo.runtime_with Demo.refusing) Demo.authenticated
             Demo.env fuel' (mkRequest "list_ad_units" None))
      = Returns r.
Proof.
  destruct (list_tools_return_or_paginate (Demo.runtime_with Demo.refusing)
              Demo.authenticated Demo.env 1 (mkRequest "list_ad_units" None))
    as [[Hreturned|[Hout _]] _].
  - left. reflexivity.
  - exact Hreturned.
  - discriminate Hout.
Defined.

(** X3.  Every upstream request of a tool call goes to the endpoint of the tool
    called and names the configured account; a report call issues at most one
    request. *)
Theorem requests_are_scoped :
  forall rt f env fuel auth publisherCode request,
    ready rt f env auth publisherCode ->
    let trace := snd (Tools5.callTool rt f env fuel request) in
    Forall (fun r => request_tool r = name request
                     /\ request_account r = "accounts/" ++ publisherCode) trace
    /\ (is_report (name request) = true -> List.length trace <= 1).
Proof.
  intros rt f env fuel auth pc [n a] Hready trace. subst trace.
  rewrite (callTool_ready _ _ _ fuel _ _ _ Hready). cbn [name arguments].
  unfold is_report.
  destruct (n =? Tools5.GENERATE_NETWORK_REPORT) eqn:En; cbn [orb].
  { apply String.eqb_eq in En. subst n. unfold Tools5.generate_report.
    destruct a as [props|]; [|split; [constructor|cbn; lia]].
    destruct (Tools5.build_reportSpec rt (JObj props));
      try (split; [constructor|cbn; lia]).
    cbn [String.eqb Ascii.eqb Bool.eqb Tools5.GENERATE_NETWORK_REPORT fst snd].
    destruct (accounts_networkReport_generate _ _ _ _) as [err|[|] st d];
      (split; [repeat constructor|cbn; lia]). }
  destruct (n =? Tools5.GENERATE_MEDIATION_REPORT) eqn:Em.
  { apply String.eqb_eq in Em. subst n. unfold Tools5.generate_report.
    destruct a as [props|]; [|split; [constructor|cbn; lia]].
    destruct (Tools5.build_reportSpec rt (JObj props));
      try (split; [constructor|cbn; lia]).
    cbn [String.eqb Ascii.eqb Bool.eqb Tools5.GENERATE_MEDIATION_REPORT
         Tools5.GENERATE_NETWORK_REPORT fst snd].
    destruct (accounts_mediationReport_generate _ _ _ _) as [err|[|] st d];
      (split; [repeat constructor|cbn; lia]). }
  split; [|discriminate].
  destruct (n =? Tools5.GET_ACCOUNT) eqn:Eg.
  { apply String.eqb_eq in Eg. subst n. unfold Tools5.get_account.
    destruct (accounts_get _ _ _) as [err|[|] st d]; repeat constructor. }
  destruct (n =? Tools5.LIST_AD_UNITS) eqn:Eu.
  { apply String.eqb_eq in Eu. subst n.
    apply list_ad_units_loop_requests; [|constructor]. now split. }
  destruct (n =? Tools5.LIST_APPS) eqn:Ea.
  { apply String.eqb_eq in Ea. subst n.
    apply list_apps_loop_requests; [|constructor]. now split. }
  constructor.
Qed.

Lemma requests_are_scoped_witness :
  let trace :=
    snd (Tools5.callTool Demo.runtime Demo.authenticated Demo.env 3
           (mkRequest "list_ad_units" None)) in
  Forall (fun r => request_tool r = "list_ad_units"
                   /\ request_account r = "accounts/" ++ "pub-1") trace
  /\ (is_report "list_ad_units" = true -> List.length trace <= 1).
Proof.
  apply (requests_are_scoped Demo.runtime Demo.authenticated Demo.env 3
           Demo.client "pub-1" (mkRequest "list_ad_units" None)).
  demo_is_ready.
Defined.

Section Interrupted.

Local Open Scope list_scope.

Variables (rt : Runtime) (admob : Admob) (publisherCode : string).

Local Abbreviation parent := ("accounts/" ++ publisherCode)%string.

(** Running through pages that all carry a token is the loop resumed with
    their items pushed, their last token held and their requests issued. *)
Lemma list_ad_units_loop_through (init : list ListAdUnitsResponse) :
  forall k all pageToken trace,
    Forall (fun p => truthy_opt_string (ad_units_next p) = true) init ->
    answers_ad_units admob parent trace pageToken init ->
    Tools5.list_ad_units_loop rt admob publisherCode (List.length init + k)
      all pageToken trace
    = Tools5.list_ad_units_loop rt admob publisherCode k
        (all ++ concat (map ad_unit_items init))
        (token_after_ad_units pageToken init)
        (trace ++ ad_unit_requests parent pageToken init).
Proof.
  induction init as [|p ps IH]; intros k all pageToken trace Hinit Hans.
  - cbn. now rewrite !app_nil_r.
  - cbn [answers_ad_units] in Hans. destruct Hans as [[status E] Hrest].
    inversion Hinit as [|? ? Hp Hps]; subst.
    cbn [List.length Nat.add Tools5.list_ad_units_loop].
    rewrite E. cbn [negb]. rewrite pushed_ad_units.
    fold (ad_units_next p). rewrite Hp.
    rewrite (IH k _ _ _ Hps Hrest).
    cbn [map concat ad_unit_requests token_after_ad_units].
    now rewrite <- !app_assoc.
Qed.

Lemma list_apps_loop_through (init : list ListAppsResponse) :
  forall k all pageToken trace,
    Forall (fun p => truthy_opt_string (apps_next p) = true) init ->
    answers_apps admob parent trace pageToken init ->
    Tools5.list_apps_loop rt admob publisherCode (List.length init + k)
      all pageToken trace
    = Tools5.list_apps_loop rt admob publisherCode k
        (all ++ concat (map app_items init))
        (token_after_apps pageToken init)
        (trace ++ app_requests parent pageToken init).
Proof.
  induction init as [|p ps IH]; intros k all pageToken trace Hinit Hans.
  - cbn. now rewrite !app_nil_r.
  - cbn [answers_apps] in Hans. destruct Hans as [[status E] Hrest].
    inversion Hinit as [|? ? Hp Hps]; subst.
    cbn [List.length Nat.add Tools5.list_apps_loop].
    rewrite E. cbn [negb]. rewrite pushed_apps.
    fold (apps_next p). rewrite Hp.
    rewrite (IH k _ _ _ Hps Hrest).
    cbn [map concat app_requests token_after_apps].
    now rewrite <- !app_assoc.
Qed.

(** One iteration on a response that is not a successful page. *)
Lemma list_ad_units_loop_failure k all pageToken trace result :
  failure_of (accounts_adUnits_list admob trace parent pageToken) = Some result ->
  Tools5.list_ad_units_loop rt admob publisherCode (S k) all pageToken trace
  = (Returns result, trace ++ [AdUnitsList parent pageToken]).
Proof.
  cbn [Tools5.list_ad_units_loop].
  destruct (accounts_adUnits_list _ _ _ _) as [err|[|] status data];
    cbn [failure_of negb]; intros H; try discriminate;
    now injection H as <-.
Qed.

Lemma list_apps_loop_failure k all pageToken trace result :
  failure_of (accounts_apps_list admob trace parent pageToken) = Some result ->
  Tools5.list_apps_loop rt admob publisherCode (S k) all pageToken trace
  = (Returns result, trace ++ [AppsList parent pageToken]).
Proof.
  cbn [Tools5.list_apps_loop].
  destruct (accounts_apps_list _ _ _ _) as [err|[|] status data];
    cbn [failure_of negb]; intros H; try discriminate;
    now injection H as <-.
Qed.

(** Against an upstream whose every page carries a token the loop spends all
    its fuel, one request per unit. *)
Lemma list_ad_units_loop_endless :
  (forall history pageToken, exists status data,
      accounts_adUnits_list admob history parent pageToken
      = Resolved true status data
      /\ truthy_opt_string (ad_units_next data) = true) ->
  forall fuel all pageToken trace,
    exists trace',
      Tools5.list_ad_units_loop rt admob publisherCode fuel all pageToken trace
      = (OutOfFuel, trace')
      /\ List.length trace' = List.length trace + fuel.
Proof.
  intros Hup. induction fuel as [|fuel IH]; intros all pageToken trace.
  - exists trace. split; [reflexivity|lia].
  - destruct (Hup trace pageToken) as (status & data & E & Htok).
    cbn [Tools5.list_ad_units_loop]. rewrite E. cbn [negb].
    fold (ad_units_next data). rewrite Htok.
    destruct (IH (match adUnits data with
                  | Some (u :: us) => all ++ u :: us
                  | _ => all
                  end) (ad_units_next data)
                 (trace ++ [AdUnitsList parent pageToken]))
      as (trace' & -> & Hlen).
    exists trace'. split; [reflexivity|].
    rewrite Hlen, length_app. cbn. lia.
Qed.

Lemma list_apps_loop_endless :
  (forall history pageToken, exists status data,
      accounts_apps_list admob history parent pageToken
      = Resolved true status data
      /\ truthy_opt_string (apps_next data) = true) ->
  forall fuel all pageToken trace,
    exists trace',
      Tools5.list_apps_loop rt admob publisherCode fuel all pageToken trace
      = (OutOfFuel, trace')
      /\ List.length trace' = List.length trace + fuel.
Proof.
  intros Hup. induction fuel as [|fuel IH]; intros all pageToken trace.
  - exists trace. split; [reflexivity|lia].
  - destruct (Hup trace pageToken) as (status & data & E & Htok).
    cbn [Tools5.list_apps_loop]. rewrite E. cbn [negb].
    fold (apps_next data). rewrite Htok.
    destruct (IH (match apps data with
                  | Some (a :: as') => all ++ a :: as'
                  | _ => all
                  end) (apps_next data)
                 (trace ++ [AppsList parent pageToken]))
      as (trace' & -> & Hlen).
    exists trace'. split; [reflexivity|].
    rewrite Hlen, length_app. cbn. lia.
Qed.

End Interrupted.

(** X5.  When the upstream serves the pages [init], each with a token, and then
    answers the next request with a failure (a rejected promise, or a response
    that is not [ok]), a [list_ad_units] or [list_apps] call returns the soft
    error of that failure alone: the items of the pages already fetched are
    not returned, and no request follows the failed one. *)
Theorem pagination_failure_discards_pages :
  forall rt f env fuel auth publisherCode a,
    ready rt f env auth publisherCode ->
    let admob := google_admob rt auth in
    let parent := "accounts/" ++ publisherCode in
    (forall init result,
        Forall (fun p => truthy_opt_string (ad_units_next p) = true) init ->
        answers_ad_units admob parent [] None init ->
        failure_of (accounts_adUnits_list admob
                      (ad_unit_requests parent None init) parent
                      (token_after_ad_units None init)) = Some result ->
        List.length init < fuel ->
        Tools5.callTool rt f env fuel (mkRequest "list_ad_units" a)
        = (Returns result,
           ad_unit_requests parent None init
           ++ [AdUnitsList parent (token_after_ad_units None init)])%list
        /\ soft_error result)
    /\ (forall init result,
        Forall (fun p => truthy_opt_string (apps_next p) = true) init ->
        answers_apps admob parent [] None init ->
        failure_of (accounts_apps_list admob
                      (app_requests parent None init) parent
                      (token_after_apps None init)) = Some result ->
        List.length init < fuel ->
        Tools5.callTool rt f env fuel (mkRequest "list_apps" a)
        = (Returns result,
           app_requests parent None init
           ++ [AppsList parent (token_after_apps None init)])%list
        /\ soft_error result).
Proof.
  intros rt f env fuel auth pc a Hready admob parent.
  assert (Hsoft : forall T (r : Response T) result,
             failure_of r = Some result -> soft_error result).
  { intros T [e|[|] st d] result H; try discriminate;
      now injection H as <-. }
  split; intros init result Hinit Hans Hfail Hfuel;
    (split; [|exact (Hsoft _ _ _ Hfail)]).
  - rewrite (callTool_list_ad_units _ _ _ fuel _ _ a Hready).
    replace fuel with (List.length init + S (fuel - S (List.length init))) by lia.
    rewrite (list_ad_units_loop_through rt admob pc init _ [] None [] Hinit Hans).
    now apply list_ad_units_loop_failure.
  - rewrite (callTool_list_apps _ _ _ fuel _ _ a Hready).
    replace fuel with (List.length init + S (fuel - S (List.length init))) by lia.
    rewrite (list_apps_loop_through rt admob pc init _ [] None [] Hinit Hans).
    now apply list_apps_loop_failure.
Qed.

Lemma pagination_failure_discards_pages_witness :
  Tools5.callTool (Demo.runtime_with Demo2.failing) Demo.authenticated Demo.env 5
    (mkRequest "list_ad_units" None)
  = (Returns (failed_with_status 503),
     [ AdUnitsList "accounts/pub-1" None;
       AdUnitsList "accounts/pub-1" (Some "t1");
       AdUnitsList "accounts/pub-1" (Some "t2") ])
  /\ soft_error (failed_with_status 503).
Proof.
  destruct (pagination_failure_discards_pages (Demo.runtime_with Demo2.failing)
              Demo.authenticated Demo.env 5 Demo.client "pub-1" None)
    as [Hunits _].
  - demo_is_ready.
  - apply (Hunits [Demo.page1; Demo.page2] (failed_with_status 503)).
    + repeat constructor.
    + cbn. repeat split; exists 200%Z; reflexivity.
    + reflexivity.
    + cbn. lia.
Defined.

(** X6.  The list loops have no page limit: against an upstream whose every page
    carries a non-empty token, a [list_ad_units] or [list_apps] call does not
    end within any amount of fuel, and each unit of fuel is spent on one more
    request. *)
Theorem pagination_has_no_page_limit :
  forall rt f env auth publisherCode a,
    ready rt f env auth publisherCode ->
    let admob := google_admob rt auth in
    let parent := "accounts/" ++ publisherCode in
    ((forall history pageToken, exists status data,
         accounts_adUnits_list admob history parent pageToken
         = Resolved true status data
         /\ truthy_opt_string (ad_units_next data) = true) ->
     forall fuel,
       let result := Tools5.callTool rt f env fuel (mkRequest "list_ad_units" a) in
       fst result = OutOfFuel /\ List.length (snd result) = fuel)
    /\ ((forall history pageToken, exists status data,
            accounts_apps_list admob history parent pageToken
            = Resolved true status data
            /\ truthy_opt_string (apps_next data) = true) ->
        forall fuel,
          let result := Tools5.callTool rt f env fuel (mkRequest "list_apps" a) in
          fst result = OutOfFuel /\ List.length (snd result) = fuel).
Proof.
  intros rt f env auth pc a Hready admob parent. subst admob parent.
  split; intros Hup fuel result; subst result.
  - rewrite (callTool_list_ad_units _ _ _ fuel _ _ a Hready).
    destruct (list_ad_units_loop_endless rt _ pc Hup fuel [] None [])
      as (trace' & -> & Hlen).
    now split.
  - rewrite (callTool_list_apps _ _ _ fuel _ _ a Hready).
    destruct (list_apps_loop_endless rt _ pc Hup fuel [] None [])
      as (trace' & -> & Hlen).
    now split.
Qed.

Lemma pagination_has_no_page_limit_witness :
  let result :=
    Tools5.callTool (Demo.runtime_with Demo2.endless) Demo.authenticated
      Demo.env 7 (mkRequest "list_ad_units" None) in
  fst result = OutOfFuel /\ List.length (snd result) = 7.
Proof.
  destruct (pagination_has_no_page_limit (Demo.runtime_with Demo2.endless)
              Demo.authenticated Demo.env Demo.client "pub-1" None)
    as [Hunits _].
  - demo_is_ready.
  - apply Hunits. intros history pageToken.
    exists 200%Z, Demo.page1. split; reflexivity.
Defined.

(* ================================================================== *)
(** ** Further properties of the report branch *)

Section ReportMore.

Variable rt : Runtime.

(** The specification depends on the arguments through seven keys only. *)
Lemma build_reportSpec_agree (a a' : list (string * JValue)) :
  (forall k,
      In k [ "dateRangeStart"; "dateRangeEnd"; "dimensions"; "dimensionFilters";
             "dimensionSortCondition"; "metrics"; "metricSortCondition" ] ->
      lookup k a = lookup k a') ->
  Tools5.build_reportSpec rt (JObj a) = Tools5.build_reportSpec rt (JObj a').
Proof.
  intros H. unfold Tools5.build_reportSpec. cbn [get_prop bind].
  rewrite (H "dateRangeStart"), (H "dateRangeEnd"), (H "dimensions"),
    (H "dimensionFilters"), (H "dimensionSortCondition"), (H "metrics"),
    (H "metricSortCondition") by (cbn; tauto).
  reflexivity.
Qed.

(** A date that is not a string makes the construction throw a TypeError. *)
Lemma build_reportSpec_date_not_string (args : list (string * JValue)) :
  is_string (lookup "dateRangeStart" args)
  && is_string (lookup "dateRangeEnd" args) = false ->
  exists msg, Tools5.build_reportSpec rt (JObj args) = Throw (TypeError msg).
Proof.
  intros H. unfold Tools5.build_reportSpec. cbn [get_prop bind].
  destruct (lookup "dateRangeStart" args); cbn [split_map_Number bind];
    try (eexists; reflexivity).
  destruct (lookup "dateRangeEnd" args); cbn [split_map_Number bind];
    try (eexists; reflexivity).
  discriminate.
Qed.

(** With a required argument absent the construction does not reach a
    specification. *)
Lemma build_reportSpec_required (args : list (string * JValue)) (k : string) :
  In k ["dateRangeStart"; "dateRangeEnd"; "metrics"] ->
  lookup k args = JUndefined ->
  forall reportSpec,
    Tools5.build_reportSpec rt (JObj args) <> Continue reportSpec.
Proof.
  intros Hk Hmissing reportSpec.
  unfold Tools5.build_reportSpec. cbn [get_prop bind].
  destruct Hk as [ <- | [ <- | [ <- | [] ] ] ]; rewrite Hmissing.
  - discriminate.
  - destruct (lookup "dateRangeStart" args); discriminate.
  - destruct (lookup "dateRangeStart" args); try discriminate.
    destruct (lookup "dateRangeEnd" args); try discriminate.
    cbn [split_map_Number bind truthy negb]. rewrite !orb_true_r. discriminate.
Qed.

End ReportMore.

(** X7.  A report call in which [dateRangeStart] or [dateRangeEnd] is not a string
    (absent, [null], a number, a list, an object) throws a [TypeError] and
    issues no upstream request. *)
Theorem report_date_not_string_throws :
  forall rt f env fuel auth publisherCode n args,
    ready rt f env auth publisherCode ->
    is_report n = true ->
    is_string (lookup "dateRangeStart" args)
    && is_string (lookup "dateRangeEnd" args) = false ->
    exists msg,
      Tools5.callTool rt f env fuel (mkRequest n (Some args))
      = (Throws (TypeError msg), []).
Proof.
  intros rt f env fuel auth pc n args Hready Hn Hdate.
  rewrite (callTool_report _ _ _ fuel _ _ _ _ Hready Hn).
  destruct (build_reportSpec_date_not_string rt args Hdate) as [msg E].
  exists msg. unfold Tools5.generate_report. now rewrite E.
Qed.

Lemma report_date_not_string_throws_witness :
  exists msg,
    Tools5.callTool Demo.runtime Demo.authenticated Demo.env 1
      (mkRequest "generate_mediation_report"
         (Some [ ("dateRangeStart", JStr "2024-01-01");
                 ("dateRangeEnd", JNum (NInt 20240107));
                 ("metrics", JArr [JStr "CLICKS"]) ]))
    = (Throws (TypeError msg), []).
Proof.
  apply (report_date_not_string_throws Demo.runtime Demo.authenticated Demo.env 1
           Demo.client "pub-1").
  - demo_is_ready.
  - reflexivity.
  - reflexivity.
Defined.

(** X8.  What a report call with conforming arguments makes of the upstream's
    response to its one request: a rejected promise is thrown on (the branch
    has no [try]), a response that is not [ok] becomes the soft error "API
    request failed with status: ..." and a successful one becomes the text of
    its data, without [isError]. *)
Theorem report_outcome_follows_response :
  forall rt f env fuel auth publisherCode n args,
    ready rt f env auth publisherCode ->
    is_report n = true ->
    conforming args = true ->
    let parent := "accounts/" ++ publisherCode in
    let reportSpec := expected_reportSpec rt args in
    let sent := [report_request n parent reportSpec] in
    let result := Tools5.callTool rt f env fuel (mkRequest n (Some args)) in
    match report_response (google_admob rt auth) n parent reportSpec with
    | Rejected e => result = (Throws e, sent)
    | Resolved false status _ => result = (Returns (failed_with_status status), sent)
    | Resolved true _ data =>
        result
        = (Returns {| content := [ {| type := "text";
                                      text := JSON_stringify_pretty rt data |} ];
                      isError := None |}, sent)
    end.
Proof.
  intros rt f env fuel auth pc n args Hready Hn Hargs parent reportSpec sent result.
  subst result sent reportSpec parent.
  rewrite (callTool_report _ _ _ fuel _ _ _ _ Hready Hn).
  unfold Tools5.generate_report, report_response, report_request.
  rewrite (build_reportSpec_conforming rt args Hargs).
  destruct (n =? Tools5.GENERATE_NETWORK_REPORT); cbn [fst snd].
  - now destruct (accounts_networkReport_generate _ _ _ _) as [e|[|] st d].
  - now destruct (accounts_mediationReport_generate _ _ _ _) as [e|[|] st d].
Qed.

Lemma report_outcome_follows_response_witness :
  Tools5.callTool (Demo.runtime_with Demo.refusing) Demo.authenticated Demo.env 1
    (mkRequest "generate_network_report" (Some scenario_args))
  = (Throws (Error "Bad Request"),
     [NetworkReportGenerate "accounts/pub-1" scenario_reportSpec]).
Proof.
  exact (report_outcome_follows_response (Demo.runtime_with Demo.refusing)
           Demo.authenticated Demo.env 1 Demo.client "pub-1"
           "generate_network_report" scenario_args
           ltac:(demo_is_ready) eq_refl eq_refl).
Defined.

(** X9.  Arguments outside the [properties] of a tool's input schema are ignored:
    two calls of a listed tool whose arguments agree on every property of its
    schema have the same outcome and issue the same requests. *)
Theorem unlisted_arguments_are_ignored :
  forall rt f env fuel tool a a',
    In tool ListTools5.tools ->
    (forall k, In k (schema_properties (inputSchema tool)) ->
               lookup k a = lookup k a') ->
    Tools5.callTool rt f env fuel (mkRequest (tool_name tool) (Some a))
    = Tools5.callTool rt f env fuel (mkRequest (tool_name tool) (Some a')).
Proof.
  intros rt f env fuel tool a a' Htool Hagree.
  unfold Tools5.callTool.
  destruct (Auth.loadSavedCredentialsIfExist rt f) as [auth|]; [|reflexivity].
  destruct (negb (truthy_opt_string (PUBLISHER_CODE env))); [reflexivity|].
  cbn [name arguments].
  cbn [ListTools5.tools In] in Htool.
  destruct Htool as [ <- | [ <- | [ <- | [ <- | [ <- | [] ] ] ] ] ];
    cbn [tool_name inputSchema] in *; try reflexivity.
  - unfold Tools5.generate_report.
    cbn [ListTools5.GENERATE_NETWORK_REPORT Tools5.GENERATE_NETWORK_REPORT
         String.eqb Ascii.eqb Bool.eqb orb].
    now rewrite (build_reportSpec_agree rt a a' Hagree).
  - unfold Tools5.generate_report.
    cbn [ListTools5.GENERATE_MEDIATION_REPORT Tools5.GENERATE_MEDIATION_REPORT
         Tools5.GENERATE_NETWORK_REPORT String.eqb Ascii.eqb Bool.eqb orb].
    now rewrite (build_reportSpec_agree rt a a' Hagree).
Qed.

Lemma unlisted_arguments_are_ignored_witness :
  Tools5.callTool Demo.runtime Demo.authenticated Demo.env 1
    (mkRequest "generate_network_report" (Some scenario_args))
  = Tools5.callTool Demo.runtime Demo.authenticated Demo.env 1
      (mkRequest "generate_network_report"
         (Some (("localizationSettings", JStr "en-US") :: scenario_args))).
Proof.
  apply (unlisted_arguments_are_ignored Demo.runtime Demo.authenticated Demo.env 1
           (mkTool ListTools5.GENERATE_NETWORK_REPORT
              "Generates an AdMob Network report based on the provided report specification."
              ListTools5.network_report_schema)).
  - left. reflexivity.
  - intros k Hk. cbn in Hk.
    repeat (destruct Hk as [ <- | Hk ]; [reflexivity|]). destruct Hk.
Defined.

(** X10.  A call of a listed tool that lacks an argument its input schema lists as
    [required] never reaches the upstream: it ends, by a soft error or by an
    exception, without a request. *)
Theorem required_argument_missing_no_request :
  forall rt f env fuel tool k args,
    In tool ListTools5.tools ->
    In k (schema_required (inputSchema tool)) ->
    lookup k args = JUndefined ->
    snd (Tools5.callTool rt f env fuel (mkRequest (tool_name tool) (Some args)))
    = [].
Proof.
  intros rt f env fuel tool k args Htool Hk Hmissing.
  unfold Tools5.callTool.
  destruct (Auth.loadSavedCredentialsIfExist rt f) as [auth|]; [|reflexivity].
  destruct (negb (truthy_opt_string (PUBLISHER_CODE env))); [reflexivity|].
  cbn [name arguments].
  cbn [ListTools5.tools In] in Htool.
  destruct Htool as [ <- | [ <- | [ <- | [ <- | [ <- | [] ] ] ] ] ];
    cbn [tool_name inputSchema] in *; try (now destruct Hk).
  - unfold Tools5.generate_report.
    cbn [ListTools5.GENERATE_NETWORK_REPORT Tools5.GENERATE_NETWORK_REPORT
         String.eqb Ascii.eqb Bool.eqb orb].
    pose proof (build_reportSpec_required rt args k Hk Hmissing) as Hno.
    destruct (Tools5.build_reportSpec rt (JObj args)) as [s| |];
      [now contradiction (Hno s)|reflexivity|reflexivity].
  - unfold Tools5.generate_report.
    cbn [ListTools5.GENERATE_MEDIATION_REPORT Tools5.GENERATE_MEDIATION_REPORT
         Tools5.GENERATE_NETWORK_REPORT String.eqb Ascii.eqb Bool.eqb orb].
    pose proof (build_reportSpec_required rt args k Hk Hmissing) as Hno.
    destruct (Tools5.build_reportSpec rt (JObj args)) as [s| |];
      [now contradiction (Hno s)|reflexivity|reflexivity].
Qed.

Lemma required_argument_missing_no_request_witness :
  snd (Tools5.callTool Demo.runtime Demo.authenticated Demo.env 1
         (mkRequest "generate_network_report" (Some no_start_args)))
  = [].
Proof.
  apply (required_argument_missing_no_request Demo.runtime Demo.authenticated
           Demo.env 1
           (mkTool ListTools5.GENERATE_NETWORK_REPORT
              "Generates an AdMob Network report based on the provided report specification."
              ListTools5.network_report_schema)
           "dateRangeStart").
  - left. reflexivity.
  - left. reflexivity.
  - reflexivity.
Defined.

(** X11.  Metric and dimension names go upstream as they are given, whether or not
    the enumerations of the input schema list them: [metrics] is forwarded
    unchanged, [dimensions] is forwarded unchanged when it is a non-empty
    list, and the specification has no [dimensions] key when the argument is
    absent or an empty list. *)
Theorem names_forwarded_unchecked :
  forall rt f env fuel auth publisherCode n args,
    ready rt f env auth publisherCode ->
    is_report n = true ->
    conforming args = true ->
    exists reportSpec,
      snd (Tools5.callTool rt f env fuel (mkRequest n (Some args)))
      = [report_request n ("accounts/" ++ publisherCode) reportSpec]
      /\ metrics reportSpec = lookup "metrics" args
      /\ (forall d ds, lookup "dimensions" args = JArr (d :: ds) ->
            dimensions reportSpec = Some (JArr (d :: ds)))
      /\ (lookup "dimensions" args = JUndefined
          \/ lookup "dimensions" args = JArr [] ->
          dimensions reportSpec = None).
Proof.
  intros rt f env fuel auth pc n args Hready Hn Hargs.
  exists (expected_reportSpec rt args).
  rewrite (callTool_report _ _ _ fuel _ _ _ (Some args) Hready Hn).
  destruct (generate_report_conforming rt (google_admob rt auth) pc n args Hargs)
    as [outcome ->].
  cbn [snd expected_reportSpec metrics dimensions].
  repeat split.
  - now intros d ds ->.
  - now intros [ -> | -> ].
Qed.

Lemma names_forwarded_unchecked_witness :
  exists reportSpec,
    snd (Tools5.callTool Demo.runtime Demo.authenticated Demo.env 1
           (mkRequest "generate_network_report"
              (Some [ ("dateRangeStart", JStr "2024-01-01");
                      ("dateRangeEnd", JStr "2024-01-07");
                      ("metrics", JArr [JStr "OBSERVED_ECPM"; JStr "no such metric"]);
                      ("dimensions", JArr [JStr "AD_SOURCE"]) ])))
    = [report_request "generate_network_report" ("accounts/" ++ "pub-1") reportSpec]
    /\ metrics reportSpec = JArr [JStr "OBSERVED_ECPM"; JStr "no such metric"]
    /\ dimensions reportSpec = Some (JArr [JStr "AD_SOURCE"]).
Proof.
  destruct (names_forwarded_unchecked Demo.runtime Demo.authenticated Demo.env 1
              Demo.client "pub-1" "generate_network_report"
              [ ("dateRangeStart", JStr "2024-01-01");
                ("dateRangeEnd", JStr "2024-01-07");
                ("metrics", JArr [JStr "OBSERVED_ECPM"; JStr "no such metric"]);
                ("dimensions", JArr [JStr "AD_SOURCE"]) ])
    as (reportSpec & Hsent & Hmetrics & Hdims & _).
  - demo_is_ready.
  - reflexivity.
  - reflexivity.
  - exists reportSpec. repeat split; [exact Hsent|exact Hmetrics|].
    now apply Hdims.
Defined.

Section Dates.

Lemma append_empty (s : string) : s ++ "" = s.
Proof. induction s as [|c s IH]; [reflexivity|]. cbn. now rewrite IH. Qed.

Lemma split_free (sep : ascii) (s : string) :
  free_of sep s = true -> split sep s = [s].
Proof.
  induction s as [|c s IH]; [reflexivity|].
  cbn [free_of split]. intros H. apply andb_prop in H as [Hc Hs].
  apply negb_true_iff in Hc. rewrite Hc. now rewrite (IH Hs).
Qed.

Lemma split_at_separator (sep : ascii) (s rest : string) :
  free_of sep s = true ->
  split sep (s ++ String sep rest) = s :: split sep rest.
Proof.
  induction s as [|c s IH]; cbn [free_of append split].
  - intros _. now rewrite Ascii.eqb_refl.
  - intros H. apply andb_prop in H as [Hc Hs].
    apply negb_true_iff in Hc. rewrite Hc. now rewrite (IH Hs).
Qed.

Lemma date_of_read_as (rt : Runtime) (s : string) :
  read_as rt s (date_of rt (JStr s)).
Proof.
  unfold read_as, date_of. repeat split.
  - intros y m d rest -> Hy Hm Hd Hrest.
    change ("-" ++ ?x) with (String "-" x).
    rewrite (split_at_separator _ _ _ Hy).
    change ("-" ++ ?x) with (String "-" x).
    rewrite (split_at_separator _ _ _ Hm).
    destruct Hrest as [ -> | [r ->] ].
    + rewrite append_empty, (split_free _ _ Hd). reflexivity.
    + change ("-" ++ r) with (String "-" r).
      rewrite (split_at_separator _ _ _ Hd). reflexivity.
  - intros y m -> Hy Hm.
    change ("-" ++ m) with (String "-" m).
    rewrite (split_at_separator _ _ _ Hy), (split_free _ _ Hm). reflexivity.
  - intros Hs. now rewrite (split_free _ _ Hs).
Qed.

End Dates.

(** X12.  How the dates of conforming arguments are read.  The string is cut at
    its dashes and the first three pieces go through [Number] to become
    [year], [month] and [day]; a fourth piece and what follows are ignored,
    and with fewer than three pieces the missing fields are [undefined]: the
    format is not checked.  A piece of decimal digits is read as the integer
    it denotes, leading zeros dropped. *)
Theorem dates_are_read_piecewise :
  forall rt args,
    conforming args = true ->
    exists reportSpec,
      Tools5.build_reportSpec rt (JObj args) = Continue reportSpec
      /\ (forall s, lookup "dateRangeStart" args = JStr s ->
            read_as rt s (startDate (dateRange reportSpec)))
      /\ (forall s, lookup "dateRangeEnd" args = JStr s ->
            read_as rt s (endDate (dateRange reportSpec)))
      /\ (forall piece z,
             digits_value 0 piece = Some z -> piece <> "" ->
             (z <= 2 ^ 53)%Z -> Number rt piece = NInt z).
Proof.
  intros rt args Hargs. exists (expected_reportSpec rt args).
  split; [exact (build_reportSpec_conforming rt args Hargs)|].
  cbn [expected_reportSpec dateRange startDate endDate].
  split; [|split].
  - intros s ->. apply date_of_read_as.
  - intros s ->. apply date_of_read_as.
  - intros piece z Hz Hne Hle. unfold Number.
    destruct (piece =? "") eqn:E; [apply String.eqb_eq in E; contradiction|].
    rewrite Hz. apply Z.leb_le in Hle. now rewrite Hle.
Qed.

Lemma dates_are_read_piecewise_witness :
  exists reportSpec,
    Tools5.build_reportSpec Demo.runtime
      (JObj [ ("dateRangeStart", JStr "2024");
              ("dateRangeEnd", JStr "2024-03-09-17");
              ("metrics", JArr [JStr "CLICKS"]) ])
    = Continue reportSpec
    /\ startDate (dateRange reportSpec)
       = mkDate (JNum (NInt 2024)) JUndefined JUndefined
    /\ endDate (dateRange reportSpec)
       = mkDate (JNum (NInt 2024)) (JNum (NInt 3)) (JNum (NInt 9)).
Proof.
  destruct (dates_are_read_piecewise Demo.runtime
              [ ("dateRangeStart", JStr "2024");
                ("dateRangeEnd", JStr "2024-03-09-17");
                ("metrics", JArr [JStr "CLICKS"]) ])
    as (reportSpec & Hbuilt & Hstart & Hend & _).
  - reflexivity.
  - exists reportSpec. split; [exact Hbuilt|]. split.
    + destruct (Hstart "2024" eq_refl) as (_ & _ & Hone).
      now rewrite Hone.
    + destruct (Hend "2024-03-09-17" eq_refl) as (Hthree & _).
      now rewrite (Hthree "2024" "03" "09" "-17" eq_refl eq_refl eq_refl eq_refl
                     (or_intror (ex_intro _ "17" eq_refl))).
Defined.

(* ================================================================== *)
(** ** The tool tables against the dispatchers *)

Section TypeErrors.

Variable rt : Runtime.
Hypothesis Hcmp : comparison_throws_TypeError rt.

Context {R : Type}.

Lemma throws_only_bind {A B} (c : Flow R A) (k : A -> Flow R B) :
  throws_only_TypeError c ->
  (forall a, throws_only_TypeError (k a)) ->
  throws_only_TypeError (bind c k).
Proof.
  intros Hc Hk e. destruct c as [a|r|e']; cbn [bind].
  - exact (Hk a e).
  - discriminate.
  - intros H. injection H as <-. exact (Hc e' eq_refl).
Qed.

Lemma throws_only_continue {A} (a : A) :
  throws_only_TypeError (Continue (R := R) a).
Proof. intros e H. discriminate. Qed.

Lemma throws_only_type_error {A} (msg : string) :
  throws_only_TypeError (Throw (R := R) (A := A) (TypeError msg)).
Proof. intros e H. now injection H as <-. Qed.

Lemma get_prop_throws_only (v : JValue) (k : string) :
  throws_only_TypeError (get_prop (R := R) v k).
Proof.
  destruct v; cbn [get_prop];
    repeat match goal with
           | |- context [if ?b then _ else _] => destruct b
           end;
    first [apply throws_only_continue | apply throws_only_type_error].
Qed.

Lemma gt_zero_throws_only (v : JValue) :
  throws_only_TypeError (gt_zero (R := R) rt v).
Proof.
  destruct v; cbn [gt_zero]; try apply throws_only_continue;
    match goal with
    | |- context [object_gt_zero rt ?x] =>
        destruct (object_gt_zero rt x) as [e|b] eqn:E;
        [ intros e' H; injection H as <-; exact (Hcmp _ _ E)
        | apply throws_only_continue ]
    end.
Qed.

Lemma length_gt_zero_throws_only (v : JValue) :
  throws_only_TypeError (length_gt_zero (R := R) rt v).
Proof.
  unfold length_gt_zero. apply throws_only_bind;
    [apply get_prop_throws_only | intros; apply gt_zero_throws_only].
Qed.

Lemma Object_keys_nonempty_throws_only (v : JValue) :
  throws_only_TypeError (Object_keys_nonempty (R := R) v).
Proof.
  destruct v; cbn [Object_keys_nonempty];
    first [apply throws_only_continue | apply throws_only_type_error].
Qed.

Lemma and_then_throws_only (a : bool) (b : Flow R bool) :
  throws_only_TypeError b -> throws_only_TypeError (and_then a b).
Proof. destruct a; [trivial|intros _; apply throws_only_continue]. Qed.

Lemma split_map_Number_throws_only (what : string) (v : JValue) :
  throws_only_TypeError (split_map_Number (R := R) rt what v).
Proof.
  destruct v; cbn [split_map_Number];
    first [apply throws_only_continue | apply throws_only_type_error].
Qed.

Lemma mapM_throws_only {A B} (f : A -> Flow R B) (l : list A) :
  (forall x, throws_only_TypeError (f x)) ->
  throws_only_TypeError (mapM f l).
Proof.
  intros Hf. induction l as [|x xs IH]; cbn [mapM].
  - apply throws_only_continue.
  - apply throws_only_bind; [apply Hf|intros y].
    apply throws_only_bind; [exact IH|intros ys]. apply throws_only_continue.
Qed.

End TypeErrors.

(** Before it reaches the upstream, the report branch throws nothing but
    TypeErrors. *)
Lemma build_reportSpec_throws_only rt args :
  comparison_throws_TypeError rt ->
  throws_only_TypeError (Tools5.build_reportSpec rt args).
Proof.
  intros Hcmp.
  assert (Hentry : forall c field make,
             throws_only_TypeError (Tools5.sort_entry rt c field make)).
  { intros c field make. unfold Tools5.sort_entry.
    destruct (truthy c); [|apply throws_only_continue].
    apply throws_only_bind; [apply get_prop_throws_only|intros subject].
    apply throws_only_bind; [now apply length_gt_zero_throws_only|intros [|]];
      [|apply throws_only_continue].
    apply throws_only_bind; [apply get_prop_throws_only|intros order].
    apply throws_only_bind; [now apply length_gt_zero_throws_only|intros [|]];
      apply throws_only_continue. }
  unfold Tools5.build_reportSpec.
  do 7 (apply throws_only_bind; [apply get_prop_throws_only|intros ?]).
  do 2 (apply throws_only_bind; [apply split_map_Number_throws_only|intros ?]).
  match goal with |- context [if ?b then _ else _] => destruct b end;
    [intros e H; discriminate|].
  apply throws_only_bind;
    [apply and_then_throws_only; now apply length_gt_zero_throws_only|intros ?].
  apply throws_only_bind; [|intros ?].
  { unfold Tools5.build_dimensionFilters.
    apply throws_only_bind;
      [apply and_then_throws_only, Object_keys_nonempty_throws_only|intros [|]];
      [|apply throws_only_continue].
    match goal with |- context [match ?x with _ => _ end] => destruct x end;
      try apply throws_only_type_error.
    apply throws_only_bind; [|intros; apply throws_only_continue].
    apply mapM_throws_only. intros filter.
    apply throws_only_bind; [apply get_prop_throws_only|intros ?].
    apply throws_only_bind; [apply get_prop_throws_only|intros ?].
    apply throws_only_continue. }
  apply throws_only_bind; [|intros ?; apply throws_only_continue].
  unfold Tools5.build_sortConditions.
  apply throws_only_bind;
    [apply and_then_throws_only, Object_keys_nonempty_throws_only|intros by_dimension].
  apply throws_only_bind; [|intros [|]]; [| |apply throws_only_continue].
  - destruct by_dimension; [apply throws_only_continue|].
    apply and_then_throws_only, Object_keys_nonempty_throws_only.
  - apply throws_only_bind; [apply Hentry|intros ?].
    apply throws_only_bind; [apply Hentry|intros ?].
    apply throws_only_continue.
Qed.

(** X2.  The tools that [tools/list] advertises are exactly the tools that
    [tools/call] accepts: a call of a configured, authenticated server is
    answered by the exception "Unknown tool: ..." (and no request) if and
    only if its name is not in the list, in the five-tool revision (where the
    runtime's comparisons are taken to throw TypeErrors only) and in the
    three-tool revision. *)
Theorem unknown_tool_iff_unlisted :
  forall rt f env fuel auth publisherCode request,
    ready rt f env auth publisherCode ->
    let unknown :=
      (Throws (Error ("Unknown tool: " ++ name request)), @nil ApiRequest) in
    (comparison_throws_TypeError rt ->
     (Tools5.callTool rt f env fuel request = unknown
      <-> ~ In (name request) (map tool_name ListTools5.tools)))
    /\ (Tools3.callTool rt f env fuel request = unknown
        <-> ~ In (name request) (map tool_name ListTools3.tools)).
Proof.
  intros rt f env fuel auth pc [n a] Hready unknown. subst unknown.
  cbn [name].
  assert (Hloop_u : forall e,
             Tools5.list_ad_units_loop rt (google_admob rt auth) pc fuel [] None []
             <> (Throws e, [])).
  { intros e H.
    apply (list_ad_units_loop_never_throws rt (google_admob rt auth) pc fuel
             [] None [] e). now rewrite H. }
  assert (Hloop_a : forall e,
             Tools5.list_apps_loop rt (google_admob rt auth) pc fuel [] None []
             <> (Throws e, [])).
  { intros e H.
    apply (list_apps_loop_never_throws rt (google_admob rt auth) pc fuel
             [] None [] e). now rewrite H. }
  assert (Haccount : forall e,
             Tools5.get_account rt (google_admob rt auth) pc <> (Throws e, [])).
  { intros e. unfold Tools5.get_account.
    destruct (accounts_get _ _ _) as [err|[|] st d]; discriminate. }
  split.
  - intros Hcmp.
    rewrite (callTool_ready _ _ _ fuel _ _ _ Hready). cbn [name arguments].
    cbn [ListTools5.tools map tool_name In].
    destruct (n =? Tools5.GENERATE_NETWORK_REPORT) eqn:E1;
      [|destruct (n =? Tools5.GENERATE_MEDIATION_REPORT) eqn:E2]; cbn [orb].
    1,2: split; [|intros H; exfalso; apply H;
                   first [apply String.eqb_eq in E1 | apply String.eqb_eq in E2];
                   subst n; cbn; tauto].
    1,2: intros H; exfalso; unfold Tools5.generate_report in H;
      destruct a as [props|]; [|discriminate];
      pose proof (build_reportSpec_throws_only rt (JObj props) Hcmp) as Hte;
      destruct (Tools5.build_reportSpec rt (JObj props)) as [s|r|e];
      [ destruct (n =? Tools5.GENERATE_NETWORK_REPORT); cbn [fst snd] in H;
        match type of H with
        | context [match ?x with _ => _ end] =>
            destruct x as [err|[|] st d]; discriminate
        end
      | discriminate
      | injection H as ->; specialize (Hte _ eq_refl); discriminate ].
    destruct (n =? Tools5.GET_ACCOUNT) eqn:E3.
    { split; [intros H; now apply Haccount in H|].
      intros H. exfalso. apply H. apply String.eqb_eq in E3. subst n. cbn. tauto. }
    destruct (n =? Tools5.LIST_AD_UNITS) eqn:E4.
    { split; [intros H; now apply Hloop_u in H|].
      intros H. exfalso. apply H. apply String.eqb_eq in E4. subst n. cbn. tauto. }
    destruct (n =? Tools5.LIST_APPS) eqn:E5.
    { split; [intros H; now apply Hloop_a in H|].
      intros H. exfalso. apply H. apply String.eqb_eq in E5. subst n. cbn. tauto. }
    split; [|reflexivity].
    intros _ [H|[H|[H|[H|[H|[]]]]]]; subst n; discriminate.
  - destruct Hready as (Hload & Hcode & Hne).
    unfold Tools3.callTool. rewrite Hload, Hcode.
    cbn [truthy_opt_string name arguments]. unfold truthy_string.
    destruct (pc =? "") eqn:E; [apply String.eqb_eq in E; contradiction|].
    cbn [negb ListTools3.tools map tool_name In].
    rewrite list_ad_units_loops_agree, list_apps_loops_agree.
    destruct (n =? Tools3.GET_ACCOUNT) eqn:E3.
    { split.
      - intros H. exfalso. unfold Tools3.get_account in H.
        destruct (accounts_get _ _ _) as [err|[|] st d]; discriminate.
      - intros H. exfalso. apply H. apply String.eqb_eq in E3. subst n. cbn. tauto. }
    destruct (n =? Tools3.LIST_AD_UNITS) eqn:E4.
    { split; [intros H; now apply Hloop_u in H|].
      intros H. exfalso. apply H. apply String.eqb_eq in E4. subst n. cbn. tauto. }
    destruct (n =? Tools3.LIST_APPS) eqn:E5.
    { split; [intros H; now apply Hloop_a in H|].
      intros H. exfalso. apply H. apply String.eqb_eq in E5. subst n. cbn. tauto. }
    split; [|reflexivity].
    intros _ [H|[H|[H|[]]]]; subst n; discriminate.
Qed.

Lemma unknown_tool_iff_unlisted_witness :
  Tools5.callTool Demo.runtime Demo.authenticated Demo.env 1
    (mkRequest "list_mediation_groups" None)
  = (Throws (Error "Unknown tool: list_mediation_groups"), []).
Proof.
  destruct (unknown_tool_iff_unlisted Demo.runtime Demo.authenticated Demo.env 1
              Demo.client "pub-1" (mkRequest "list_mediation_groups" None))
    as [H5 _].
  - demo_is_ready.
  - apply H5.
    + intros v e H. discriminate.
    + cbn. intros [H|[H|[H|[H|[H|[]]]]]]; discriminate.
Defined.

(* ================================================================== *)
(** ** Further properties of the authorization flow *)

Section AuthorizationMore.

Variable rt : Runtime.

Lemma get_prop_own (v : JValue) (k : string) :
  truthy v = true ->
  k = "client_id" \/ k = "client_secret" \/ k = "refresh_token" ->
  @get_prop unit v k = Continue (own k v).
Proof.
  intros Hv [ -> | [ -> | -> ] ]; destruct v; try discriminate; reflexivity.
Qed.

Lemma get_prop_never_returns (v : JValue) (k : string) (r : unit) :
  @get_prop unit v k <> Return r.
Proof.
  destruct v; cbn [get_prop];
    repeat match goal with
           | |- context [if ?b then _ else _] => destruct b
           end; discriminate.
Qed.

Lemma read_key_never_returns (f : Files) (r : unit) :
  Auth.read_key rt f <> Return r.
Proof.
  unfold Auth.read_key.
  destruct (client_secret_json f) as [e|content]; [discriminate|].
  cbn [attempt bind].
  destruct (JSON_parse rt content) as [e|keys]; [discriminate|].
  cbn [attempt bind].
  destruct (get_prop keys "installed") as [installed| |] eqn:E; cbn [bind].
  - destruct (truthy installed); [discriminate|apply get_prop_never_returns].
  - now apply get_prop_never_returns in E.
  - discriminate.
Qed.

(** [authorize] for a flow that waits for the redirect. *)
Lemma authorize_awaiting w key requests :
  awaits_with rt w key ->
  Auth.authorize rt w requests
  = match Auth.serve rt (client_of_key key) requests
            (Auth.Pending, listening rt w key) with
    | (Auth.Fulfilled client, w') =>
        match Auth.saveCredentials rt client w' with
        | (inl e, w'') => (Auth.RejectedWith e, w'')
        | (inr _, w'') => (Auth.Fulfilled client, w'')
        end
    | other => other
    end.
Proof.
  intros (Hload & Hkey & Htruthy & Hlisten).
  unfold Auth.authorize, Auth.authenticate.
  rewrite Hload, Hkey, Htruthy. cbn [negb].
  rewrite !(get_prop_own key) by (assumption || tauto).
  cbn [bind]. now rewrite Hlisten.
Qed.

(** The callback with a code: the code is exchanged and the promise settled
    by the answer of the token endpoint. *)
Lemma serve_callback_with_code client u code rest w :
  carries_code rt u code ->
  Auth.serve rt client (Some u :: rest) (Auth.Pending, w)
  = let w' :=
      Auth.request_token
        (Auth.set_listener
           (Auth.res_end w
              "Authentication successful! Please return to the console.")
           Auth.Closed) code in
    match getToken rt client code with
    | inl e => (Auth.RejectedWith e, w')
    | inr tokens =>
        (Auth.Fulfilled (mkClient (clientId client) (clientSecret client)
                           (redirectUri client) tokens), w')
    end.
Proof.
  intros (Hu & qs & Hqs & Hcode & Hne).
  cbn [Auth.serve fst Auth.on_request].
  unfold is_callback in Hu. rewrite Hu, Hqs, Hcode.
  unfold truthy_string.
  destruct (code =? "") eqn:E; [apply String.eqb_eq in E; contradiction|].
  cbn [negb].
  destruct (getToken rt client code) as [e|tokens];
    cbn [Auth.settle_with]; now destruct rest.
Qed.

(** [saveCredentials] either throws before it touches the file, or fails
    while writing and leaves the part written of the serialization of an
    [authorized_user] object, or writes all of it; it leaves everything else
    as it was. *)
Lemma saveCredentials_cases client w :
  (exists e, Auth.saveCredentials rt client w = (inl e, w))
  \/ (exists v e written,
         own "type" v = JStr "authorized_user"
         /\ Auth.write_error w = Some (Auth.FailsAtWrite e written)
         /\ Auth.saveCredentials rt client w
            = (inl e,
               Auth.set_files w
                 (mkFiles (inr (substring 0 written (JSON_stringify rt v)))
                          (client_secret_json (Auth.files w)))))
  \/ (exists v,
         own "type" v = JStr "authorized_user"
         /\ Auth.write_error w = None
         /\ Auth.saveCredentials rt client w
            = (inr tt,
               Auth.set_files w
                 (mkFiles (inr (JSON_stringify rt v))
                          (client_secret_json (Auth.files w))))).
Proof.
  unfold Auth.saveCredentials.
  destruct (Auth.read_key rt (Auth.files w)) as [key|r|e] eqn:Ekey; cbn [bind].
  - destruct (truthy key) eqn:Htruthy; cbn [negb].
    + rewrite !(get_prop_own key) by (assumption || tauto). cbn [bind].
      destruct (get_prop (credentials client) "refresh_token")
        as [refresh_token|r|e] eqn:Er; cbn [bind].
      * destruct (Auth.write_error w) as [[e|e written]|].
        -- left. now exists e.
        -- right. left. eexists _, e, written.
           split; [|split; reflexivity]. reflexivity.
        -- right. right. eexists.
           split; [|split; reflexivity]. reflexivity.
      * now apply get_prop_never_returns in Er.
      * left. now exists e.
    + left. eexists. reflexivity.
  - now apply read_key_never_returns in Ekey.
  - left. now exists e.
Qed.

(** What [Auth.serve] does to the world, requests being taken one at a time
    up to the settlement: a reply is sent to the callback that settles the
    promise if its URL parsed, a code goes to the token endpoint only after
    that reply, the listener is closed exactly when a reply was sent; files
    and browser are not touched. *)
Lemma serve_effects client requests :
  forall w,
    let result := Auth.serve rt client requests (Auth.Pending, w) in
    exists replied codes,
      snd result
      = Auth.mkWorld (Auth.files w)
          (if nonempty replied then Auth.Closed else Auth.listener w)
          (Auth.browser w) (Auth.replies w ++ replied)
          (Auth.token_requests w ++ codes)
          (Auth.listen_error w) (Auth.write_error w)
      /\ List.length codes <= List.length replied <= 1
      /\ (fst result = Auth.Pending -> replied = [])
      /\ (forall c, fst result = Auth.Fulfilled c -> List.length codes = 1).
Proof.
  assert (Hstop : forall rest (s : Auth.Settlement OAuth2Client) w',
             s <> Auth.Pending ->
             Auth.serve rt client rest (s, w') = (s, w')).
  { intros rest s w' Hs. destruct rest; [reflexivity|].
    cbn [Auth.serve fst]. destruct s; [contradiction| | |]; reflexivity. }
  induction requests as [|r rest IH]; intros w result; subst result.
  - exists [], []. cbn. rewrite !app_nil_r. destruct w.
    split; [reflexivity|]. split; [lia|]. split; [reflexivity|discriminate].
  - cbn [Auth.serve fst]. destruct r as [u|]; cbn [Auth.on_request];
      [|apply IH].
    destruct (truthy_string u && includes "/oauth2callback" u); [|apply IH].
    destruct (URL_searchParams rt u "http://localhost:3000") as [e|qs].
    { cbn [Auth.settle_with]. rewrite Hstop by discriminate.
      exists [], []. cbn. rewrite !app_nil_r. destruct w.
      split; [reflexivity|]. split; [lia|]. split; [reflexivity|discriminate]. }
    destruct (Auth.searchParams_get "code" qs) as [c|];
      [destruct (truthy_string c);
       [destruct (getToken rt client c) as [e|tokens]|]|];
      cbn [Auth.settle_with]; rewrite Hstop by discriminate.
    1,2: exists ["Authentication successful! Please return to the console."], [c].
    3,4: exists ["Authentication successful! Please return to the console."], [].
    all: cbn; rewrite ?app_nil_r;
      (split; [reflexivity|]); (split; [lia|]);
      (split; [discriminate|]); intros c' H; first [reflexivity|discriminate].
Qed.

End AuthorizationMore.

(** The run of a successful authorization: the settlement and the world it
    leaves. *)
Lemma authorize_success_run :
  forall rt w key before u code tokens rest,
    awaits_with rt w key ->
    forallb passed_over before = true ->
    carries_code rt u code ->
    getToken rt (client_of_key key) code = inr tokens ->
    is_object tokens = true ->
    Auth.write_error w = None ->
    Auth.authorize rt w (before ++ Some u :: rest)
    = (Auth.Fulfilled
         (mkClient (own "client_id" key) (own "client_secret" key)
                   (Some "http://localhost:3000/oauth2callback") tokens),
       Auth.mkWorld
         (mkFiles (inr (JSON_stringify rt (token_object key tokens)))
                  (client_secret_json (Auth.files w)))
         Auth.Closed
         (Auth.browser w ++ [authorize_url rt key])
         (Auth.replies w
          ++ ["Authentication successful! Please return to the console."])
         (Auth.token_requests w ++ [code])
         None None).
Proof.
  intros rt w key before u code tokens rest Hawait Hbefore Hcode Htoken Hobj
         Hwrite.
  rewrite (authorize_awaiting rt w key _ Hawait).
  rewrite (serve_passed_over rt _ before _ _ Hbefore).
  rewrite (serve_callback_with_code rt _ u code rest _ Hcode).
  cbv zeta. rewrite Htoken.
  destruct Hawait as (Hload & Hkey & Htruthy & Hlisten).
  unfold Auth.saveCredentials.
  cbn [Auth.files Auth.request_token Auth.set_listener Auth.res_end listening
       Auth.open_browser Auth.write_error Auth.listener Auth.browser
       Auth.replies Auth.token_requests Auth.listen_error].
  rewrite Hkey. cbn [bind]. rewrite Htruthy. cbn [negb bind].
  rewrite !(get_prop_own key) by (assumption || tauto).
  destruct tokens; try discriminate.
  cbn [bind credentials get_prop]. rewrite Hwrite.
  destruct w as [fs l b rp tr le we]. cbn in Hwrite, Hlisten. subst le we.
  reflexivity.
Qed.

(** X13.  A successful authorization, end to end.  When no stored token loads, the
    client secret yields a key, port 3000 binds, the listener is first sent
    requests it passes over and then a callback with a code, the token
    endpoint answers with a tokens object and the disk accepts the write,
    [authorize] is fulfilled with a client carrying the tokens.  On the way
    the browser was opened once, on the URL asking for offline access with
    the two AdMob scopes; the callback was answered and the listener closed;
    the code was exchanged once; and the token file now holds the
    serialization of [{type: "authorized_user", client_id, client_secret,
    refresh_token}], the first two from the key and the last from the
    tokens. *)
Theorem authorization_succeeds :
  forall rt w key before u code tokens rest,
    awaits_with rt w key ->
    forallb passed_over before = true ->
    carries_code rt u code ->
    getToken rt (client_of_key key) code = inr tokens ->
    is_object tokens = true ->
    Auth.write_error w = None ->
    Auth.authorize rt w (before ++ Some u :: rest)
    = (Auth.Fulfilled
         (mkClient (own "client_id" key) (own "client_secret" key)
                   (Some "http://localhost:3000/oauth2callback") tokens),
       Auth.mkWorld
         (mkFiles (inr (JSON_stringify rt (token_object key tokens)))
                  (client_secret_json (Auth.files w)))
         Auth.Closed
         (Auth.browser w ++ [authorize_url rt key])
         (Auth.replies w
          ++ ["Authentication successful! Please return to the console."])
         (Auth.token_requests w ++ [code])
         None None).
Proof. exact authorize_success_run. Qed.

Lemma authorization_succeeds_witness :
  Auth.authorize Demo.runtime Demo.fresh
    ([Some "/favicon.ico"] ++ Some "/oauth2callback?code=4/abc" :: [])
  = (Auth.Fulfilled
       (mkClient (JStr "id") (JStr "secret")
                 (Some "http://localhost:3000/oauth2callback")
                 (JObj [("refresh_token", JStr "r")])),
     Auth.mkWorld
       (mkFiles (inr "<json>") (inr "secret"))
       Auth.Closed
       ["https://accounts.google.com/o/oauth2/v2/auth?scope=https://www.googleapis.com/auth/admob.readonly https://www.googleapis.com/auth/admob.report"]
       ["Authentication successful! Please return to the console."]
       ["4/abc"] None None).
Proof.
  apply (authorization_succeeds Demo.runtime Demo.fresh Demo.secret_key
           [Some "/favicon.ico"] "/oauth2callback?code=4/abc" "4/abc"
           (JObj [("refresh_token", JStr "r")]) []).
  - repeat split.
  - reflexivity.
  - split; [reflexivity|]. exists [("code", "4/abc")].
    repeat split. discriminate.
  - reflexivity.
  - reflexivity.
  - reflexivity.
Defined.

(** X14.  When the token endpoint refuses the code, the flow is rejected with the
    endpoint's error: the listener is closed and the code has been sent once,
    but no file is written. *)
Theorem token_exchange_failure :
  forall rt w key before u code e rest,
    awaits_with rt w key ->
    forallb passed_over before = true ->
    carries_code rt u code ->
    getToken rt (client_of_key key) code = inl e ->
    Auth.authorize rt w (before ++ Some u :: rest)
    = (Auth.RejectedWith e, Auth.request_token (answered rt w key) code)
    /\ Auth.files (Auth.request_token (answered rt w key) code) = Auth.files w
    /\ Auth.listener (Auth.request_token (answered rt w key) code) = Auth.Closed.
Proof.
  intros rt w key before u code e rest Hawait Hbefore Hcode Htoken.
  rewrite (authorize_awaiting rt w key _ Hawait).
  rewrite (serve_passed_over rt _ before _ _ Hbefore).
  rewrite (serve_callback_with_code rt _ u code rest _ Hcode).
  cbv zeta. rewrite Htoken. repeat split.
Qed.

Lemma token_exchange_failure_witness :
  fst (Auth.authorize Demo2.refused Demo.fresh
         ([] ++ Some "/oauth2callback?code=4/abc" :: []))
  = Auth.RejectedWith Demo2.invalid_grant.
Proof.
  destruct (token_exchange_failure Demo2.refused Demo.fresh Demo.secret_key
              [] "/oauth2callback?code=4/abc" "4/abc" Demo2.invalid_grant [])
    as [H _].
  - repeat split.
  - reflexivity.
  - split; [reflexivity|]. exists [("code", "4/abc")].
    repeat split. discriminate.
  - reflexivity.
  - now rewrite H.
Defined.

(** X15.  When the token file cannot be written, a flow that has obtained its
    tokens is still rejected, with the error of the write: the listener is
    closed and the code spent.  If the file could not be opened, the
    credential files are as they were.  If the write failed after the file
    was opened, the token file holds only the part of the new text that was
    written, its previous content is lost, and the client secret is as it
    was. *)
Theorem persist_failure :
  forall rt w key before u code tokens rest,
    awaits_with rt w key ->
    forallb passed_over before = true ->
    carries_code rt u code ->
    getToken rt (client_of_key key) code = inr tokens ->
    is_object tokens = true ->
    let spent := Auth.request_token (answered rt w key) code in
    let payload := JSON_stringify rt (token_object key tokens) in
    let result := Auth.authorize rt w (before ++ Some u :: rest) in
    (forall e, Auth.write_error w = Some (Auth.FailsAtOpen e) ->
               result = (Auth.RejectedWith e, spent)
               /\ Auth.files spent = Auth.files w)
    /\ (forall e written,
           Auth.write_error w = Some (Auth.FailsAtWrite e written) ->
           result
           = (Auth.RejectedWith e,
              Auth.set_files spent
                (mkFiles (inr (substring 0 written payload))
                         (client_secret_json (Auth.files w))))).
Proof.
  intros rt w key before u code tokens rest Hawait Hbefore Hcode Htoken Hobj
         spent payload result.
  subst result payload spent.
  rewrite (authorize_awaiting rt w key _ Hawait).
  rewrite (serve_passed_over rt _ before _ _ Hbefore).
  rewrite (serve_callback_with_code rt _ u code rest _ Hcode).
  cbv zeta. rewrite Htoken.
  destruct Hawait as (Hload & Hkey & Htruthy & Hlisten).
  destruct tokens; try discriminate.
  unfold Auth.saveCredentials.
  cbn [Auth.files Auth.request_token Auth.set_listener Auth.res_end listening
       answered Auth.open_browser Auth.write_error].
  rewrite Hkey. cbn [bind]. rewrite Htruthy. cbn [negb bind].
  rewrite !(get_prop_own key) by (assumption || tauto).
  cbn [bind credentials get_prop].
  split.
  - intros e ->. split; reflexivity.
  - intros e written ->. reflexivity.
Qed.

Lemma persist_failure_witness :
  Auth.authorize Demo.runtime Demo2.read_only
    ([] ++ Some "/oauth2callback?code=4/abc" :: [])
  = (Auth.RejectedWith (Error "EACCES: permission denied"),
     Auth.request_token (answered Demo.runtime Demo2.read_only Demo.secret_key)
                        "4/abc")
  /\ fst (Auth.authorize Demo.runtime Demo2.disk_full
            ([] ++ Some "/oauth2callback?code=4/abc" :: []))
     = Auth.RejectedWith (Error "ENOSPC: no space left on device")
  /\ Auth.files (snd (Auth.authorize Demo.runtime Demo2.disk_full
                        ([] ++ Some "/oauth2callback?code=4/abc" :: [])))
     = mkFiles (inr "<js") (inr "secret").
Proof.
  split.
  - destruct (persist_failure Demo.runtime Demo2.read_only Demo.secret_key
                [] "/oauth2callback?code=4/abc" "4/abc"
                (JObj [("refresh_token", JStr "r")]) [])
      as [Hopen _].
    + repeat split.
    + reflexivity.
    + split; [reflexivity|]. exists [("code", "4/abc")].
      repeat split. discriminate.
    + reflexivity.
    + reflexivity.
    + now apply Hopen.
  - destruct (persist_failure Demo.runtime Demo2.disk_full Demo.secret_key
                [] "/oauth2callback?code=4/abc" "4/abc"
                (JObj [("refresh_token", JStr "r")]) [])
      as [_ Hwrite].
    + repeat split.
    + reflexivity.
    + split; [reflexivity|]. exists [("code", "4/abc")].
      repeat split. discriminate.
    + reflexivity.
    + reflexivity.
    + rewrite (Hwrite (Error "ENOSPC: no space left on device") 3 eq_refl).
      split; reflexivity.
Defined.

(** X16.  Failures before the listener.  Without a loadable token: when the client
    secret cannot be read or parsed the flow is rejected with that error;
    when it has neither an [installed] nor a [web] key the flow is rejected
    with "No client secrets found in client_secret.json"; when port 3000
    cannot be bound the process ends on the unhandled ['error'] event.  In
    all three cases the world is untouched: no listener is left, no browser
    opened, no request served, no file written. *)
Theorem failures_before_listening :
  forall rt w requests,
    Auth.loadSavedCredentialsIfExist rt (Auth.files w) = None ->
    (forall e, Auth.read_key rt (Auth.files w) = Throw e ->
               Auth.authorize rt w requests = (Auth.RejectedWith e, w))
    /\ (forall key, Auth.read_key rt (Auth.files w) = Continue key ->
                    truthy key = false ->
                    Auth.authorize rt w requests
                    = (Auth.RejectedWith
                         (Error "No client secrets found in client_secret.json"),
                       w))
    /\ (forall key e, Auth.read_key rt (Auth.files w) = Continue key ->
                      truthy key = true ->
                      Auth.listen_error w = Some e ->
                      Auth.authorize rt w requests = (Auth.Crashed e, w))
    /\ (forall e, client_secret_json (Auth.files w) = inl e ->
                  Auth.read_key rt (Auth.files w) = Throw e).
Proof.
  intros rt w requests Hload. unfold Auth.authorize, Auth.authenticate.
  rewrite Hload. repeat split.
  - now intros e ->.
  - now intros key -> ->.
  - intros key e -> Htruthy ->. rewrite Htruthy. cbn [negb].
    now rewrite !(get_prop_own key) by (assumption || tauto).
  - intros e H. unfold Auth.read_key. now rewrite H.
Qed.

Lemma failures_before_listening_witness :
  Auth.authorize Demo.runtime Demo2.no_secret [Some "/oauth2callback?code=4/abc"]
  = (Auth.RejectedWith Demo.no_entry, Demo2.no_secret)
  /\ Auth.authorize Demo.runtime Demo2.port_taken
       [Some "/oauth2callback?code=4/abc"]
     = (Auth.Crashed (Error "listen EADDRINUSE: address already in use :::3000"),
        Demo2.port_taken).
Proof.
  split.
  - destruct (failures_before_listening Demo.runtime Demo2.no_secret
                [Some "/oauth2callback?code=4/abc"] eq_refl)
      as (Hthrow & _ & _ & Hread).
    apply Hthrow. now apply Hread.
  - destruct (failures_before_listening Demo.runtime Demo2.port_taken
                [Some "/oauth2callback?code=4/abc"] eq_refl)
      as (_ & _ & Hcrash & _).
    now apply (Hcrash Demo.secret_key).
Defined.

(** X17.  While no request is a callback the flow stays pending: the listener
    remains bound and the browser has been opened once, and nothing else has
    happened, however many other requests arrive. *)
Theorem flow_waits_for_callback :
  forall rt w key requests,
    awaits_with rt w key ->
    forallb passed_over requests = true ->
    Auth.authorize rt w requests = (Auth.Pending, listening rt w key)
    /\ Auth.listener (listening rt w key) = Auth.Listening
    /\ Auth.browser (listening rt w key) = (Auth.browser w ++ [authorize_url rt key])%list
    /\ Auth.files (listening rt w key) = Auth.files w.
Proof.
  intros rt w key requests Hawait Hreqs.
  rewrite (authorize_awaiting rt w key _ Hawait).
  rewrite <- (app_nil_r requests).
  rewrite (serve_passed_over rt _ requests [] _ Hreqs).
  repeat split.
Qed.

Lemma flow_waits_for_callback_witness :
  fst (Auth.authorize Demo.runtime Demo.fresh
         [Some "/favicon.ico"; None; Some "/"])
  = Auth.Pending.
Proof.
  destruct (flow_waits_for_callback Demo.runtime Demo.fresh Demo.secret_key
              [Some "/favicon.ico"; None; Some "/"])
    as [H _].
  - repeat split.
  - reflexivity.
  - now rewrite H.
Defined.

(** X24.  A callback request whose URL the URL parser refuses ends the flow
    with the parser's error, before the request is answered and before the
    listener is closed: the world is as it was when the flow began to wait,
    the listener still bound. *)
Theorem refused_callback_url :
  forall rt w key before u e rest,
    awaits_with rt w key ->
    forallb passed_over before = true ->
    is_callback u = true ->
    URL_searchParams rt u "http://localhost:3000" = inl e ->
    Auth.authorize rt w (before ++ Some u :: rest)
    = (Auth.RejectedWith e, listening rt w key)
    /\ Auth.listener (listening rt w key) = Auth.Listening
    /\ Auth.replies (listening rt w key) = Auth.replies w
    /\ Auth.files (listening rt w key) = Auth.files w.
Proof.
  intros rt w key before u e rest Hawait Hbefore Hu Hurl.
  rewrite (authorize_awaiting rt w key _ Hawait).
  rewrite (serve_passed_over rt _ before _ _ Hbefore).
  cbn [Auth.serve fst Auth.on_request].
  unfold is_callback in Hu. rewrite Hu, Hurl. cbn [Auth.settle_with].
  rewrite serve_settled. repeat split.
Qed.

Lemma refused_callback_url_witness :
  fst (Auth.authorize Demo.runtime Demo.fresh
         ([Some "/favicon.ico"] ++ Some "http://[::1/oauth2callback" :: []))
  = Auth.RejectedWith (TypeError "Invalid URL").
Proof.
  destruct (refused_callback_url Demo.runtime Demo.fresh Demo.secret_key
              [Some "/favicon.ico"] "http://[::1/oauth2callback"
              (TypeError "Invalid URL") [])
    as [H _].
  - repeat split.
  - reflexivity.
  - reflexivity.
  - reflexivity.
  - now rewrite H.
Defined.

(** Every run of [authorize], classified: the stored token loads and nothing
    happens; or the flow runs and leaves the credential files alone, not
    ending fulfilled; or it has exchanged a code and reached the write of the
    token file, which either succeeds, the flow ending fulfilled, or fails
    part way. *)
Lemma authorize_cases rt w requests :
  let result := Auth.authorize rt w requests in
  (exists client,
      Auth.loadSavedCredentialsIfExist rt (Auth.files w) = Some client
      /\ result = (Auth.Fulfilled client, w))
  \/ (Auth.loadSavedCredentialsIfExist rt (Auth.files w) = None
      /\ Auth.files (snd result) = Auth.files w
      /\ forall client, fst result <> Auth.Fulfilled client)
  \/ (Auth.loadSavedCredentialsIfExist rt (Auth.files w) = None
      /\ exists v code,
          own "type" v = JStr "authorized_user"
          /\ Auth.token_requests (snd result)
             = (Auth.token_requests w ++ [code])%list
          /\ ((exists client,
                  fst result = Auth.Fulfilled client
                  /\ Auth.files (snd result)
                     = mkFiles (inr (JSON_stringify rt v))
                               (client_secret_json (Auth.files w)))
              \/ (exists e written,
                     Auth.write_error w = Some (Auth.FailsAtWrite e written)
                     /\ fst result = Auth.RejectedWith e
                     /\ Auth.files (snd result)
                        = mkFiles
                            (inr (substring 0 written (JSON_stringify rt v)))
                            (client_secret_json (Auth.files w))))).
Proof.
  intros result. subst result.
  destruct (Auth.loadSavedCredentialsIfExist rt (Auth.files w)) as [client|]
    eqn:Hload.
  { left. exists client. split; [reflexivity|].
    unfold Auth.authorize. now rewrite Hload. }
  right.
  assert (Hnothing : forall (s : Auth.Settlement OAuth2Client),
             (forall client, s <> Auth.Fulfilled client) ->
             None = @None OAuth2Client
             /\ Auth.files (snd (s, w)) = Auth.files w
             /\ forall client, fst (s, w) <> Auth.Fulfilled client).
  { intros s Hs. repeat split. exact Hs. }
  destruct (Auth.read_key rt (Auth.files w)) as [key|r|e] eqn:Hkey.
  2,3: left; unfold Auth.authorize, Auth.authenticate; rewrite Hload, Hkey;
    now apply Hnothing.
  destruct (truthy key) eqn:Htruthy.
  2: { left. unfold Auth.authorize, Auth.authenticate.
       rewrite Hload, Hkey, Htruthy. now apply Hnothing. }
  destruct (Auth.listen_error w) as [e|] eqn:Hlisten.
  { left. unfold Auth.authorize, Auth.authenticate.
    rewrite Hload, Hkey, Htruthy. cbn [negb].
    rewrite !(get_prop_own key) by (assumption || tauto). cbn [bind].
    rewrite Hlisten. now apply Hnothing. }
  rewrite (authorize_awaiting rt w key requests)
    by (repeat split; assumption).
  destruct (serve_effects rt (client_of_key key) requests (listening rt w key))
    as (replied & codes & Hw & _ & _ & Hful).
  destruct (Auth.serve rt (client_of_key key) requests
              (Auth.Pending, listening rt w key)) as [s w'].
  cbn [snd fst] in Hw, Hful.
  cbn [listening Auth.open_browser Auth.set_listener Auth.files Auth.listener
       Auth.browser Auth.replies Auth.token_requests Auth.listen_error
       Auth.write_error] in Hw.
  assert (Hfiles : Auth.files w' = Auth.files w) by (now subst w').
  assert (Hwrite : Auth.write_error w' = Auth.write_error w) by (now subst w').
  destruct s as [|client|e|e]; cbv beta iota.
  1,3,4: left; split; [reflexivity|split; [exact Hfiles|discriminate]].
  assert (Hcode : exists code,
             forall files',
               Auth.token_requests (Auth.set_files w' files')
               = (Auth.token_requests w ++ [code])%list).
  { specialize (Hful client eq_refl).
    destruct codes as [|code [|? ?]]; try discriminate.
    exists code. intros files'. now subst w'. }
  destruct Hcode as [code Hcode].
  destruct (saveCredentials_cases rt client w')
    as [[e ->]|[(v & e & written & Hv & He & ->)|(v & Hv & _ & ->)]].
  - left. split; [reflexivity|split; [exact Hfiles|discriminate]].
  - right. split; [reflexivity|]. exists v, code.
    split; [exact Hv|]. split; [apply Hcode|].
    right. exists e, written. rewrite <- Hwrite, Hfiles. now repeat split.
  - right. split; [reflexivity|]. exists v, code.
    split; [exact Hv|]. split; [apply Hcode|].
    left. exists client. rewrite Hfiles. now split.
Qed.

(** X18.  Whatever happens, [authorize] never touches the client secret.  The
    token file changes only after a code has been sent to the token endpoint,
    and then only if [authorize] ends fulfilled or the write itself failed
    after the file was opened; with a disk that accepts the write it changes
    only if [authorize] ends fulfilled.  Whenever [authorize] ends fulfilled a
    token file is there. *)
Theorem token_file_touched_only_after_exchange :
  forall rt w requests,
    let result := Auth.authorize rt w requests in
    client_secret_json (Auth.files (snd result))
    = client_secret_json (Auth.files w)
    /\ (token_json (Auth.files (snd result)) <> token_json (Auth.files w) ->
        (exists code codes,
            Auth.token_requests (snd result)
            = (Auth.token_requests w ++ code :: codes)%list)
        /\ ((exists client, fst result = Auth.Fulfilled client)
            \/ (exists e written,
                   Auth.write_error w = Some (Auth.FailsAtWrite e written)
                   /\ fst result = Auth.RejectedWith e)))
    /\ (Auth.write_error w = None ->
        token_json (Auth.files (snd result)) <> token_json (Auth.files w) ->
        exists client, fst result = Auth.Fulfilled client)
    /\ (forall client, fst result = Auth.Fulfilled client ->
          exists content, token_json (Auth.files (snd result)) = inr content).
Proof.
  intros rt w requests result. subst result.
  destruct (authorize_cases rt w requests)
    as [(client & Hload & ->)
       |[(Hload & Hfiles & Hnot)
        |(Hload & v & code & Hv & Hcode
          & [(client & Hful & Hfiles)|(e & written & He & Hrej & Hfiles)])]].
  - cbn [fst snd]. split; [reflexivity|]. split; [|split].
    + intros H. now contradiction H.
    + intros _ H. now contradiction H.
    + intros _ _. unfold Auth.loadSavedCredentialsIfExist in Hload.
      destruct (token_json (Auth.files w)) as [e|content]; [discriminate|].
      now exists content.
  - rewrite Hfiles. split; [reflexivity|]. split; [|split].
    + intros H. now contradiction H.
    + intros _ H. now contradiction H.
    + intros client H. now apply Hnot in H.
  - rewrite Hfiles. cbn [client_secret_json token_json].
    split; [reflexivity|]. split; [|split].
    + intros _. split; [now exists code, []|]. left. now exists client.
    + intros _ _. now exists client.
    + intros _ _. eexists. reflexivity.
  - rewrite Hfiles. cbn [client_secret_json token_json].
    split; [reflexivity|]. split; [|split].
    + intros _. split; [now exists code, []|]. right. now exists e, written.
    + intros Hnone. rewrite Hnone in He. discriminate.
    + intros client H. rewrite Hrej in H. discriminate.
Qed.

(** X20.  Once [authorize] has succeeded as in X13, running it again does
    nothing, provided the text just written loads back ([JSON.parse] accepts
    it and [google.auth.fromJSON] accepts the result): the second run is
    fulfilled from the stored token and leaves the world as the first run
    left it, whatever requests arrive. *)
Theorem authorize_again_is_idle :
  forall rt w key before u code tokens rest,
    awaits_with rt w key ->
    forallb passed_over before = true ->
    carries_code rt u code ->
    getToken rt (client_of_key key) code = inr tokens ->
    is_object tokens = true ->
    Auth.write_error w = None ->
    loads_back rt (token_object key tokens) ->
    let w1 := snd (Auth.authorize rt w (before ++ Some u :: rest)) in
    forall requests',
    exists client',
      Auth.authorize rt w1 requests' = (Auth.Fulfilled client', w1).
Proof.
  intros rt w key before u code tokens rest Hawait Hbefore Hcode Htoken Hobj
         Hwrite (v' & client' & Hparse & Hfrom) w1 requests'.
  subst w1.
  rewrite (authorize_success_run rt w key before u code tokens rest
             Hawait Hbefore Hcode Htoken Hobj Hwrite).
  exists client'. unfold Auth.authorize, Auth.loadSavedCredentialsIfExist.
  cbn [snd Auth.files token_json]. now rewrite Hparse, Hfrom.
Qed.

Lemma authorize_again_is_idle_witness :
  let w1 :=
    snd (Auth.authorize Demo3.runtime Demo.fresh
           ([] ++ Some "/oauth2callback?code=4/abc" :: [])) in
  exists client',
    Auth.authorize Demo3.runtime w1 [Some "/oauth2callback?code=4/abc"]
    = (Auth.Fulfilled client', w1).
Proof.
  apply (authorize_again_is_idle Demo3.runtime Demo.fresh Demo.secret_key
           [] "/oauth2callback?code=4/abc" "4/abc"
           (JObj [("refresh_token", JStr "r")]) []).
  - repeat split.
  - reflexivity.
  - split; [reflexivity|]. exists [("code", "4/abc")].
    repeat split. discriminate.
  - reflexivity.
  - reflexivity.
  - reflexivity.
  - eexists _, _. split; reflexivity.
Defined.

(* ================================================================== *)
(** ** Properties of the prompts *)

(** X21.  The prompts that [prompts/list] advertises are exactly the prompts that
    [prompts/get] knows: a request is answered by the exception "Unknown
    prompt: ..." if and only if its name is not in the list. *)
Theorem unknown_prompt_iff_unlisted :
  forall request,
    Prompts.getPrompt request
    = Throws (Error ("Unknown prompt: " ++ Prompts.requested request))
    <-> ~ In (Prompts.requested request)
             (map Prompts.prompt_name Prompts.prompts).
Proof.
  intros [n args]. unfold Prompts.getPrompt.
  cbn [Prompts.requested Prompts.prompt_args Prompts.prompts map
       Prompts.prompt_name In].
  destruct (n =? Prompts.TOP_PERFORMING_APPS_LAST7D) eqn:E1.
  { apply String.eqb_eq in E1. subst n. split; [discriminate|].
    intros H. exfalso. apply H. now left. }
  destruct (n =? Prompts.TOP_PERFORMING_AD_UNITS_LAST7D) eqn:E2.
  { apply String.eqb_eq in E2. subst n. split.
    - destruct args as [kv|]; [|discriminate].
      destruct (negb (truthy_opt_string (Prompts.argument "admob_app_id" kv)));
        discriminate.
    - intros H. exfalso. apply H. right. now left. }
  split; [|reflexivity].
  intros _ [H|[H|[]]]; subst n; discriminate.
Qed.

(** X22.  A listed prompt is answered exactly when the request supplies, with a
    non-empty value, every argument that the list declares [required]; when
    one is missing or empty, or when the prompt declares arguments and the
    request has none, the handler throws. *)
Theorem prompt_answered_iff_required_supplied :
  forall p args,
    In p Prompts.prompts ->
    (exists result,
        Prompts.getPrompt (Prompts.mkPromptRequest (Prompts.prompt_name p) args)
        = Returns result)
    <-> (forall a, In a (declared p) -> Prompts.required a = true ->
                   supplied a args = true).
Proof.
  intros p args Hp. cbn [Prompts.prompts In] in Hp.
  destruct Hp as [ <- | [ <- | [] ] ];
    unfold Prompts.getPrompt, declared;
    cbn [Prompts.requested Prompts.prompt_args Prompts.prompt_name
         Prompts.prompt_arguments Prompts.TOP_PERFORMING_APPS_LAST7D
         Prompts.TOP_PERFORMING_AD_UNITS_LAST7D String.eqb Ascii.eqb Bool.eqb].
  - split; [intros _ a []|intros _; eexists; reflexivity].
  - split.
    + intros [result H] a [ <- | [] ] _.
      destruct args as [kv|]; [|discriminate].
      cbn [supplied Prompts.argument_name].
      destruct (truthy_opt_string (Prompts.argument "admob_app_id" kv));
        [reflexivity|cbn [negb] in H; discriminate].
    + intros H.
      specialize (H _ (or_introl eq_refl) eq_refl).
      destruct args as [kv|]; [|discriminate].
      cbn [supplied Prompts.argument_name] in H.
      rewrite H. cbn [negb]. eexists. reflexivity.
Qed.

Lemma prompt_answered_iff_required_supplied_witness :
  exists result,
    Prompts.getPrompt
      (Prompts.mkPromptRequest "top_performing_ad_units_last7d"
         (Some [("admob_app_id", "ca-app-pub-1~2")]))
    = Returns result.
Proof.
  apply (prompt_answered_iff_required_supplied
           (Prompts.mkPrompt Prompts.TOP_PERFORMING_AD_UNITS_LAST7D
              "Top performing ad units with earnings (Last 7 days)"
              "List top performing ad units in the last 7 days within a specific app."
              (Some [ Prompts.mkArgument "admob_app_id"
                        "AdMob app ID (e.g., ca-app-pub-3940256099942544~3347511713)"
                        true ]))
           (Some [("admob_app_id", "ca-app-pub-1~2")])).
  - right. left. reflexivity.
  - intros a [ <- | [] ] _. reflexivity.
Defined.

Section Strings.

Lemma length_append (a b : string) :
  String.length (a ++ b) = String.length a + String.length b.
Proof. induction a as [|c a IH]; [reflexivity|]. cbn. now rewrite IH. Qed.

Lemma append_cancel_right (s : string) :
  forall a b, a ++ s = b ++ s -> a = b.
Proof.
  induction a as [|c a IH]; intros [|d b] H.
  - reflexivity.
  - exfalso. apply (f_equal String.length) in H.
    cbn in H. rewrite length_append in H. lia.
  - exfalso. apply (f_equal String.length) in H.
    cbn in H. rewrite length_append in H. lia.
  - cbn in H. injection H as -> H. now rewrite (IH b H).
Qed.

End Strings.

(** X23.  The ad-units prompt carries the application identifier it is given,
    unchanged, inside a fixed sentence: it is one user message, and two
    requests are answered alike only if their identifiers are the same. *)
Theorem ad_units_prompt_carries_app_id :
  forall kv appId,
    Prompts.argument "admob_app_id" kv = Some appId ->
    appId <> "" ->
    Prompts.getPrompt
      (Prompts.mkPromptRequest Prompts.TOP_PERFORMING_AD_UNITS_LAST7D (Some kv))
    = Returns
        (user_message
           ("List top performing ad units with estimated earnings for all mediated networks within the AdMob app ID "
            ++ appId
            ++ " over the last 7 days, sorted by estimated earnings."))
    /\ (forall kv' appId',
           Prompts.argument "admob_app_id" kv' = Some appId' ->
           appId' <> "" ->
           Prompts.getPrompt
             (Prompts.mkPromptRequest Prompts.TOP_PERFORMING_AD_UNITS_LAST7D
                (Some kv'))
           = Prompts.getPrompt
               (Prompts.mkPromptRequest Prompts.TOP_PERFORMING_AD_UNITS_LAST7D
                  (Some kv)) ->
           appId' = appId).
Proof.
  assert (Hget : forall kv appId,
             Prompts.argument "admob_app_id" kv = Some appId -> appId <> "" ->
             Prompts.getPrompt
               (Prompts.mkPromptRequest Prompts.TOP_PERFORMING_AD_UNITS_LAST7D
                  (Some kv))
             = Returns
                 (user_message
                    ("List top performing ad units with estimated earnings for all mediated networks within the AdMob app ID "
                     ++ appId
                     ++ " over the last 7 days, sorted by estimated earnings."))).
  { intros kv appId Harg Hne. unfold Prompts.getPrompt.
    cbn [Prompts.requested Prompts.prompt_args
         Prompts.TOP_PERFORMING_APPS_LAST7D
         Prompts.TOP_PERFORMING_AD_UNITS_LAST7D String.eqb Ascii.eqb Bool.eqb].
    rewrite Harg. cbn [truthy_opt_string]. unfold truthy_string.
    destruct (appId =? "") eqn:E; [apply String.eqb_eq in E; contradiction|].
    reflexivity. }
  intros kv appId Harg Hne. split; [now apply Hget|].
  intros kv' appId' Harg' Hne' H.
  rewrite (Hget kv appId Harg Hne), (Hget kv' appId' Harg' Hne') in H.
  injection H as H.
  now apply append_cancel_right in H.
Qed.

Lemma ad_units_prompt_carries_app_id_witness :
  Prompts.getPrompt
    (Prompts.mkPromptRequest Prompts.TOP_PERFORMING_AD_UNITS_LAST7D
       (Some [("admob_app_id", "ca-app-pub-1~2")]))
  = Returns
      (user_message
         "List top performing ad units with estimated earnings for all mediated networks within the AdMob app ID ca-app-pub-1~2 over the last 7 days, sorted by estimated earnings.").
Proof.
  destruct (ad_units_prompt_carries_app_id
              [("admob_app_id", "ca-app-pub-1~2")] "ca-app-pub-1~2")
    as [H _].
  - reflexivity.
  - discriminate.
  - exact H.
Defined.
